(** * ORGACO record manager: a shallow embedding of [streamlit_app.py] and [app.py]

    The repository holds two Streamlit scripts over one table of group records.
    [streamlit_app.py] keeps the whole table in session state as a pandas
    DataFrame and writes it back to a Google Sheet; [app.py] talks to a
    PostgreSQL table through SQL statements.

    The embedding follows the scripts: Python values that sit in DataFrame cells
    are an inductive [cell]; a DataFrame is its column labels and its rows; the
    backend, the session state and the elements shown on the page are fields of
    an explicit world threaded through a small state-and-exception monad. *)

From Stdlib Require Import ZArith NArith Ascii String.
From stdpp Require Import base decidable option list sorting gmap strings fin_maps.

Local Open Scope Z_scope.

(** ** Python values *)

Module Py.

(** A Python [str] is a sequence of code points. *)
Abbreviation str := (list N).

(** The [str] a literal of this file stands for: one code point for each of
    its characters. *)
Definition str_of (s : string) : str := N_of_ascii <$> list_ascii_of_string s.

(** [c.isspace()] for one code point: TAB..CR, FS..US and SPACE, NEL, NBSP,
    the Ogham space mark, EN QUAD..HAIR SPACE, the line and the paragraph
    separator, the narrow no-break, the medium mathematical and the
    ideographic space. *)
Definition isspace (c : N) : bool :=
  ((0x09 <=? c) && (c <=? 0x0D) || (0x1C <=? c) && (c <=? 0x20)
   || (c =? 0x85) || (c =? 0xA0) || (c =? 0x1680)
   || (0x2000 <=? c) && (c <=? 0x200A) || (c =? 0x2028) || (c =? 0x2029)
   || (c =? 0x202F) || (c =? 0x205F) || (c =? 0x3000))%N.

(** Stripping the code points [space] holds of from the left and from the
    right end. *)
Fixpoint lstrip_of (space : N → bool) (s : str) : str :=
  match s with
  | [] => []
  | c :: s' => if space c then lstrip_of space s' else s
  end.

Fixpoint rstrip_of (space : N → bool) (s : str) : str :=
  match s with
  | [] => []
  | c :: s' =>
      match rstrip_of space s' with
      | [] => if space c then [] else [c]
      | t => c :: t
      end
  end.

(** [s.strip()] *)
Definition strip (s : str) : str := rstrip_of isspace (lstrip_of isspace s).

(** The code points that stand for the decimal digit zero, one for each
    script (Unicode 14, the database of Python 3.11); the nine code points
    after each are its digits one to nine. *)
Definition decimal_zeros : list N :=
  [ 0x30; 0x660; 0x6F0; 0x7C0; 0x966; 0x9E6; 0xA66; 0xAE6; 0xB66; 0xBE6; 0xC66;
    0xCE6; 0xD66; 0xDE6; 0xE50; 0xED0; 0xF20; 0x1040; 0x1090; 0x17E0; 0x1810;
    0x1946; 0x19D0; 0x1A80; 0x1A90; 0x1B50; 0x1BB0; 0x1C40; 0x1C50; 0xA620;
    0xA8D0; 0xA900; 0xA9D0; 0xA9F0; 0xAA50; 0xABF0; 0xFF10; 0x104A0; 0x10D30;
    0x11066; 0x110F0; 0x11136; 0x111D0; 0x112F0; 0x11450; 0x114D0; 0x11650;
    0x116C0; 0x11730; 0x118E0; 0x11950; 0x11C50; 0x11D50; 0x11DA0; 0x16A60;
    0x16AC0; 0x16B50; 0x1D7CE; 0x1D7D8; 0x1D7E2; 0x1D7EC; 0x1D7F6; 0x1E140;
    0x1E2F0; 0x1E950; 0x1FBF0 ]%N.

(** The value of a code point as a decimal digit, if it is one. *)
Definition decimal (c : N) : option Z :=
  zero ← List.find (λ zero, (zero <=? c) && (c <? zero + 10))%N decimal_zeros;
  Some (Z.of_N (c - zero)).

(** The digit part of an integer literal: decimal digits, where a single
    underscore may stand between two digits. [after_digit] tells whether the
    code point just read was a digit. *)
Fixpoint digits_value (acc : Z) (after_digit : bool) (s : str) : option Z :=
  match s with
  | [] => if after_digit then Some acc else None
  | c :: s' =>
      match decimal c with
      | Some d => digits_value (10 * acc + d) true s'
      | None =>
          if (c =? 0x5F)%N && after_digit then digits_value acc false s'
          else None
      end
  end.

(** What [int()] skips at both ends of its argument: white space from code
    point 128 on is read as a blank, and then the blanks and TAB..CR are
    skipped. FS..US are white space for [str.isspace], not for [int()]. *)
Definition int_space (c : N) : bool :=
  ((0x09 <=? c) && (c <=? 0x0D) || (c =? 0x20) || (0x80 <=? c) && isspace c)%N.

(** [sys.int_max_str_digits], as it is set when the interpreter starts: a
    literal with more digits is refused. *)
Definition int_max_str_digits : nat := 4300.

(** [int(s)] for a string [s]; [None] stands for the [ValueError]. *)
Definition int (s : str) : option Z :=
  let t := rstrip_of int_space (lstrip_of int_space s) in
  let '(negative, digits) :=
    match t with
    | c :: t' => if (c =? 0x2B)%N then (false, t')
                 else if (c =? 0x2D)%N then (true, t')
                 else (false, t)
    | [] => (false, t)
    end in
  if (length (filter (λ c, is_Some (decimal c)) digits) <=? int_max_str_digits)%nat
  then (λ z, if negative : bool then - z else z) <$> digits_value 0 false digits
  else None.

(** The order of [str]: by code point, from the left, a proper prefix coming
    first. *)
Fixpoint leb (s t : str) : bool :=
  match s, t with
  | [], _ => true
  | _ :: _, [] => false
  | a :: s', b :: t' => ((a <? b) || (a =? b) && leb s' t')%N
  end.

Definition le (s t : str) : Prop := leb s t.

#[global] Instance le_dec : RelDecision le.
Proof. intros s t. unfold le. apply _. Defined.

Inductive exn : Type :=
| KeyError (label : string)
| ValueError
| OverflowError
| IndexError
| TypeError
| AttributeError
| ConnectionError
| BackendError
| RerunException.

(** [st.rerun()] raises a script-control exception, which derives from
    [BaseException]: [except Exception] does not catch it. *)
Definition is_Exception (e : exn) : bool :=
  match e with
  | RerunException => false
  | _ => true
  end.

(** The outcome of an expression that may raise. *)
Inductive result (A : Type) : Type :=
| Ok (a : A)
| Raise (e : exn).
Arguments Ok {A} a.
Arguments Raise {A} e.

#[global] Instance result_ret : MRet result := @Ok.
#[global] Instance result_fmap : FMap result := λ A B f r,
  match r with
  | Ok a => Ok (f a)
  | Raise e => Raise e
  end.
#[global] Instance result_bind : MBind result := λ A B k r,
  match r with
  | Ok a => k a
  | Raise e => Raise e
  end.

(** [datetime.date]; a Python date has a year between 1 and 9999. *)
Record date : Type := Date { year : nat; month : nat; day : nat }.

Definition digit_char (n : nat) : N := 0x30 + N.of_nat (n mod 10).

(** [d.strftime('%Y-%m-%d')]: the year on four digits, month and day on two. *)
Definition strftime (d : date) : str :=
  [ digit_char (year d / 1000); digit_char (year d / 100);
    digit_char (year d / 10); digit_char (year d); 0x2D%N;
    digit_char (month d / 10); digit_char (month d); 0x2D%N;
    digit_char (day d / 10); digit_char (day d) ].

End Py.

(** A literal is read as the [str] of its characters where a [str] is
    expected. *)
Coercion Py.str_of : string >-> list.

Export Py (result(..), exn(..), date(..)).

(** ** DataFrame cells *)

(** What a cell of the sheet holds once pandas has read it: nothing ([NaN],
    [None], [NaT]), a number or a text. Numbers are integers here, as the
    year column's are. *)
Inductive cell : Type :=
| VMissing
| VInt (z : Z)
| VStr (s : Py.str).

#[global] Instance cell_eq_dec : EqDecision cell.
Proof. solve_decision. Defined.

#[global] Instance cell_inhabited : Inhabited cell := populate VMissing.

(** A row maps column labels to cells; a label the row does not hold reads as
    [VMissing]. A Python [dict] keeps its keys, which are distinct, in
    insertion order. The labels are names: the scripts compare them and look
    them up, and a [string] stands for each. *)
Abbreviation row := (gmap string cell).
Abbreviation dict := (list (string * cell)).

(** Python's [a == b] on cell values: [NaN] equals nothing, itself included. *)
Definition cell_eqb (a b : cell) : bool :=
  match a, b with
  | VMissing, _ | _, VMissing => false
  | _, _ => bool_decide (a = b)
  end.

(** Truth value of a cell in an [if]: the empty string and zero are false,
    NaN is true. *)
Definition truthy (c : cell) : bool :=
  match c with
  | VMissing => true
  | VInt z => negb (z =? 0)
  | VStr s => negb (bool_decide (s = []))
  end.

(** ** pandas *)

Module pd.

(** Every frame of the scripts carries the default [RangeIndex] (as read from
    the sheet, and after [ignore_index=True]), so the label of a row is its
    position in [rows]. *)
Record DataFrame : Type := Frame { columns : list string; rows : list row }.

#[global] Instance DataFrame_eq_dec : EqDecision DataFrame.
Proof. solve_decision. Defined.

(** [pd.DataFrame(columns=cols)] *)
Definition empty_frame (cols : list string) : DataFrame := Frame cols [].

(** [df.empty] *)
Definition empty (df : DataFrame) : bool := bool_decide (rows df = []).

(** A row laid out on the labels [cols]; absent labels are filled with NaN. *)
Definition reindex (cols : list string) (r : row) : row :=
  list_to_map ((λ c, (c, r !!! c)) <$> cols).

(** [df[c]] *)
Definition getitem (df : DataFrame) (c : string) : result (list cell) :=
  if decide (c ∈ columns df) then Ok ((λ r : row, r !!! c) <$> rows df)
  else Raise (KeyError c).

Definition with_label (c : string) (cols : list string) : list string :=
  if decide (c ∈ cols) then cols else cols ++ [c].

(** [df[c] = series], the series being as long as the frame *)
Definition setitem (df : DataFrame) (c : string) (vals : list cell) : DataFrame :=
  Frame (with_label c (columns df))
        (zip_with (λ (r : row) v, <[c := v]> r) (rows df) vals).

(** [df[c] = v] for a scalar [v] *)
Definition setitem_scalar (df : DataFrame) (c : string) (v : cell) : DataFrame :=
  Frame (with_label c (columns df)) ((λ r : row, <[c := v]> r) <$> rows df).

(** [df[cols]] for a list of labels *)
Definition select (df : DataFrame) (cols : list string) : result DataFrame :=
  match list_find (λ c, c ∉ columns df) cols with
  | Some (_, c) => Raise (KeyError c)
  | None => Ok (Frame cols (reindex cols <$> rows df))
  end.

(** [df.drop(columns=cols)] *)
Definition drop_columns (df : DataFrame) (cols : list string) : result DataFrame :=
  match list_find (λ c, c ∉ columns df) cols with
  | Some (_, c) => Raise (KeyError c)
  | None =>
      let keep := filter (λ c, c ∉ cols) (columns df) in
      Ok (Frame keep (reindex keep <$> rows df))
  end.

(** [series == v] *)
Definition eq_mask (col : list cell) (v : cell) : list bool :=
  (λ c, cell_eqb c v) <$> col.

(** [df[mask]] *)
Fixpoint where_ {A} (l : list A) (mask : list bool) : list A :=
  match l, mask with
  | x :: l, b :: mask => if b : bool then x :: where_ l mask else where_ l mask
  | _, _ => []
  end.

Definition filter_rows (df : DataFrame) (mask : list bool) : DataFrame :=
  Frame (columns df) (where_ (rows df) mask).

(** [df[mask].index]: the labels of the rows the mask keeps *)
Definition index_where (mask : list bool) : list nat :=
  where_ (seq 0 (length mask)) mask.

(** [l[0]] *)
Definition first {A} (l : list A) : result A :=
  match l with
  | x :: _ => Ok x
  | [] => Raise IndexError
  end.

(** [df.loc[idx, c] = v] for a row label [idx] of the frame; a label [c] the
    frame lacks becomes a new column, NaN in the other rows. *)
Definition loc_set (df : DataFrame) (idx : nat) (c : string) (v : cell) : DataFrame :=
  if decide (c ∈ columns df)
  then Frame (columns df) (alter (λ r : row, <[c := v]> r) idx (rows df))
  else Frame (columns df ++ [c])
             (alter (λ r : row, <[c := v]> r) idx
                    ((λ r : row, <[c := VMissing]> r) <$> rows df)).

(** [pd.DataFrame(records, columns=cols)] for a list of dicts *)
Definition of_records (records : list dict) (cols : list string) : DataFrame :=
  Frame cols ((λ d : dict, reindex cols (list_to_map d)) <$> records).

(** [pd.concat([a, b], ignore_index=True)] *)
Definition concat (a b : DataFrame) : DataFrame :=
  let cols := columns a ++ filter (λ c, c ∉ columns a) (columns b) in
  Frame cols ((reindex cols <$> rows a) ++ (reindex cols <$> rows b)).

(** [df.to_dict('records')] *)
Definition to_dict_records (df : DataFrame) : list dict :=
  (λ r : row, (λ c, (c, r !!! c)) <$> columns df) <$> rows df.

(** [series.fillna(v)] *)
Definition fillna (v : cell) (col : list cell) : list cell :=
  (λ c, match c with VMissing => v | _ => c end) <$> col.

(** The integers of [astype(int)] have 64 bits. *)
Definition is_int64 (z : Z) : bool :=
  (-9223372036854775808 <=? z) && (z <=? 9223372036854775807).

(** [series.astype(int)] on a column of Python objects: texts go through
    [int()], NaN cannot be cast, and an integer that does not fit in 64 bits
    raises [OverflowError]. *)
Definition int_of_cell (c : cell) : result Z :=
  z ← match c with
      | VInt z => Ok z
      | VStr s => match Py.int s with Some z => Ok z | None => Raise ValueError end
      | VMissing => Raise ValueError
      end;
  if is_int64 z then Ok z else Raise OverflowError.

Fixpoint astype_int (col : list cell) : result (list cell) :=
  match col with
  | [] => Ok []
  | c :: col =>
      z ← int_of_cell c;
      rest ← astype_int col;
      Ok (VInt z :: rest)
  end.

(** [series.dt.strftime('%Y-%m-%d')]: [NaT] gives NaN. *)
Definition dt_strftime (col : list (option date)) : list cell :=
  (λ t, match t with Some d => VStr (Py.strftime d) | None => VMissing end) <$> col.

Definition text_of (c : cell) : option Py.str :=
  match c with VStr s => Some s | _ => None end.

Definition int_of (c : cell) : option Z :=
  match c with VInt z => Some z | _ => None end.

(** [series.sort_values()]: ascending, NaN last. Python orders texts by code
    point and numbers by value; comparing a text with a number raises
    [TypeError]. *)
Definition sort_values (col : list cell) : result (list cell) :=
  let present := filter (λ c, c ≠ VMissing) col in
  let missing := filter (λ c, c = VMissing) col in
  if forallb (λ c, bool_decide (is_Some (text_of c))) present
  then Ok ((VStr <$> merge_sort Py.le (omap text_of present)) ++ missing)
  else if forallb (λ c, bool_decide (is_Some (int_of c))) present
  then Ok ((VInt <$> merge_sort Z.le (omap int_of present)) ++ missing)
  else Raise TypeError.

(** [series.unique()]: the distinct values in order of first appearance. *)
Fixpoint unique_from {A} `{EqDecision A} (seen : list A) (col : list A) : list A :=
  match col with
  | [] => []
  | c :: col =>
      if decide (c ∈ seen) then unique_from seen col
      else c :: unique_from (c :: seen) col
  end.

Definition unique (col : list cell) : list cell := unique_from [] col.

End pd.

Export pd (DataFrame(..), columns, rows).

(** ** Script fragments

    A fragment of a Streamlit script reads and changes a world [W] (backend,
    session state, page) and returns or raises. What was changed before an
    exception stays changed. *)

Definition script (W A : Type) : Type := W → result A * W.

#[global] Instance script_ret {W} : MRet (script W) := λ A a w, (Ok a, w).
#[global] Instance script_bind {W} : MBind (script W) := λ A B k m w,
  match m w with
  | (Ok a, w') => k a w'
  | (Raise e, w') => (Raise e, w')
  end.

Definition lift {W A} (r : result A) : script W A := λ w, (r, w).
Definition update {W} (f : W → W) : script W unit := λ w, (Ok (), f w).

(** [try: body except Exception as e: handler e] *)
Definition try_except {W A} (body : script W A) (handler : exn → script W A) : script W A :=
  λ w, match body w with
       | (Raise e, w') => if Py.is_Exception e then handler e w' else (Raise e, w')
       | done => done
       end.

(** ** [streamlit_app.py]: the spreadsheet variant *)

Module StreamlitApp.

Import pd.

(** [COLUMNS], lines 16-20. *)
Definition COLUMNS : list string :=
  [ "Group_Association"; "President_Name"; "President_Email"; "President_Contact";
    "Secretary_Name"; "Secretary_Email"; "Secretary_Contact"; "Treasurer_Name";
    "Treasurer_Email"; "Treasurer_Contact"; "Last_Fee_Paid_Year"; "Web_Data_Updated" ].

(** What the script puts on the page. *)
Inductive element : Type :=
| error_connecting
| error_writing
| exception_shown (e : exn)
| success_updated (name : cell) (stamp : Py.str)
| error_preparing (e : exn)
| warning_no_data
| info_select
| error_name_required
| error_exists (name : Py.str)
| success_added (name : Py.str)
| balloons.

(** Calls that reach the Google Sheets service. *)
Inductive call : Type :=
| Connect
| Read
| Write (df : DataFrame).

(** The world the script runs in. [conn_ok], [read_ok] and [write_ok] say how
    the service answers; [sheet] is the worksheet; [calls] records the calls
    issued; [read_cache] is the frame the connection keeps of a read
    ([ttl=600]); [cache] is the [st.cache_data] entry of [load_data], with the
    elements to replay; [df_orgaco] is [st.session_state.df_orgaco]. *)
Record World : Type := {
  conn_ok : bool;
  read_ok : bool;
  write_ok : bool;
  sheet : DataFrame;
  calls : list call;
  read_cache : option DataFrame;
  cache : option (DataFrame * list element);
  df_orgaco : option DataFrame;
  page : list element;
}.

Definition set_sheet (df : DataFrame) (w : World) : World :=
  {| conn_ok := conn_ok w; read_ok := read_ok w; write_ok := write_ok w;
     sheet := df; calls := calls w; read_cache := read_cache w; cache := cache w;
     df_orgaco := df_orgaco w; page := page w |}.

Definition log_call (c : call) (w : World) : World :=
  {| conn_ok := conn_ok w; read_ok := read_ok w; write_ok := write_ok w;
     sheet := sheet w; calls := calls w ++ [c]; read_cache := read_cache w;
     cache := cache w; df_orgaco := df_orgaco w; page := page w |}.

Definition set_read_cache (c : option DataFrame) (w : World) : World :=
  {| conn_ok := conn_ok w; read_ok := read_ok w; write_ok := write_ok w;
     sheet := sheet w; calls := calls w; read_cache := c; cache := cache w;
     df_orgaco := df_orgaco w; page := page w |}.

Definition set_cache (c : option (DataFrame * list element)) (w : World) : World :=
  {| conn_ok := conn_ok w; read_ok := read_ok w; write_ok := write_ok w;
     sheet := sheet w; calls := calls w; read_cache := read_cache w; cache := c;
     df_orgaco := df_orgaco w; page := page w |}.

Definition set_df_orgaco (df : DataFrame) (w : World) : World :=
  {| conn_ok := conn_ok w; read_ok := read_ok w; write_ok := write_ok w;
     sheet := sheet w; calls := calls w; read_cache := read_cache w;
     cache := cache w; df_orgaco := Some df; page := page w |}.

Definition show (es : list element) (w : World) : World :=
  {| conn_ok := conn_ok w; read_ok := read_ok w; write_ok := write_ok w;
     sheet := sheet w; calls := calls w; read_cache := read_cache w;
     cache := cache w; df_orgaco := df_orgaco w; page := page w ++ es |}.

Abbreviation script := (script World).

Definition st_error (e : element) : script unit := update (show [e]).
Definition st_exception (e : exn) : script unit := update (show [exception_shown e]).
Definition st_success (e : element) : script unit := update (show [e]).
Definition st_rerun : script unit := lift (Raise RerunException).

(** [st.connection('gsheets', type='sheets')] *)
Definition st_connection : script unit := λ w,
  (if conn_ok w then Ok () else Raise ConnectionError, log_call Connect w).

(** [conn.read(spreadsheet=..., worksheet=..., ttl=600)]: the connection
    keeps the frame it has read for ten minutes and answers with it, without
    a call to the service, until then. *)
Definition conn_read : script DataFrame := λ w,
  match read_cache w with
  | Some df => (Ok df, w)
  | None =>
      if read_ok w
      then (Ok (sheet w), set_read_cache (Some (sheet w)) (log_call Read w))
      else (Raise BackendError, log_call Read w)
  end.

(** The ten minutes of [ttl=600] are over. *)
Definition read_cache_expires : script unit := update (set_read_cache None).

(** [conn.write(df, spreadsheet=..., worksheet=...)]: the whole sheet is
    overwritten. The frame the connection keeps of a read is not touched by
    the script. *)
Definition conn_write (df : DataFrame) : script unit := λ w,
  if write_ok w then (Ok (), set_sheet df (log_call (Write df) w))
  else (Raise BackendError, log_call (Write df) w).

Section load.

(** [pd.to_datetime(series, errors='coerce')] is pandas' date parser: it is
    given the whole column and answers a timestamp or [NaT] for each
    cell. *)
Context (to_datetime : list cell → list (option date)).

(** The body of [load_data], lines 30-55. *)
Definition load_data_body : script DataFrame :=
  try_except
    (_ ← st_connection;
     df ← conn_read;
     year_col ← lift (getitem df "Last_Fee_Paid_Year");
     year_col ← lift (astype_int (fillna (VInt 0) year_col));
     let df := setitem df "Last_Fee_Paid_Year" year_col in
     date_col ← lift (getitem df "Web_Data_Updated");
     let df := setitem df "Web_Data_Updated" (dt_strftime (to_datetime date_col)) in
     let df := foldl (λ df col,
                        if decide (col ∈ columns df) then df
                        else setitem_scalar df col (VStr ""))
                     df COLUMNS in
     lift (select df COLUMNS))
    (λ e,
     _ ← st_error error_connecting;
     _ ← st_exception e;
     mret (empty_frame COLUMNS)).

(** [@st.cache_data(ttl=600) def load_data()]: within the time-to-live the
    cached frame is returned and the elements of the cached run are
    replayed. *)
Definition load_data : script DataFrame := λ w,
  match cache w with
  | Some (df, es) => (Ok df, show es w)
  | None =>
      let '(r, w') := load_data_body w in
      match r with
      | Ok df => (Ok df, set_cache (Some (df, drop (length (page w)) (page w'))) w')
      | Raise e => (Raise e, w')
      end
  end.

(** [load_data.clear()], and the expiry of the time-to-live *)
Definition load_data_clear : script unit := update (set_cache None).

(** Lines 74-75: [if 'df_orgaco' not in st.session_state: ... = load_data()] *)
Definition init_session : script unit := λ w,
  match df_orgaco w with
  | Some _ => (Ok (), w)
  | None => (df ← load_data; update (set_df_orgaco df)) w
  end.

End load.

(** [st.session_state.df_orgaco] *)
Definition session_df : script DataFrame := λ w,
  (match df_orgaco w with Some df => Ok df | None => Raise AttributeError end, w).

(** [write_data], lines 57-71. *)
Definition write_data (df_to_write : DataFrame) : script bool :=
  try_except
    (_ ← st_connection;
     _ ← conn_write df_to_write;
     mret true)
    (λ e,
     _ ← st_error error_writing;
     _ ← st_exception e;
     mret false).

(** *** Tab 1: search and update *)

(** Line 100: [df['Group_Association'].sort_values().unique().tolist()] *)
Definition group_options (df : DataFrame) : result (list cell) :=
  col ← getitem df "Group_Association";
  sorted ← sort_values col;
  Ok (unique sorted).

(** Lines 97-100: the options as the script computes them, from the session
    frame. *)
Definition list_group_names : script (list cell) :=
  df ← session_df;
  lift (group_options df).

(** Line 111: [df[df['Group_Association'] == selected_group_name].copy()] *)
Definition selected_row (df : DataFrame) (selected_group_name : cell) : result DataFrame :=
  col ← getitem df "Group_Association";
  Ok (filter_rows df (eq_mask col selected_group_name)).

(** Lines 118-121: [df_display.to_dict('records')], where [df_display] is the
    selected row without the key and the stamp columns ([reset_index] renumbers
    the rows, which are known here by their position). *)
Definition data_to_edit (selected_row : DataFrame) : result (list dict) :=
  df_display ← drop_columns selected_row ["Group_Association"; "Web_Data_Updated"];
  Ok (to_dict_records df_display).

(** [st.column_config.NumberColumn(min_value=..., max_value=...)] and
    [st.number_input(min_value=..., max_value=...)]: the least and the
    greatest value that can be entered in the widget. *)
Record number_bounds : Type := { min_value : Z; max_value : Z }.

Definition can_be_entered (b : number_bounds) (v : Z) : bool :=
  (min_value b <=? v) && (v <=? max_value b).

(** The [column_config] of the update editor, lines 125-134. *)
Definition update_editor_year (today : date) : number_bounds :=
  {| min_value := 1900; max_value := Z.of_nat (Py.year today) + 1 |}.

(** One edit made in the data editor: the cell of the row [edit_row] in the
    column [edit_column] is given [edit_value]. *)
Record cell_edit : Type := {
  edit_row : nat;
  edit_column : string;
  edit_value : cell;
}.

(** Whether a column of the editor takes a value: a [NumberColumn] takes the
    numbers from [min_value] to [max_value], and its cell can be emptied; a
    column without configuration takes any value. *)
Definition takes (column_config : list (string * number_bounds))
    (c : string) (v : cell) : bool :=
  match (list_to_map column_config : gmap string number_bounds) !! c with
  | Some bounds =>
      match v with
      | VInt z => can_be_entered bounds z
      | VMissing => true
      | VStr _ => false
      end
  | None => true
  end.

Definition set_cell (c : string) (v : cell) (d : dict) : dict :=
  (λ '(k, old), (k, if String.eqb k c then v else old)) <$> d.

Definition apply_edit (column_config : list (string * number_bounds))
    (data : list dict) (e : cell_edit) : list dict :=
  if takes column_config (edit_column e) (edit_value e)
  then alter (set_cell (edit_column e) (edit_value e)) (edit_row e) data
  else data.

(** [st.data_editor(data, column_config=..., num_rows="fixed")] once the
    user has made the edits [edits]: the rows and the columns are those of
    [data], an edit the column does not take leaves the cell as it was. *)
Definition data_editor (column_config : list (string * number_bounds))
    (edits : list cell_edit) (data : list dict) : list dict :=
  foldl (apply_edit column_config) data edits.

(** Lines 123-138: the editor of the update tab. *)
Definition update_editor (today : date) (edits : list cell_edit)
    : list dict → list dict :=
  data_editor [("Last_Fee_Paid_Year", update_editor_year today)] edits.

(** The handler of the "Save Changes" button, lines 140-165. *)
Definition save_changes (today : date) (selected_group_name : cell)
    (edited_data : list dict) : script unit :=
  try_except
    (df ← session_df;
     col ← lift (getitem df "Group_Association");
     idx_to_update ← lift (first (index_where (eq_mask col selected_group_name)));
     edited_series ← lift (first edited_data);
     _ ← update (set_df_orgaco
                   (foldl (λ df '(col, v), loc_set df idx_to_update col v)
                          df edited_series));
     df ← session_df;
     _ ← update (set_df_orgaco
                   (loc_set df idx_to_update "Web_Data_Updated"
                            (VStr (Py.strftime today))));
     df ← session_df;
     saved ← write_data df;
     if saved : bool then
       _ ← st_success (success_updated selected_group_name (Py.strftime today));
       _ ← load_data_clear;
       st_rerun
     else mret ())
    (λ e, st_error (error_preparing e)).

(** Lines 94-171, the tab as the script runs it: [selected_group_name] is what the
    selectbox returns ([None] when there is no option), [st_data_editor] is
    the editor widget with the user's edits, [save_clicked] tells whether the
    button was pressed. *)
Definition tab1 (today : date) (selected_group_name : option cell)
    (st_data_editor : list dict → list dict) (save_clicked : bool) : script unit :=
  df ← session_df;
  _ ← lift (group_options df);
  match selected_group_name with
  | Some name =>
      if truthy name then
        sel ← lift (selected_row df name);
        if negb (empty sel) then
          data ← lift (data_to_edit sel);
          let edited_data := st_data_editor data in
          if save_clicked then save_changes today name edited_data else mret ()
        else update (show [warning_no_data])
      else update (show [info_select])
  | None => update (show [info_select])
  end.

(** *** Tab 2: add a new group *)

(** The values of the form's widgets, lines 181-216. *)
Record form : Type := {
  new_group_name : Py.str;
  p_name : Py.str; p_email : Py.str; p_contact : Py.str;
  s_name : Py.str; s_email : Py.str; s_contact : Py.str;
  t_name : Py.str; t_email : Py.str; t_contact : Py.str;
  fee_year : Z;
}.

(** The bounds of the form's [fee_year] input, lines 210-216. *)
Definition fee_year_input (today : date) : number_bounds :=
  {| min_value := 1900; max_value := Z.of_nat (Py.year today) |}.

(** Lines 227-240. *)
Definition new_data (today : date) (f : form) : dict :=
  [ ("Group_Association", VStr (new_group_name f));
    ("President_Name", VStr (p_name f));
    ("President_Email", VStr (p_email f));
    ("President_Contact", VStr (p_contact f));
    ("Secretary_Name", VStr (s_name f));
    ("Secretary_Email", VStr (s_email f));
    ("Secretary_Contact", VStr (s_contact f));
    ("Treasurer_Name", VStr (t_name f));
    ("Treasurer_Email", VStr (t_email f));
    ("Treasurer_Contact", VStr (t_contact f));
    ("Last_Fee_Paid_Year", VInt (fee_year f));
    ("Web_Data_Updated", VStr (Py.strftime today)) ].

(** [x in l] on a Python list: some element equals [x]. *)
Definition py_in (x : cell) (l : list cell) : bool := existsb (λ c, cell_eqb c x) l.

(** Lines 220-253, the body of the form, run with the widgets' values;
    [submitted] tells whether the submit button was pressed. *)
Definition tab2 (today : date) (f : form) (submitted : bool) : script unit :=
  if submitted then
    if bool_decide (new_group_name f = []) then st_error error_name_required
    else
      df ← session_df;
      names ← lift (getitem df "Group_Association");
      if py_in (VStr (new_group_name f)) names
      then st_error (error_exists (new_group_name f))
      else
        let new_df_row := of_records [new_data today f] COLUMNS in
        _ ← update (set_df_orgaco (concat df new_df_row));
        df ← session_df;
        saved ← write_data df;
        if saved : bool then
          _ ← st_success (success_added (new_group_name f));
          _ ← update (show [balloons]);
          _ ← load_data_clear;
          st_rerun
        else mret ()
  else mret ().

End StreamlitApp.

(** ** [app.py]: the relational variant *)

Module App.

Import pd.

Inductive element : Type :=
| success_added (name : Py.str)
| error_adding (e : exn)
| warning_enter_name.

(** Statements sent to the database. *)
Inductive statement : Type :=
| SelectDistinctGroups
| SelectByGroup (group_name : cell)
| InsertGroup (new_group : Py.str).

(** [db_ok] says whether the database answers; [table] is the table
    [dbORGACO], whose primary key [id] the database fills in from [next_id]
    and whose other columns are nullable, as [add_new_group] assumes. A
    statement that names a column the table lacks is refused. *)
Record World : Type := {
  db_ok : bool;
  table : DataFrame;
  next_id : Z;
  statements : list statement;
  page : list element;
}.

Abbreviation script := (script World).

Definition log_statement (q : statement) (w : World) : World :=
  {| db_ok := db_ok w; table := table w; next_id := next_id w;
     statements := statements w ++ [q]; page := page w |}.

Definition show (es : list element) (w : World) : World :=
  {| db_ok := db_ok w; table := table w; next_id := next_id w;
     statements := statements w; page := page w ++ es |}.

Definition append_row (r : row) (w : World) : World :=
  {| db_ok := db_ok w;
     table := Frame (columns (table w))
                    (rows (table w) ++ [reindex (columns (table w)) r]);
     next_id := next_id w + 1;
     statements := statements w; page := page w |}.

(** [pd.read_sql(query, conn)] inside [with engine.connect() as conn] *)
Definition read_sql (q : statement) (answer : DataFrame → DataFrame) : script DataFrame :=
  λ w, (if db_ok w then Ok (answer (table w)) else Raise ConnectionError,
        log_statement q w).

Section queries.

(** The database's answer to [SELECT DISTINCT "Group_Association" ...
    ORDER BY "Group_Association"], one row per distinct value, ordered by
    the database's collation. *)
Context (select_distinct_ordered : DataFrame → DataFrame).

(** [fetch_group_associations], lines 29-34. *)
Definition fetch_group_associations : script (list cell) :=
  df ← read_sql SelectDistinctGroups select_distinct_ordered;
  lift (getitem df "Group_Association").

End queries.

Section scan.

(** The order in which the database answers the rows of a [SELECT] that has
    no [ORDER BY]: the statement fixes none. *)
Context (scan : list row → list row).

(** [fetch_data_by_group], lines 36-42:
    [SELECT * ... WHERE "Group_Association" = :group_name] *)
Definition fetch_data_by_group (group_name : cell) : script DataFrame :=
  df ← read_sql (SelectByGroup group_name)
    (λ t, Frame (columns t)
                (scan (filter (λ r : row, cell_eqb (r !!! "Group_Association") group_name)
                              (rows t))));
  if decide ("Group_Association" ∈ columns df) then mret df
  else lift (Raise BackendError).

End scan.

(** [conn.execute(INSERT INTO ... ("Group_Association") VALUES (:new_group))]
    and [conn.commit()] *)
Definition execute_insert (new_group : Py.str) : script unit := λ w,
  if db_ok w && bool_decide ("Group_Association" ∈ columns (table w))
  then (Ok (), append_row {[ "id" := VInt (next_id w);
                             "Group_Association" := VStr new_group ]}
                          (log_statement (InsertGroup new_group) w))
  else (Raise BackendError, log_statement (InsertGroup new_group) w).

(** [add_new_group], lines 62-74. *)
Definition add_new_group (new_group_name : Py.str) : script unit :=
  try_except
    (_ ← execute_insert new_group_name;
     _ ← update (show [success_added new_group_name]);
     lift (Raise RerunException))
    (λ e, update (show [error_adding e])).

(** The body of [new_group_form], lines 146-149. *)
Definition new_group_form (new_group_input : Py.str) (submitted : bool) : script unit :=
  if submitted && negb (bool_decide (new_group_input = []))
  then add_new_group (Py.strip new_group_input)
  else if submitted && bool_decide (new_group_input = [])
  then update (show [warning_enter_name])
  else mret ().

End App.

(** ** Words used in the statements *)

(** The white space of Unicode: the code points [str.strip] removes. *)
Definition white_space : list N :=
  [ 0x09; 0x0A; 0x0B; 0x0C; 0x0D; 0x1C; 0x1D; 0x1E; 0x1F; 0x20; 0x85; 0xA0;
    0x1680; 0x2000; 0x2001; 0x2002; 0x2003; 0x2004; 0x2005; 0x2006; 0x2007;
    0x2008; 0x2009; 0x200A; 0x2028; 0x2029; 0x202F; 0x205F; 0x3000 ]%N.

Definition all_space (s : Py.str) : Prop := Forall (λ c, c ∈ white_space) s.

Definition starts_with_space (s : Py.str) : Prop :=
  ∃ c t, s = c :: t ∧ c ∈ white_space.

Definition ends_with_space (s : Py.str) : Prop :=
  ∃ t c, s = t ++ [c] ∧ c ∈ white_space.

(** A frame as [load_data] returns it: the twelve columns in their order, and
    rows that hold exactly these labels. *)
Definition shaped (df : DataFrame) : Prop :=
  columns df = StreamlitApp.COLUMNS
  ∧ Forall (λ r : row, dom r = list_to_set StreamlitApp.COLUMNS) (rows df).

(** The group names of a frame, row by row. *)
Definition group_column (df : DataFrame) : list cell :=
  (λ r : row, r !!! "Group_Association") <$> rows df.

(** A group name as the sheet holds it: a text, or nothing where the cell is
    blank. *)
Definition text_or_blank (c : cell) : Prop := c = VMissing ∨ ∃ s, c = VStr s.

(** A row after the cells named by [d] have been assigned, in the order of
    [d]. *)
Definition assign_all (d : dict) (r : row) : row :=
  foldl (λ (r : row) '(c, v), <[c := v]> r) r d.

(** The years of a frame, row by row. *)
Definition year_column (df : DataFrame) : list cell :=
  (λ r : row, r !!! "Last_Fee_Paid_Year") <$> rows df.

(** The dates of a frame, row by row. *)
Definition date_column (df : DataFrame) : list cell :=
  (λ r : row, r !!! "Web_Data_Updated") <$> rows df.

(** The integer a year cell of the sheet stands for, if any: nothing stands
    for 0, a text for what [int()] reads in it; the integer has to fit in 64
    bits. *)
Definition year_value (c : cell) : option Z :=
  z ← match c with
      | VMissing => Some 0
      | VInt z => Some z
      | VStr s => Py.int s
      end;
  if pd.is_int64 z then Some z else None.

Definition is_digit (c : N) : bool := ((0x30 <=? c) && (c <=? 0x39))%N.


(** [conn.read] answers [raw]: the frame the connection keeps of a read, or,
    when it keeps none, the worksheet, which the service gives. *)
Definition read_answers (w : StreamlitApp.World) (raw : DataFrame) : Prop :=
  StreamlitApp.read_cache w = Some raw
  ∨ (StreamlitApp.read_cache w = None
     ∧ StreamlitApp.read_ok w = true
     ∧ StreamlitApp.sheet w = raw).

Definition cache_shaped (w : StreamlitApp.World) : Prop :=
  ∀ df es, StreamlitApp.cache w = Some (df, es) → shaped df.

(** ** Proof tools *)

(** Unfolds the script combinators and the world's setters, and nothing else. *)
Ltac run_script :=
  cbv [try_except mbind script_bind mret script_ret lift update
       StreamlitApp.st_connection StreamlitApp.conn_read StreamlitApp.conn_write
       StreamlitApp.st_error StreamlitApp.st_exception StreamlitApp.st_success
       StreamlitApp.st_rerun StreamlitApp.session_df StreamlitApp.load_data_clear];
  cbn [StreamlitApp.conn_ok StreamlitApp.read_ok StreamlitApp.write_ok
       StreamlitApp.sheet StreamlitApp.calls StreamlitApp.read_cache
       StreamlitApp.cache StreamlitApp.df_orgaco StreamlitApp.page
       StreamlitApp.log_call StreamlitApp.set_sheet StreamlitApp.set_read_cache
       StreamlitApp.set_cache StreamlitApp.set_df_orgaco StreamlitApp.show fst snd].

#[global] Instance VStr_inj : Inj (=) (=) VStr.
Proof. by intros s1 s2 [= ->]. Qed.

(** ** Sample inputs *)

(** A date parser to instantiate [to_datetime] with: it reads the texts of the
    form [YYYY-MM-DD] and answers [NaT] on every other cell. *)
Definition ascii_digit (c : N) : option Z :=
  if is_digit c then Some (Z.of_N (c - 0x30)) else None.

Definition iso_date_of (c : cell) : option date :=
  match c with
  | VStr [y1; y2; y3; y4; dash1; m1; m2; dash2; d1; d2] =>
      if ((dash1 =? 0x2D) && (dash2 =? 0x2D))%N then
        ds ← mapM ascii_digit [y1; y2; y3; y4; m1; m2; d1; d2];
        match Z.to_nat <$> ds with
        | [y1; y2; y3; y4; m1; m2; d1; d2] =>
            Some (Date (1000 * y1 + 100 * y2 + 10 * y3 + y4)%nat
                       (10 * m1 + m2)%nat (10 * d1 + d2)%nat)
        | _ => None
        end
      else None
  | _ => None
  end.

Definition iso_to_datetime (col : list cell) : list (option date) := iso_date_of <$> col.

(** A world whose service cannot be reached, before the session starts. *)
Definition offline : StreamlitApp.World :=
  {| StreamlitApp.conn_ok := false; StreamlitApp.read_ok := true;
     StreamlitApp.write_ok := true;
     StreamlitApp.sheet := pd.empty_frame StreamlitApp.COLUMNS;
     StreamlitApp.calls := []; StreamlitApp.read_cache := None;
     StreamlitApp.cache := None;
     StreamlitApp.df_orgaco := None; StreamlitApp.page := [] |}.

Definition a_day : date := Date 2026 3 7.

Definition rotary : StreamlitApp.form :=
  {| StreamlitApp.new_group_name := "Rotary";
     StreamlitApp.p_name := "Ada"; StreamlitApp.p_email := "ada@example.org";
     StreamlitApp.p_contact := "0711";
     StreamlitApp.s_name := ""; StreamlitApp.s_email := ""; StreamlitApp.s_contact := "";
     StreamlitApp.t_name := ""; StreamlitApp.t_email := ""; StreamlitApp.t_contact := "";
     StreamlitApp.fee_year := 2025 |}.

Definition lions_row : row :=
  pd.reindex StreamlitApp.COLUMNS
    (list_to_map [ ("Group_Association", VStr "Lions Club");
                   ("President_Name", VStr "Bo");
                   ("Last_Fee_Paid_Year", VInt 2023);
                   ("Web_Data_Updated", VStr "2025-01-31") ]).

Definition lions_frame : DataFrame := Frame StreamlitApp.COLUMNS [lions_row].

(** A running session over [lions_frame]; the service answers as told. *)
Definition session (reachable writable : bool) : StreamlitApp.World :=
  {| StreamlitApp.conn_ok := reachable; StreamlitApp.read_ok := true;
     StreamlitApp.write_ok := writable;
     StreamlitApp.sheet := lions_frame;
     StreamlitApp.calls := []; StreamlitApp.read_cache := None;
     StreamlitApp.cache := None;
     StreamlitApp.df_orgaco := Some lions_frame; StreamlitApp.page := [] |}.

(** A row over [COLUMNS] for a group, its president, its year and its stamp;
    the other cells hold the empty string. *)
Definition club_row (name president : Py.str) (year : cell) (stamp : Py.str) : row :=
  list_to_map
    [ ("Group_Association", VStr name); ("President_Name", VStr president);
      ("President_Email", VStr ""); ("President_Contact", VStr "");
      ("Secretary_Name", VStr ""); ("Secretary_Email", VStr "");
      ("Secretary_Contact", VStr ""); ("Treasurer_Name", VStr "");
      ("Treasurer_Email", VStr ""); ("Treasurer_Contact", VStr "");
      ("Last_Fee_Paid_Year", year); ("Web_Data_Updated", VStr stamp) ].

(** A frame of three rows, out of order, two of them for Rotary. *)
Definition clubs_frame : DataFrame :=
  Frame StreamlitApp.COLUMNS
        [ club_row "Rotary" "Ada" (VInt 2021) "2024-05-01";
          club_row "Lions Club" "Bo" (VInt 2023) "2025-01-31";
          club_row "Rotary" "Cy" (VInt 2019) "2023-11-12" ].

(** A running session over [clubs_frame]; the service answers as told. *)
Definition clubs_session (reachable writable : bool) : StreamlitApp.World :=
  {| StreamlitApp.conn_ok := reachable; StreamlitApp.read_ok := true;
     StreamlitApp.write_ok := writable;
     StreamlitApp.sheet := clubs_frame;
     StreamlitApp.calls := []; StreamlitApp.read_cache := None;
     StreamlitApp.cache := None;
     StreamlitApp.df_orgaco := Some clubs_frame; StreamlitApp.page := [] |}.

(** The rows of [clubs_frame] for Rotary, and what the update editor is given
    for them. *)
Definition rotary_rows : DataFrame :=
  Frame StreamlitApp.COLUMNS
        [ club_row "Rotary" "Ada" (VInt 2021) "2024-05-01";
          club_row "Rotary" "Cy" (VInt 2019) "2023-11-12" ].

Definition club_data (president : Py.str) (year : cell) : dict :=
  [ ("President_Name", VStr president); ("President_Email", VStr "");
    ("President_Contact", VStr ""); ("Secretary_Name", VStr "");
    ("Secretary_Email", VStr ""); ("Secretary_Contact", VStr "");
    ("Treasurer_Name", VStr ""); ("Treasurer_Email", VStr "");
    ("Treasurer_Contact", VStr ""); ("Last_Fee_Paid_Year", year) ].

Definition rotary_data : list dict :=
  [ club_data "Ada" (VInt 2021); club_data "Cy" (VInt 2019) ].

(** A sheet whose years lie outside the bounds of the editor: 1899 for one
    group, none for the other. *)
Definition stale_sheet : DataFrame :=
  Frame StreamlitApp.COLUMNS
        [ club_row "Lions Club" "Bo" (VInt 1899) "2025-01-31";
          club_row "Rotary" "Ada" VMissing "2024-05-01" ].

(** A sheet in which one group is named by a number. *)
Definition numbered_sheet : DataFrame :=
  Frame StreamlitApp.COLUMNS
        [ club_row "Rotary" "Ada" (VInt 2021) "2024-05-01";
          <["Group_Association" := VInt 42]> (club_row "" "Bo" (VInt 2023) "2025-01-31") ].

(** The edit of one cell of the first row in the editor. *)
Definition edit_first (column : string) (v : cell) : StreamlitApp.cell_edit :=
  {| StreamlitApp.edit_row := 0; StreamlitApp.edit_column := column;
     StreamlitApp.edit_value := v |}.

(** A database whose table already holds a group named Rotary. *)
Definition rotary_table : App.World :=
  {| App.db_ok := true;
     App.table := Frame ["id"; "Group_Association"]
                        [ {[ "id" := VInt 1; "Group_Association" := VStr "Rotary" ]} ];
     App.next_id := 2; App.statements := []; App.page := [] |}.

(** What the update editor is given for the row of [lions_frame]. *)
Definition lions_data : list dict :=
  [ [ ("President_Name", VStr "Bo"); ("President_Email", VMissing);
      ("President_Contact", VMissing); ("Secretary_Name", VMissing);
      ("Secretary_Email", VMissing); ("Secretary_Contact", VMissing);
      ("Treasurer_Name", VMissing); ("Treasurer_Email", VMissing);
      ("Treasurer_Contact", VMissing); ("Last_Fee_Paid_Year", VInt 2023) ] ].

(** An editor in which the year cell of every row has been set to [y]. *)
Definition edit_year (y : Z) (data : list dict) : list dict :=
  (λ d : dict,
     (λ '(k, v), if String.eqb k "Last_Fee_Paid_Year" then (k, VInt y) else (k, v)) <$> d)
  <$> data.

(** A world before the session starts, the service answering, over a given
    sheet. *)
Definition fresh (sheet : DataFrame) : StreamlitApp.World :=
  {| StreamlitApp.conn_ok := true; StreamlitApp.read_ok := true;
     StreamlitApp.write_ok := true;
     StreamlitApp.sheet := sheet;
     StreamlitApp.calls := []; StreamlitApp.read_cache := None;
     StreamlitApp.cache := None;
     StreamlitApp.df_orgaco := None; StreamlitApp.page := [] |}.

(** A sheet with three of the twelve columns: one row without a year, one
    whose year is a text and whose date cannot be parsed. *)
Definition partial_sheet : DataFrame :=
  Frame ["Group_Association"; "Last_Fee_Paid_Year"; "Web_Data_Updated"]
        [ {[ "Group_Association" := VStr "Lions Club";
             "Last_Fee_Paid_Year" := VMissing;
             "Web_Data_Updated" := VStr "2025-01-31" ]};
          {[ "Group_Association" := VStr "Rotary";
             "Last_Fee_Paid_Year" := VStr "2024";
             "Web_Data_Updated" := VStr "soon" ]} ].


(** A sheet without the year column. *)
Definition yearless_sheet : DataFrame :=
  Frame ["Group_Association"; "Web_Data_Updated"]
        [ {[ "Group_Association" := VStr "Lions Club";
             "Web_Data_Updated" := VStr "2025-01-31" ]} ].

(** ** [streamlit_app.py]: the script as a whole *)

(** Lines 256-276, the sidebar; the result is the number of records it
    writes. *)
Definition sidebar : script StreamlitApp.World nat :=
  df ← StreamlitApp.session_df;
  mret (length (rows df)).

(** What the user has done when the script runs: the day, the choice in the
    selectbox, the editor with its edits, the form's values and the buttons
    pressed. *)
Record interaction : Type := {
  today : date;
  selected_group_name : option cell;
  st_data_editor : list dict → list dict;
  save_clicked : bool;
  new_group : StreamlitApp.form;
  submitted : bool;
}.

Definition clear_page (w : StreamlitApp.World) : StreamlitApp.World :=
  {| StreamlitApp.conn_ok := StreamlitApp.conn_ok w;
     StreamlitApp.read_ok := StreamlitApp.read_ok w;
     StreamlitApp.write_ok := StreamlitApp.write_ok w;
     StreamlitApp.sheet := StreamlitApp.sheet w;
     StreamlitApp.calls := StreamlitApp.calls w;
     StreamlitApp.read_cache := StreamlitApp.read_cache w;
     StreamlitApp.cache := StreamlitApp.cache w;
     StreamlitApp.df_orgaco := StreamlitApp.df_orgaco w;
     StreamlitApp.page := [] |}.

(** One run of the script, top to bottom: the page is drawn anew, the session
    frame is set if there is none, then come the two tabs and the sidebar. A
    rerun or an exception that nothing catches ends the run where it
    happens. *)
Definition script_run (to_datetime : list cell → list (option date))
    (i : interaction) : script StreamlitApp.World nat :=
  _ ← update clear_page;
  _ ← StreamlitApp.init_session to_datetime;
  _ ← StreamlitApp.tab1 (today i) (selected_group_name i) (st_data_editor i)
                        (save_clicked i);
  _ ← StreamlitApp.tab2 (today i) (new_group i) (submitted i);
  sidebar.

(** The world after the script has run for each interaction in turn (a rerun
    is one more run, with no button pressed). *)
Definition script_runs (to_datetime : list cell → list (option date))
    (steps : list interaction) (w : StreamlitApp.World) : StreamlitApp.World :=
  foldl (λ w i, (script_run to_datetime i w).2) w steps.

(** The editor hands back, for the dicts it is given, dicts with the same
    keys: it is configured with [num_rows="fixed"] and shows the columns of its
    data. *)
Definition keeps_keys (editor : list dict → list dict) : Prop :=
  ∀ data, Forall2 (λ d e : dict, e.*1 = d.*1) data (editor data).

(** The session frame, if set, and the cached frame, if any, are shaped. *)
Definition session_shaped (w : StreamlitApp.World) : Prop :=
  cache_shaped w ∧ ∀ df, StreamlitApp.df_orgaco w = Some df → shaped df.

(** What a fragment that may write to the sheet has done to it: either the
    sheet is as it was and the fragment did not end in the rerun, or it ended
    in the rerun, the sheet holds the session frame and the cache of
    [load_data] is cleared. *)
Definition saved_or_untouched {A} (w : StreamlitApp.World)
    (out : result A * StreamlitApp.World) : Prop :=
  (StreamlitApp.sheet out.2 = StreamlitApp.sheet w ∧ out.1 ≠ Raise RerunException)
  ∨ (out.1 = Raise RerunException
     ∧ StreamlitApp.df_orgaco out.2 = Some (StreamlitApp.sheet out.2)
     ∧ StreamlitApp.cache out.2 = None).

(** A frame as the handlers write it: shaped, with years that are integers of
    64 bits. *)
Definition normalised (df : DataFrame) : Prop :=
  shaped df
  ∧ Forall (λ c, ∃ z, c = VInt z ∧ pd.is_int64 z = true) (year_column df).

(** The date parser reads back the texts of a column of stamps. *)
Definition reads_back (to_datetime : list cell → list (option date))
    (col : list cell) : Prop :=
  pd.dt_strftime (to_datetime col) = col.

(** Sample interactions: the form submitted for Rotary, and the year of Lions
    Club edited and saved. *)
Definition add_rotary : interaction :=
  {| today := a_day; selected_group_name := Some (VStr "Lions Club");
     st_data_editor := edit_year 2023; save_clicked := false;
     new_group := rotary; submitted := true |}.

Definition save_lions : interaction :=
  {| today := a_day; selected_group_name := Some (VStr "Lions Club");
     st_data_editor := edit_year 2024; save_clicked := true;
     new_group := rotary; submitted := false |}.

(** ** [app.py]: search and update *)

Module AppEdit.

Import pd.

(** What this part of the script puts on the page. *)
Inductive element : Type :=
| success_updated (column_name : string) (record_id : cell)
| error_updating (e : exn)
| warning_no_data (selected_group : cell)
| info_shown (col : string) (current_value : cell).

(** An [UPDATE] statement sent to the database. *)
Record update_statement : Type := {
  set_column : string;
  set_value : Py.str;
  where_id : cell;
}.

(** The database of [App], the [UPDATE] statements sent to it, and the page of
    this part of the script. *)
Record World : Type := {
  db : App.World;
  updates : list update_statement;
  page : list element;
}.

Abbreviation script := (script World).

Definition show (es : list element) (w : World) : World :=
  {| db := db w; updates := updates w; page := page w ++ es |}.

Definition log_update (u : update_statement) (w : World) : World :=
  {| db := db w; updates := updates w ++ [u]; page := page w |}.

Definition set_table (t : DataFrame) (w : World) : World :=
  {| db := {| App.db_ok := App.db_ok (db w); App.table := t;
              App.next_id := App.next_id (db w);
              App.statements := App.statements (db w);
              App.page := App.page (db w) |};
     updates := updates w; page := page w |}.

(** A fragment of [App] run in this world. *)
Definition on_db {A} (m : App.script A) : script A := λ w,
  let '(r, d) := m (db w) in
  (r, {| db := d; updates := updates w; page := page w |}).

(** [for x in l: body x] *)
Definition for_each {A} (l : list A) (body : A → script unit) : script unit :=
  foldr (λ x rest, _ ← body x; rest) (mret ()) l.

(** A label that names a column when line 53 puts it between double quotes
    in the text of the statement: it holds no double quote, which would end
    the identifier there, no colon, where [text()] looks for a parameter to
    bind, and no NUL. *)
Definition plain_label (c : string) : bool :=
  forallb (λ a, negb (bool_decide (nat_of_ascii a ∈ [0; 34; 58]%nat)))
          (list_ascii_of_string c).

Section edit.

(** The order in which the database answers a [SELECT] without [ORDER BY]. *)
Context (scan : list row → list row).

(** What the database stores in a column for a text bound to the statement,
    [None] when it refuses the text: the column's type decides, and the
    scripts do not declare it. *)
Context (stored : string → Py.str → option cell).

(** What the database makes of the table when the text that line 53 puts in
    the statement is not the plain label of one of its columns: the text may
    end the identifier and go on as SQL, or be cut to the length of an
    identifier. [None]: the statement is refused. *)
Context (spliced : string → Py.str → cell → DataFrame → option DataFrame).

(** Python's [str] on a cell value. *)
Context (str : cell → Py.str).

(** [conn.execute(UPDATE ... SET "column_name" = :new_value
    WHERE "id" = :record_id)] and [conn.commit()] *)
Definition execute_update (record_id : cell) (column_name : string)
    (new_value : Py.str) : script unit := λ w,
  let w := log_update {| set_column := column_name; set_value := new_value;
                         where_id := record_id |} w in
  let t := App.table (db w) in
  if negb (App.db_ok (db w)) then (Raise ConnectionError, w)
  else if plain_label column_name && bool_decide (column_name ∈ columns t)
  then
    if bool_decide ("id" ∈ columns t) then
      match stored column_name new_value with
      | Some v =>
          (Ok (),
           set_table
             (Frame (columns t)
                    ((λ r : row,
                        if cell_eqb (r !!! "id") record_id
                        then <[column_name := v]> r else r) <$> rows t)) w)
      | None => (Raise BackendError, w)
      end
    else (Raise BackendError, w)
  else
    match spliced column_name new_value record_id t with
    | Some t' => (Ok (), set_table t' w)
    | None => (Raise BackendError, w)
    end.

(** [update_record], lines 44-60. *)
Definition update_record (record_id : cell) (column_name : string)
    (new_value : Py.str) : script unit :=
  try_except
    (_ ← execute_update record_id column_name new_value;
     update (show [success_updated column_name record_id]))
    (λ e, update (show [error_updating e])).

(** Line 106. *)
Definition non_editable_cols : list string := ["id"; "Group_Association"].

(** Lines 92-135: what the script does with the group chosen in the selectbox.
    [text_input] gives the value of the input of a record and a column, whose
    initial value is the third argument; [button] tells whether the "Save"
    button of a record and a column is pressed. *)
Definition edit_form (selected_group : cell)
    (text_input : cell → string → Py.str → Py.str)
    (button : cell → string → bool) : script unit :=
  if truthy selected_group then
    data_df ← on_db (App.fetch_data_by_group scan selected_group);
    if empty data_df then update (show [warning_no_data selected_group])
    else
      for_each (rows data_df) (λ r : row,
        record_id ← lift (if decide ("id" ∈ columns data_df) then Ok (r !!! "id")
                          else Raise (KeyError "id"));
        for_each (columns data_df) (λ col,
          let current_value := r !!! col in
          if bool_decide (col ∈ non_editable_cols)
          then update (show [info_shown col current_value])
          else
            let new_value := text_input record_id col (str current_value) in
            if negb (bool_decide (new_value = str current_value)) then
              if button record_id col then
                _ ← update_record record_id col new_value;
                lift (Raise RerunException)
              else mret ()
            else mret ()))
  else mret ().

End edit.

End AppEdit.

(** The table after is the table before as far as the columns and the cells of
    the columns that are not editable go. *)
Definition keys_kept (w w' : AppEdit.World) : Prop :=
  columns (App.table (AppEdit.db w')) = columns (App.table (AppEdit.db w))
  ∧ ∀ c, c ∈ AppEdit.non_editable_cols →
      (λ r : row, r !! c) <$> rows (App.table (AppEdit.db w'))
      = (λ r : row, r !! c) <$> rows (App.table (AppEdit.db w)).

(** A fragment that, run on a table whose columns are [cols], keeps the keys
    and sends at most one [UPDATE], on an editable column, ending in the
    rerun when it sends one. *)
Definition careful {A} (cols : list string) (m : AppEdit.script A) : Prop :=
  ∀ w,
    columns (App.table (AppEdit.db w)) = cols →
    keys_kept w (m w).2
    ∧ (AppEdit.updates (m w).2 = AppEdit.updates w
       ∨ ∃ u, AppEdit.updates (m w).2 = AppEdit.updates w ++ [u]
              ∧ (m w).1 = Raise RerunException
              ∧ AppEdit.set_column u ∉ AppEdit.non_editable_cols).

(** A table of two records of one group, with a fee year. *)
Definition lions_table : AppEdit.World :=
  {| AppEdit.db :=
       {| App.db_ok := true;
          App.table :=
            Frame ["id"; "Group_Association"; "Last_Fee_Paid_Year"]
                  [ {[ "id" := VInt 1; "Group_Association" := VStr "Lions Club";
                       "Last_Fee_Paid_Year" := VInt 2023 ]};
                    {[ "id" := VInt 2; "Group_Association" := VStr "Lions Club";
                       "Last_Fee_Paid_Year" := VInt 2022 ]} ];
          App.next_id := 3; App.statements := []; App.page := [] |};
     AppEdit.updates := []; AppEdit.page := [] |}.

(** A database that stores the texts [int()] reads as integers in the fee
    year column and refuses the others there, and stores any text elsewhere. *)
Definition sample_stored (column_name : string) (new_value : Py.str) : option cell :=
  if String.eqb column_name "Last_Fee_Paid_Year" then VInt <$> Py.int new_value
  else Some (VStr new_value).

(** A database that refuses every statement whose column is not plain. *)
Definition sample_spliced (column_name : string) (new_value : Py.str)
    (record_id : cell) (t : DataFrame) : option DataFrame := None.

(** [str] on the sample cells: the digits of a small year, the text itself. *)
Definition sample_str (c : cell) : Py.str :=
  match c with
  | VStr s => s
  | VInt z => [ Py.digit_char (Z.to_nat z / 1000); Py.digit_char (Z.to_nat z / 100);
                Py.digit_char (Z.to_nat z / 10); Py.digit_char (Z.to_nat z) ]
  | VMissing => "None"
  end.

(** * Properties *)

(** ** Python values *)

Example strip_rotary : Py.strip " Rotary " = "Rotary".
Proof. reflexivity. Qed.

(** White space beyond ASCII is stripped as well: here an ideographic space
    and a file separator around the letter A. *)
Example strip_unicode : Py.strip [0x3000; 0x41; 0x1C]%N = [0x41]%N.
Proof. reflexivity. Qed.

Example int_examples :
  Py.int "2023" = Some 2023 ∧ Py.int " -1_000 " = Some (-1000) ∧
  Py.int "abc" = None ∧ Py.int "" = None ∧ Py.int "20_" = None ∧ Py.int "007" = Some 7.
Proof. repeat split; reflexivity. Qed.

(** [int()] does not skip the separators FS..US, which [str.strip] removes;
    it skips the ideographic space and reads the digits of other scripts. *)
Example int_unicode_examples :
  Py.int (0x1C :: "2023")%N = None
  ∧ Py.int (0x3000 :: "2023")%N = Some 2023
  ∧ Py.int [0x662; 0x660; 0x662; 0x663]%N = Some 2023.
Proof. repeat split; reflexivity. Qed.

Example strftime_example : Py.strftime (Date 2026 3 7) = "2026-03-07".
Proof. reflexivity. Qed.

Example sort_unique_example :
  pd.unique <$> pd.sort_values [VStr "b"; VMissing; VStr "a"; VStr "b"; VStr "B"]
  = Ok [VStr "B"; VStr "a"; VStr "b"; VMissing].
Proof. reflexivity. Qed.

Example sort_mixed_example : pd.sort_values [VStr "b"; VInt 3] = Raise TypeError.
Proof. reflexivity. Qed.

(** ** The order of [str] *)

Lemma leb_refl s : Py.leb s s = true.
Proof.
  induction s as [|a s IH]; [done|]. cbn [Py.leb].
  by rewrite N.eqb_refl, IH, orb_true_r.
Qed.

Lemma leb_cons a b s t :
  Py.leb (a :: s) (b :: t) = true ↔ (a < b)%N ∨ (a = b ∧ Py.leb s t = true).
Proof.
  cbn [Py.leb]. by rewrite orb_true_iff, andb_true_iff, N.ltb_lt, N.eqb_eq.
Qed.

#[global] Instance le_trans : Transitive Py.le.
Proof.
  intros s. unfold Py.le. induction s as [|a s IH]; intros t u Hst Htu; [done|].
  apply Is_true_true in Hst, Htu. apply Is_true_true.
  destruct t as [|b t]; [done|]. destruct u as [|c u]; [done|].
  apply leb_cons in Hst, Htu. apply leb_cons.
  destruct Hst as [Hab|[-> Hst]], Htu as [Hbc|[-> Htu]]; [left; lia|by left..|].
  right. split; [done|]. apply Is_true_true. apply (IH t u); by apply Is_true_true.
Qed.

#[global] Instance le_total : Total Py.le.
Proof.
  intros s. unfold Py.le. induction s as [|a s IH]; intros t; [by left|].
  destruct t as [|b t]; [by right|].
  destruct (N.lt_trichotomy a b) as [Hlt|[->|Hgt]].
  - left. apply Is_true_true, leb_cons. by left.
  - destruct (IH t) as [H|H]; [left|right];
      apply Is_true_true, leb_cons; right; split; try done; by apply Is_true_true.
  - right. apply Is_true_true, leb_cons. by left.
Qed.

Lemma le_antisym s t : Py.le s t → Py.le t s → s = t.
Proof.
  unfold Py.le. revert t. induction s as [|a s IH]; intros [|b t] Hst Hts; try done.
  apply Is_true_true in Hst, Hts. apply leb_cons in Hst, Hts.
  destruct Hst as [Hab|[-> Hst]], Hts as [Hba|[Heq Hts]]; try lia.
  f_equal. apply IH; by apply Is_true_true.
Qed.

(** ** [str.strip] *)

Lemma isspace_white_space c : Py.isspace c = true ↔ c ∈ white_space.
Proof.
  unfold white_space, Py.isspace.
  rewrite !elem_of_cons, elem_of_nil.
  rewrite !orb_true_iff, !andb_true_iff, !N.leb_le, !N.eqb_eq. lia.
Qed.

Section strip.
Context (space : N → bool).

Lemma lstrip_of_decompose s :
  ∃ l, s = l ++ Py.lstrip_of space s
       ∧ Forall (λ c, space c = true) l
       ∧ ∀ c t, Py.lstrip_of space s = c :: t → space c = false.
Proof.
  induction s as [|c s (l & Hs & Hl & Hhead)]; cbn [Py.lstrip_of].
  - by exists [].
  - destruct (space c) eqn:Hc.
    + exists (c :: l). cbn [app]. rewrite <- Hs. split; [done|]. split; [|done].
      by constructor.
    + exists []. split; [done|]. split; [constructor|]. by intros ? ? [= <- <-].
Qed.

Lemma rstrip_of_decompose s :
  ∃ r, s = Py.rstrip_of space s ++ r
       ∧ Forall (λ c, space c = true) r
       ∧ (∀ t c, Py.rstrip_of space s = t ++ [c] → space c = false)
       ∧ (∀ c t, Py.rstrip_of space s = c :: t → ∃ t', s = c :: t').
Proof.
  induction s as [|c s (r & Hs & Hr & Hlast & _)]; cbn [Py.rstrip_of].
  - exists []. split; [done|]. split; [constructor|]. split; [|done].
    by intros [|? ?] ?.
  - destruct (Py.rstrip_of space s) as [|c' t'] eqn:Ht.
    + destruct (space c) eqn:Hc.
      * exists (c :: r). cbn [app] in *. subst s. split; [done|].
        split; [by constructor|]. split; [|done]. by intros [|? ?] ?.
      * exists r. cbn [app] in *. subst r. split; [done|]. split; [done|].
        split; [|intros ? ? [= <- _]; by eauto]. intros [|? [|? ?]] c0; [|done..].
        by intros [= <-].
    + exists r. cbn [app] in *. rewrite <- Hs. split; [done|]. split; [done|].
      split; [|intros ? ? [= <- _]; by eauto].
      intros [|c1 t1] c0; [done|]. cbn [app]. intros [= <- Heq].
      by eapply Hlast.
Qed.

End strip.

Lemma strip_decompose s :
  ∃ l r, s = l ++ Py.strip s ++ r
         ∧ all_space l ∧ all_space r
         ∧ ¬ starts_with_space (Py.strip s)
         ∧ ¬ ends_with_space (Py.strip s).
Proof.
  destruct (lstrip_of_decompose Py.isspace s) as (l & Hl & Hls & Hhead).
  destruct (rstrip_of_decompose Py.isspace (Py.lstrip_of Py.isspace s))
    as (r & Hr & Hrs & Hlast & Hkeep).
  exists l, r. unfold Py.strip. rewrite <- Hr. split; [done|].
  split; [|split; [|split]].
  - eapply Forall_impl; [exact Hls|]. intros c. apply isspace_white_space.
  - eapply Forall_impl; [exact Hrs|]. intros c. apply isspace_white_space.
  - intros (c & t & Heq & Hc). destruct (Hkeep c t Heq) as [t' Heq'].
    apply isspace_white_space in Hc. by rewrite (Hhead c t' Heq') in Hc.
  - intros (t & c & Heq & Hc). apply isspace_white_space in Hc.
    by rewrite (Hlast t c Heq) in Hc.
Qed.

(** ** Rows and frames *)

Lemma lookup_reindex cols (r : row) c :
  pd.reindex cols r !! c = if decide (c ∈ cols) then Some (r !!! c) else None.
Proof.
  unfold pd.reindex. induction cols as [|c0 cols IH]; csimpl.
  - rewrite lookup_empty. destruct (decide (c ∈ [])) as [H|H]; [|done].
    by apply elem_of_nil in H.
  - rewrite lookup_insert. destruct (decide (c0 = c)) as [->|Hne].
    + rewrite decide_True; [done|]. apply elem_of_cons; auto.
    + rewrite IH. destruct (decide (c ∈ cols)) as [Hc|Hc].
      * rewrite decide_True; [done|]. apply elem_of_cons; auto.
      * rewrite decide_False; [done|]. rewrite elem_of_cons. by intros [->|?].
Qed.

Lemma dom_reindex cols (r : row) : dom (pd.reindex cols r) = list_to_set cols.
Proof.
  apply set_eq. intros c. rewrite elem_of_dom, lookup_reindex, elem_of_list_to_set.
  destruct (decide (c ∈ cols)); split; by intros H.
Qed.

Lemma reindex_id cols (r : row) : dom r = list_to_set cols → pd.reindex cols r = r.
Proof.
  intros Hdom. apply map_eq. intros c. rewrite lookup_reindex.
  destruct (decide (c ∈ cols)) as [Hc|Hc].
  - assert (c ∈ dom r) as [v Hv]%elem_of_dom
      by (rewrite Hdom; by apply elem_of_list_to_set).
    by rewrite lookup_total_alt, Hv.
  - symmetry. apply not_elem_of_dom. rewrite Hdom. by rewrite elem_of_list_to_set.
Qed.

(** ** The relational variant *)

(** C10. In [app.py] a submitted, non-empty group name is stripped of leading
    and trailing white space before it is inserted: when the database accepts
    the statement, the table gains one row, and the name it holds under
    [Group_Association] is the input without the white space at its two
    ends: the input is that name between two runs of white space, and the
    name neither starts nor ends with white space. *)
Theorem relational_insert_strips_name (input : Py.str) (w : App.World) :
  input ≠ [] →
  App.db_ok w = true →
  "Group_Association" ∈ columns (App.table w) →
  ∃ (l r : Py.str) (stored : row),
    rows (App.table (App.new_group_form input true w).2)
      = rows (App.table w) ++ [stored]
    ∧ stored !! "Group_Association" = Some (VStr (Py.strip input))
    ∧ input = l ++ Py.strip input ++ r
    ∧ all_space l ∧ all_space r
    ∧ ¬ starts_with_space (Py.strip input)
    ∧ ¬ ends_with_space (Py.strip input).
Proof.
  intros Hne Hdb Hcol.
  destruct (strip_decompose input) as (l & r & Hin & Hl & Hr & Hhead & Htail).
  exists l, r. eexists. split; [|split; [|done]].
  - unfold App.new_group_form. rewrite (bool_decide_eq_false_2 (input = [])) by done.
    cbn [andb negb].
    unfold App.add_new_group, try_except, mbind, script_bind, App.execute_insert.
    rewrite Hdb, bool_decide_eq_true_2 by done.
    cbn [andb update lift Py.is_Exception snd App.table App.append_row App.show
         App.log_statement rows columns].
    reflexivity.
  - rewrite lookup_reindex, decide_True by done.
    rewrite lookup_total_alt, lookup_insert_ne by done.
    by rewrite lookup_singleton_eq.
Qed.

Lemma relational_insert_strips_name_witness :
  ∃ (l r : Py.str) (stored : row),
    rows (App.table (App.new_group_form " Rotary " true
            {| App.db_ok := true; App.table := Frame ["id"; "Group_Association"] [];
               App.next_id := 1; App.statements := []; App.page := [] |}).2)
      = [] ++ [stored]
    ∧ stored !! "Group_Association" = Some (VStr "Rotary")
    ∧ (" Rotary " : Py.str) = l ++ "Rotary" ++ r
    ∧ all_space l ∧ all_space r
    ∧ ¬ starts_with_space "Rotary"
    ∧ ¬ ends_with_space "Rotary".
Proof.
  apply (relational_insert_strips_name " Rotary "
           {| App.db_ok := true; App.table := Frame ["id"; "Group_Association"] [];
              App.next_id := 1; App.statements := []; App.page := [] |}).
  - discriminate.
  - reflexivity.
  - apply elem_of_cons. right. apply elem_of_cons. by left.
Defined.

(** ** The spreadsheet variant *)

Import StreamlitApp.

Example COLUMNS_twelve : length COLUMNS = 12%nat ∧ NoDup COLUMNS.
Proof. split; [reflexivity|]. apply (bool_decide_unpack _). vm_compute. exact I. Qed.

Lemma getitem_raise df c e : pd.getitem df c = Raise e → e = KeyError c.
Proof. unfold pd.getitem. case_decide; congruence. Qed.

Lemma int_of_cell_raise c e :
  pd.int_of_cell c = Raise e → e = ValueError ∨ e = OverflowError.
Proof.
  unfold pd.int_of_cell. destruct c as [|z|s]; cbn [mbind Py.result_bind].
  - intros [= <-]. by left.
  - destruct (pd.is_int64 z); [done|]. intros [= <-]. by right.
  - destruct (Py.int s) as [z|]; cbn [mbind Py.result_bind].
    + destruct (pd.is_int64 z); [done|]. intros [= <-]. by right.
    + intros [= <-]. by left.
Qed.

Lemma astype_int_raise col e :
  pd.astype_int col = Raise e → e = ValueError ∨ e = OverflowError.
Proof.
  induction col as [|c col IH]; cbn [pd.astype_int]; [done|].
  destruct (pd.int_of_cell c) eqn:Hc; cbn [mbind Py.result_bind].
  - destruct (pd.astype_int col); cbn [mbind Py.result_bind]; [done|].
    intros [= <-]. by apply IH.
  - intros [= <-]. by apply int_of_cell_raise in Hc.
Qed.

Lemma select_raise df cols e : pd.select df cols = Raise e → ∃ c, e = KeyError c.
Proof.
  unfold pd.select. destruct (list_find _ cols) as [[? c]|]; [|done].
  intros [= <-]. eauto.
Qed.

Lemma select_shape df cols df' :
  pd.select df cols = Ok df' →
  columns df' = cols ∧ Forall (λ r : row, dom r = list_to_set cols) (rows df').
Proof.
  unfold pd.select. destruct (list_find _ cols) as [[? ?]|]; [done|].
  intros [= <-]. split; [done|]. simpl.
  apply Forall_fmap, Forall_forall. intros r _. apply dom_reindex.
Qed.

Lemma load_data_body_cases td w :
  ∃ df w', load_data_body td w = (Ok df, w')
    ∧ (df = pd.empty_frame COLUMNS ∨ ∃ raw, pd.select raw COLUMNS = Ok df).
Proof.
  unfold load_data_body. run_script.
  destruct (conn_ok w); [|eauto].
  destruct (read_cache w) as [cached|]; [|destruct (read_ok w); [|eauto]].
  all: cbn [read_cache set_read_cache log_call].
  all: match goal with
       | |- context [pd.getitem ?raw "Last_Fee_Paid_Year"] =>
           destruct (pd.getitem raw "Last_Fee_Paid_Year") as [ycol|e] eqn:Hy;
             [|apply getitem_raise in Hy as ->; eauto]
       end.
  all: destruct (pd.astype_int _) as [ycol'|e] eqn:Hy';
    [|apply astype_int_raise in Hy' as [->| ->]; eauto].
  all: destruct (pd.getitem _ "Web_Data_Updated") as [dcol|e] eqn:Hd;
    [|apply getitem_raise in Hd as ->; eauto].
  all: match goal with
       | |- context [pd.select ?raw COLUMNS] =>
           destruct (pd.select raw COLUMNS) as [df|e] eqn:Hsel
       end.
  all: try (apply select_raise in Hsel as [c ->]); eauto 6.
Qed.

(** Whatever the service answers, [load_data] returns a shaped frame, and
    what it caches is shaped. *)
Lemma load_data_shaped td (w : World) :
  cache_shaped w →
  ∃ df w', load_data td w = (Ok df, w') ∧ shaped df ∧ cache_shaped w'.
Proof.
  intros Hcache. unfold load_data.
  destruct (cache w) as [[df es]|] eqn:Hc.
  - exists df, (show es w). do 2 (split; [by eauto|]).
    intros df' es'. cbn [cache show]. rewrite Hc. intros [= <- <-]. eauto.
  - destruct (load_data_body_cases td w) as (df & w' & -> & Hdf).
    assert (shaped df) as Hshape.
    { destruct Hdf as [->|[raw Hsel]]; [by split; [|constructor]|].
      by apply select_shape in Hsel. }
    eexists _, _. do 2 (split; [done|]).
    intros df' es'. cbn [cache set_cache]. by intros [= <- <-].
Qed.

(** The session frame the script starts from is shaped. *)
Lemma init_session_shaped td (w : World) :
  cache_shaped w →
  df_orgaco w = None →
  ∃ df w', init_session td w = (Ok (), w') ∧ df_orgaco w' = Some df ∧ shaped df.
Proof.
  intros Hcache Hnone. unfold init_session. rewrite Hnone.
  destruct (load_data_shaped td w Hcache) as (df & w' & Hload & Hshape & _).
  cbv [mbind script_bind update]. rewrite Hload. by exists df, (set_df_orgaco df w').
Qed.

(** C8. [load_data] always returns a frame whose columns are the twelve
    [COLUMNS] in their declared order, each row holding exactly these labels,
    whether the sheet was read or the failure path was taken (a cached frame
    being one an earlier call returned). *)
Theorem load_data_columns td (w : World) :
  cache_shaped w →
  ∃ df w', load_data td w = (Ok df, w')
    ∧ columns df = COLUMNS
    ∧ length (columns df) = 12%nat
    ∧ Forall (λ r : row, dom r = list_to_set COLUMNS) (rows df)
    ∧ cache_shaped w'.
Proof.
  intros Hcache.
  destruct (load_data_shaped td w Hcache) as (df & w' & Hload & [Hcols Hrows] & Hc').
  exists df, w'. rewrite Hcols. do 2 (split; [done|]). split; [reflexivity|]. done.
Qed.

Lemma load_data_columns_witness :
  cache_shaped offline ∧
  ∃ df w', load_data iso_to_datetime offline = (Ok df, w')
    ∧ columns df = COLUMNS
    ∧ length (columns df) = 12%nat
    ∧ Forall (λ r : row, dom r = list_to_set COLUMNS) (rows df)
    ∧ cache_shaped w'.
Proof.
  assert (cache_shaped offline) as H by (intros df es; discriminate).
  split; [exact H|]. exact (load_data_columns iso_to_datetime offline H).
Defined.

(** C5. When the connection cannot be established or the read call raises,
    [load_data] does not raise: it shows the connection error and the
    exception on the page and returns a frame with the twelve columns, in
    their order, and no row. The sheet and the session frame are as they
    were. *)
Theorem load_data_failure_reported td (w : World) :
  cache w = None →
  conn_ok w = false ∨ (read_cache w = None ∧ read_ok w = false) →
  ∃ e df w',
    load_data td w = (Ok df, w')
    ∧ columns df = COLUMNS
    ∧ rows df = []
    ∧ (e = ConnectionError ∨ e = BackendError)
    ∧ page w' = page w ++ [error_connecting; exception_shown e]
    ∧ sheet w' = sheet w
    ∧ df_orgaco w' = df_orgaco w.
Proof.
  intros Hc Hfail. unfold load_data, load_data_body. rewrite Hc. run_script.
  destruct (conn_ok w) eqn:Hconn.
  - destruct Hfail as [? | [-> ->]]; [done|]. cbn.
    exists BackendError. eexists _, _. split; [done|]. cbn.
    rewrite <- app_assoc. repeat split; auto.
  - cbn. exists ConnectionError. eexists _, _. split; [done|]. cbn.
    rewrite <- app_assoc. repeat split; auto.
Qed.

Lemma load_data_failure_reported_witness :
  ∃ e df w',
    load_data iso_to_datetime offline = (Ok df, w')
    ∧ columns df = COLUMNS
    ∧ rows df = []
    ∧ (e = ConnectionError ∨ e = BackendError)
    ∧ page w' = page offline ++ [error_connecting; exception_shown e]
    ∧ sheet w' = sheet offline
    ∧ df_orgaco w' = df_orgaco offline.
Proof.
  apply (load_data_failure_reported iso_to_datetime offline).
  - reflexivity.
  - left. reflexivity.
Defined.

(** The same when the service is reached and the read call raises. *)
Example load_data_read_failure :
  let w := {| conn_ok := true; read_ok := false; write_ok := true;
              sheet := lions_frame; calls := []; read_cache := None;
              cache := None; df_orgaco := None; page := [] |} in
  (load_data iso_to_datetime w).1 = Ok (Frame COLUMNS [])
  ∧ page (load_data iso_to_datetime w).2
    = [error_connecting; exception_shown BackendError]
  ∧ calls (load_data iso_to_datetime w).2 = [Connect; Read].
Proof. vm_compute. repeat split. Qed.

(** ** Selecting rows *)

Lemma where_fmap {A} (f : A → bool) (l : list A) :
  pd.where_ l (f <$> l) = filter (λ x, f x) l.
Proof.
  induction l as [|x l IH]; [done|]. csimpl. rewrite IH.
  destruct (f x) eqn:Hx.
  - rewrite filter_cons_True; [done|]. by apply Is_true_true.
  - rewrite filter_cons_False; [done|]. by apply Is_true_false.
Qed.

Lemma filter_rows_eq_mask df c v col :
  pd.getitem df c = Ok col →
  pd.filter_rows df (pd.eq_mask col v)
  = Frame (columns df) (filter (λ r : row, cell_eqb (r !!! c) v) (rows df)).
Proof.
  unfold pd.getitem. case_decide; [|done]. intros [= <-].
  unfold pd.filter_rows, pd.eq_mask. f_equal.
  rewrite <- list_fmap_compose. apply (where_fmap (λ r : row, cell_eqb (r !!! c) v)).
Qed.

Lemma py_in_false_filter (c : string) (v : cell) (l : list row) :
  py_in v ((λ r : row, r !!! c) <$> l) = false →
  filter (λ r : row, cell_eqb (r !!! c) v) l = [].
Proof.
  unfold py_in. induction l as [|r l IH]; [done|]. csimpl.
  intros [Hr Hl]%orb_false_iff. rewrite filter_cons_False; [by apply IH|].
  by apply Is_true_false.
Qed.

Lemma cell_eqb_VStr c s : cell_eqb c (VStr s) = true ↔ c = VStr s.
Proof.
  destruct c; unfold cell_eqb; [split; [done|discriminate]|..];
    by rewrite bool_decide_eq_true.
Qed.

Lemma py_in_VStr s (l : list cell) : py_in (VStr s) l = true ↔ VStr s ∈ l.
Proof.
  unfold py_in. rewrite existsb_exists. split.
  - intros (c & Hc%list_elem_of_In & ->%cell_eqb_VStr). done.
  - intros Hs. exists (VStr s). split; [by apply list_elem_of_In|].
    by apply cell_eqb_VStr.
Qed.

Lemma group_in_COLUMNS : "Group_Association" ∈ COLUMNS.
Proof. unfold COLUMNS. apply elem_of_cons. by left. Qed.

Lemma getitem_group df :
  "Group_Association" ∈ columns df →
  pd.getitem df "Group_Association" = Ok (group_column df).
Proof. intros Hc. unfold pd.getitem. by rewrite decide_True. Qed.

Lemma filter_not_in (l k : list string) :
  (∀ c, c ∈ l → c ∈ k) → filter (λ c, c ∉ k) l = [].
Proof.
  induction l as [|c l IH]; intros Hsub; [done|].
  rewrite filter_cons_False.
  - apply IH. intros c' Hc'. apply Hsub, elem_of_cons. by right.
  - intros Hc. apply Hc, Hsub, elem_of_cons. by left.
Qed.

Lemma reindex_shaped_rows (l : list row) :
  Forall (λ r : row, dom r = list_to_set COLUMNS) l → pd.reindex COLUMNS <$> l = l.
Proof.
  induction 1 as [|r l Hr _ IH]; [done|]. csimpl. by rewrite IH, reindex_id.
Qed.

Lemma concat_shaped df (d : dict) :
  shaped df →
  pd.concat df (pd.of_records [d] COLUMNS)
  = Frame COLUMNS (rows df ++ [pd.reindex COLUMNS (list_to_map d)]).
Proof.
  intros [Hcols Hrows]. unfold pd.concat, pd.of_records. cbn [columns rows].
  rewrite Hcols, filter_not_in, app_nil_r by done.
  rewrite reindex_shaped_rows by done. csimpl.
  by rewrite (reindex_id _ (pd.reindex _ _)) by apply dom_reindex.
Qed.

Lemma concat_preserves_shape df (d : dict) :
  shaped df → shaped (pd.concat df (pd.of_records [d] COLUMNS)).
Proof.
  intros Hdf. rewrite concat_shaped by done. destruct Hdf as [Hcols Hrows].
  split; [done|]. cbn [rows]. apply Forall_app. split; [done|].
  apply Forall_singleton, dom_reindex.
Qed.

(** What pressing "Add New Group" does when the name is new: the row is
    appended to the session frame, and then the frame is written. *)
Lemma tab2_new_name today f (w : World) df :
  df_orgaco w = Some df →
  shaped df →
  new_group_name f ≠ "" →
  VStr (new_group_name f) ∉ group_column df →
  let df' := Frame COLUMNS
               (rows df ++ [pd.reindex COLUMNS (list_to_map (new_data today f))]) in
  tab2 today f true w
  = if conn_ok w then
      if write_ok w then
        (Raise RerunException,
         set_cache None (show [success_added (new_group_name f); balloons]
           (set_sheet df' (log_call (Write df') (log_call Connect
             (set_df_orgaco df' w))))))
      else
        (Ok (), show [error_writing; exception_shown BackendError]
                  (log_call (Write df') (log_call Connect (set_df_orgaco df' w))))
    else
      (Ok (), show [error_writing; exception_shown ConnectionError]
                (log_call Connect (set_df_orgaco df' w))).
Proof.
  intros Hs Hdf Hne Hnew df'. unfold tab2.
  rewrite (bool_decide_eq_false_2 (new_group_name f = [])) by exact Hne.
  run_script. rewrite Hs.
  rewrite getitem_group by (destruct Hdf as [-> _]; apply group_in_COLUMNS).
  destruct (py_in _ _) eqn:Hin; [by apply py_in_VStr in Hin|].
  rewrite concat_shaped by done. fold df'.
  unfold write_data. run_script.
  destruct (conn_ok w), (write_ok w); try done.
  all: unfold show; cbn; by rewrite <- ?app_assoc.
Qed.
Lemma filter_no_group (name : Py.str) df :
  VStr name ∉ group_column df →
  filter (λ r : row, cell_eqb (r !!! "Group_Association") (VStr name)) (rows df) = [].
Proof.
  intros Hnew. apply py_in_false_filter.
  destruct (py_in _ _) eqn:Hin; [|done]. by apply py_in_VStr in Hin.
Qed.

(** C1. When the write fails, pressing "Add New Group" with a new name shows
    the write error and leaves the sheet as it was, but the session frame
    keeps the appended row: it is the earlier frame followed by the new
    record. *)
Theorem insert_write_failure_keeps_row today f (w : World) df :
  df_orgaco w = Some df →
  shaped df →
  new_group_name f ≠ "" →
  VStr (new_group_name f) ∉ group_column df →
  conn_ok w = false ∨ write_ok w = false →
  ∃ e w',
    tab2 today f true w = (Ok (), w')
    ∧ page w' = page w ++ [error_writing; exception_shown e]
    ∧ sheet w' = sheet w
    ∧ df_orgaco w'
      = Some (Frame COLUMNS
                (rows df ++ [pd.reindex COLUMNS (list_to_map (new_data today f))])).
Proof.
  intros Hs Hdf Hne Hnew Hfail.
  rewrite (tab2_new_name today f w df) by done.
  destruct (conn_ok w) eqn:Hconn.
  - destruct Hfail as [? | ->]; [done|]. by eexists _, _.
  - by eexists _, _.
Qed.

Lemma insert_write_failure_keeps_row_witness :
  ∃ e w',
    tab2 a_day rotary true (session true false) = (Ok (), w')
    ∧ page w' = page (session true false) ++ [error_writing; exception_shown e]
    ∧ sheet w' = sheet (session true false)
    ∧ df_orgaco w'
      = Some (Frame COLUMNS
                (rows lions_frame
                 ++ [pd.reindex COLUMNS (list_to_map (new_data a_day rotary))])).
Proof.
  apply (insert_write_failure_keeps_row a_day rotary (session true false) lions_frame).
  - reflexivity.
  - split; [reflexivity|]. apply Forall_singleton, dom_reindex.
  - discriminate.
  - apply (bool_decide_unpack _). vm_compute. exact I.
  - right. reflexivity.
Defined.

(** C1, as stated, fails: after a failed write the session frame is not the
    one before the insert, and the unsaved group is found in it. *)
Lemma insert_write_failure_not_rolled_back :
  let w := session true false in
  let w' := (tab2 a_day rotary true w).2 in
  write_ok w = false
  ∧ sheet w' = sheet w
  ∧ df_orgaco w' ≠ df_orgaco w
  ∧ (df' ← df_orgaco w'; Some (pd.empty <$> selected_row df' (VStr "Rotary")))
    = Some (Ok false).
Proof.
  vm_compute. repeat split. discriminate.
Qed.
(** C2. In the spreadsheet variant, pressing "Add New Group" with a name that
    already occurs in the session frame changes neither the session frame nor
    the sheet, and calls the service not at all: the page shows that the group
    exists (or, for the empty name, that a name is required). *)
Theorem insert_duplicate_rejected today f (w : World) df :
  df_orgaco w = Some df →
  "Group_Association" ∈ columns df →
  VStr (new_group_name f) ∈ group_column df →
  ∃ w',
    tab2 today f true w = (Ok (), w')
    ∧ page w' = page w ++ [if decide (new_group_name f = "") then error_name_required
                           else error_exists (new_group_name f)]
    ∧ df_orgaco w' = df_orgaco w
    ∧ sheet w' = sheet w
    ∧ calls w' = calls w
    ∧ cache w' = cache w.
Proof.
  intros Hs Hcol Hdup. unfold tab2.
  destruct (decide (new_group_name f = "")) as [Hempty|Hne].
  - rewrite (bool_decide_eq_true_2 (new_group_name f = [])) by exact Hempty.
    by eexists.
  - rewrite (bool_decide_eq_false_2 (new_group_name f = [])) by exact Hne.
    run_script. rewrite Hs.
    rewrite getitem_group by done.
    apply py_in_VStr in Hdup. rewrite Hdup. by eexists.
Qed.

Lemma insert_duplicate_rejected_witness :
  ∃ w',
    tab2 a_day {| new_group_name := "Lions Club";
                  p_name := ""; p_email := ""; p_contact := "";
                  s_name := ""; s_email := ""; s_contact := "";
                  t_name := ""; t_email := ""; t_contact := ""; fee_year := 2025 |}
         true (session true true) = (Ok (), w')
    ∧ page w' = page (session true true) ++ [error_exists "Lions Club"]
    ∧ df_orgaco w' = df_orgaco (session true true)
    ∧ sheet w' = sheet (session true true)
    ∧ calls w' = calls (session true true)
    ∧ cache w' = cache (session true true).
Proof.
  apply (insert_duplicate_rejected a_day
           {| new_group_name := "Lions Club";
              p_name := ""; p_email := ""; p_contact := "";
              s_name := ""; s_email := ""; s_contact := "";
              t_name := ""; t_email := ""; t_contact := ""; fee_year := 2025 |}
           (session true true) lions_frame).
  - reflexivity.
  - apply (bool_decide_unpack _). vm_compute. exact I.
  - apply (bool_decide_unpack _). vm_compute. exact I.
Defined.

(** C2, as stated for both variants, fails in the relational one: a name the
    table already holds is inserted a second time. *)
Lemma relational_insert_accepts_duplicate :
  let w' := (App.new_group_form "Rotary" true rotary_table).2 in
  VStr "Rotary" ∈ group_column (App.table rotary_table)
  ∧ App.page w' = [App.success_added "Rotary"]
  ∧ group_column (App.table w') = [VStr "Rotary"; VStr "Rotary"]
  ∧ App.table w' ≠ App.table rotary_table.
Proof.
  split; [apply (bool_decide_unpack _); vm_compute; exact I|].
  split; [reflexivity|]. split; [vm_compute; reflexivity|].
  apply (bool_decide_unpack _). vm_compute. exact I.
Qed.

(** C7. After "Add New Group" has succeeded for a new, non-empty name, looking
    that name up in the session frame gives exactly one record: the submitted
    fields, with [Web_Data_Updated] set to the day of the insert. The sheet
    holds the same frame. *)
Theorem insert_then_find today f (w : World) df :
  df_orgaco w = Some df →
  shaped df →
  new_group_name f ≠ "" →
  VStr (new_group_name f) ∉ group_column df →
  conn_ok w = true →
  write_ok w = true →
  ∃ w' df' (record : row),
    tab2 today f true w = (Raise RerunException, w')
    ∧ df_orgaco w' = Some df'
    ∧ sheet w' = df'
    ∧ shaped df'
    ∧ selected_row df' (VStr (new_group_name f)) = Ok (Frame COLUMNS [record])
    ∧ record !! "Group_Association" = Some (VStr (new_group_name f))
    ∧ record !! "President_Name" = Some (VStr (p_name f))
    ∧ record !! "President_Email" = Some (VStr (p_email f))
    ∧ record !! "President_Contact" = Some (VStr (p_contact f))
    ∧ record !! "Secretary_Name" = Some (VStr (s_name f))
    ∧ record !! "Secretary_Email" = Some (VStr (s_email f))
    ∧ record !! "Secretary_Contact" = Some (VStr (s_contact f))
    ∧ record !! "Treasurer_Name" = Some (VStr (t_name f))
    ∧ record !! "Treasurer_Email" = Some (VStr (t_email f))
    ∧ record !! "Treasurer_Contact" = Some (VStr (t_contact f))
    ∧ record !! "Last_Fee_Paid_Year" = Some (VInt (fee_year f))
    ∧ record !! "Web_Data_Updated" = Some (VStr (Py.strftime today))
    ∧ dom record = list_to_set COLUMNS.
Proof.
  intros Hs Hdf Hne Hnew Hconn Hwrite.
  rewrite (tab2_new_name today f w df) by done. rewrite Hconn, Hwrite.
  eexists _, _, _. do 3 (split; [reflexivity|]).
  split.
  { rewrite <- concat_shaped by done. by apply concat_preserves_shape. }
  split.
  { unfold selected_row. rewrite getitem_group by apply group_in_COLUMNS.
    cbn [mbind Py.result_bind]. f_equal.
    rewrite (filter_rows_eq_mask _ "Group_Association")
      by (by apply getitem_group, group_in_COLUMNS).
    cbn [columns rows]. f_equal.
    rewrite filter_app, filter_no_group by done.
    rewrite filter_cons_True; [done|].
    apply Is_true_true, cell_eqb_VStr. vm_compute. reflexivity. }
  repeat split; vm_compute; reflexivity.
Qed.

Lemma insert_then_find_witness :
  ∃ w' df' (record : row),
    tab2 a_day rotary true (session true true) = (Raise RerunException, w')
    ∧ df_orgaco w' = Some df'
    ∧ sheet w' = df'
    ∧ shaped df'
    ∧ selected_row df' (VStr "Rotary") = Ok (Frame COLUMNS [record])
    ∧ record !! "Group_Association" = Some (VStr "Rotary")
    ∧ record !! "President_Name" = Some (VStr "Ada")
    ∧ record !! "President_Email" = Some (VStr "ada@example.org")
    ∧ record !! "President_Contact" = Some (VStr "0711")
    ∧ record !! "Secretary_Name" = Some (VStr "")
    ∧ record !! "Secretary_Email" = Some (VStr "")
    ∧ record !! "Secretary_Contact" = Some (VStr "")
    ∧ record !! "Treasurer_Name" = Some (VStr "")
    ∧ record !! "Treasurer_Email" = Some (VStr "")
    ∧ record !! "Treasurer_Contact" = Some (VStr "")
    ∧ record !! "Last_Fee_Paid_Year" = Some (VInt 2025)
    ∧ record !! "Web_Data_Updated" = Some (VStr "2026-03-07")
    ∧ dom record = list_to_set COLUMNS.
Proof.
  apply (insert_then_find a_day rotary (session true true) lions_frame).
  - reflexivity.
  - split; [reflexivity|]. apply Forall_singleton, dom_reindex.
  - discriminate.
  - apply (bool_decide_unpack _). vm_compute. exact I.
  - reflexivity.
  - reflexivity.
Defined.
(** ** Updating a row *)

Lemma where_fmap_l {A B} (f : A → B) (l : list A) mask :
  pd.where_ (f <$> l) mask = f <$> pd.where_ l mask.
Proof.
  revert mask. induction l as [|x l IH]; intros [|[] mask]; csimpl; try done.
  by rewrite IH.
Qed.

Lemma index_where_cons b mask :
  pd.index_where (b :: mask)
  = if b then 0%nat :: (S <$> pd.index_where mask) else S <$> pd.index_where mask.
Proof.
  unfold pd.index_where. cbn [length seq pd.where_].
  rewrite <- fmap_S_seq, where_fmap_l. by destruct b.
Qed.

(** [index[0]] of the rows a mask keeps is the first position where the mask
    holds. *)
Lemma first_index_where mask :
  true ∈ mask →
  ∃ idx, pd.first (pd.index_where mask) = Ok idx
         ∧ mask !! idx = Some true
         ∧ ∀ j, (j < idx)%nat → mask !! j = Some false.
Proof.
  induction mask as [|b mask IH]; intros Hin; [by apply elem_of_nil in Hin|].
  rewrite index_where_cons. destruct b.
  - exists 0%nat. split; [done|]. split; [done|]. intros j Hj. lia.
  - apply elem_of_cons in Hin as [|Hin]; [done|].
    destruct (IH Hin) as (idx & Hfirst & Hidx & Hbefore).
    exists (S idx). split; [|split; [done|]].
    + destruct (pd.index_where mask); [done|]. csimpl. simpl in Hfirst. congruence.
    + intros [|j] Hj; [done|]. apply Hbefore. lia.
Qed.

Lemma loc_set_known df idx c v :
  c ∈ columns df →
  pd.loc_set df idx c v
  = Frame (columns df) (alter (λ r : row, <[c := v]> r) idx (rows df)).
Proof. intros Hc. unfold pd.loc_set. by rewrite decide_True. Qed.

Lemma foldl_loc_set (d : dict) df idx :
  (∀ k, k ∈ d.*1 → k ∈ columns df) →
  foldl (λ df '(c, v), pd.loc_set df idx c v) df d
  = Frame (columns df) (alter (assign_all d) idx (rows df)).
Proof.
  revert df. induction d as [|[c v] d IH]; intros df Hkeys.
  - cbn [foldl]. destruct df as [cols rs]. cbn [columns rows]. f_equal.
    symmetry. apply list_alter_id. done.
  - cbn [foldl]. rewrite loc_set_known by (apply Hkeys; csimpl; apply elem_of_cons; auto).
    rewrite IH.
    + cbn [columns rows]. f_equal. by rewrite list_alter_alter_eq.
    + cbn [columns]. intros k Hk. apply Hkeys. csimpl. apply elem_of_cons. auto.
Qed.

Lemma assign_all_other (d : dict) (r : row) k :
  k ∉ d.*1 → assign_all d r !! k = r !! k.
Proof.
  revert r. induction d as [|[c v] d IH]; intros r Hk; [done|].
  csimpl in Hk. apply not_elem_of_cons in Hk as [Hne Hk].
  unfold assign_all. cbn [foldl]. fold (assign_all d (<[c := v]> r)).
  rewrite IH by done. by rewrite lookup_insert_ne.
Qed.

Lemma assign_all_entry (d : dict) (r : row) k v :
  NoDup d.*1 → (k, v) ∈ d → assign_all d r !! k = Some v.
Proof.
  revert r. induction d as [|[c v'] d IH]; intros r Hnd Hin;
    [by apply elem_of_nil in Hin|].
  csimpl in Hnd. apply NoDup_cons in Hnd as [Hc Hnd].
  unfold assign_all. cbn [foldl]. fold (assign_all d (<[c := v']> r)).
  apply elem_of_cons in Hin as [[= -> ->]|Hin].
  - rewrite assign_all_other by done. apply lookup_insert_eq.
  - by apply IH.
Qed.
Lemma dom_assign_all (d : dict) (r : row) :
  (∀ k, k ∈ d.*1 → k ∈ dom r) → dom (assign_all d r) = dom r.
Proof.
  revert r. induction d as [|[c v] d IH]; intros r Hkeys; [done|].
  unfold assign_all. cbn [foldl]. fold (assign_all d (<[c := v]> r)).
  assert (dom (<[c := v]> r) = dom r) as Hdom.
  { apply dom_insert_lookup_L, elem_of_dom, Hkeys. csimpl. apply elem_of_cons. by left. }
  rewrite IH; [done|]. intros k Hk. rewrite Hdom. apply Hkeys. csimpl.
  apply elem_of_cons. by right.
Qed.

(** What pressing "Save Changes" does once the row is located: the edited
    cells and the stamp are assigned in the session frame, and then the frame
    is written. *)
Lemma save_changes_runs today name (edited : dict) rest (w : World) df idx :
  df_orgaco w = Some df →
  "Group_Association" ∈ columns df →
  "Web_Data_Updated" ∈ columns df →
  (∀ k, k ∈ edited.*1 → k ∈ columns df) →
  pd.first (pd.index_where (pd.eq_mask (group_column df) name)) = Ok idx →
  let stamp := Py.strftime today in
  let df' := Frame (columns df)
               (alter (λ r : row, <["Web_Data_Updated" := VStr stamp]> (assign_all edited r))
                      idx (rows df)) in
  save_changes today name (edited :: rest) w
  = if conn_ok w then
      if write_ok w then
        (Raise RerunException,
         set_cache None (show [success_updated name stamp]
           (set_sheet df' (log_call (Write df') (log_call Connect
             (set_df_orgaco df' w))))))
      else
        (Ok (), show [error_writing; exception_shown BackendError]
                  (log_call (Write df') (log_call Connect (set_df_orgaco df' w))))
    else
      (Ok (), show [error_writing; exception_shown ConnectionError]
                (log_call Connect (set_df_orgaco df' w))).
Proof.
  intros Hs Hg Hw Hkeys Hidx stamp df'. unfold save_changes. run_script.
  rewrite Hs, getitem_group, Hidx by done. cbn [pd.first].
  rewrite foldl_loc_set by done.
  rewrite loc_set_known by done. cbn [columns rows].
  rewrite list_alter_alter_eq. unfold compose. fold stamp. fold df'.
  unfold write_data. run_script.
  destruct (conn_ok w), (write_ok w); try done.
  all: unfold show; cbn; by rewrite <- ?app_assoc.
Qed.
Lemma getitem_ok_in df c col : pd.getitem df c = Ok col → c ∈ columns df.
Proof. unfold pd.getitem. by case_decide. Qed.

Lemma selected_row_rows df name sel :
  selected_row df name = Ok sel →
  "Group_Association" ∈ columns df
  ∧ sel = Frame (columns df)
            (filter (λ r : row, cell_eqb (r !!! "Group_Association") name) (rows df)).
Proof.
  unfold selected_row. destruct (pd.getitem df _) as [col|] eqn:Hcol; [|done].
  cbn [mbind Py.result_bind]. intros [= <-].
  split; [by eapply getitem_ok_in|]. by apply filter_rows_eq_mask.
Qed.

(** The dicts handed to the editor carry the frame's labels other than the
    key and the stamp, one dict for each selected row. *)
Lemma data_to_edit_keys sel data :
  data_to_edit sel = Ok data →
  "Group_Association" ∈ columns sel
  ∧ "Web_Data_Updated" ∈ columns sel
  ∧ length data = length (rows sel)
  ∧ Forall (λ d : dict,
              d.*1 = filter (λ c, c ∉ ["Group_Association"; "Web_Data_Updated"])
                            (columns sel)) data.
Proof.
  unfold data_to_edit, pd.drop_columns.
  destruct (list_find _ _) as [[? ?]|] eqn:Hfind; [done|].
  cbn [mbind Py.result_bind]. intros [= <-].
  apply list_find_None in Hfind.
  apply Forall_cons in Hfind as [Hg Hfind]. apply Forall_cons in Hfind as [Hw _].
  apply dec_stable in Hg. apply dec_stable in Hw.
  split; [done|]. split; [done|]. unfold pd.to_dict_records. cbn [columns rows].
  split; [by rewrite !length_fmap|].
  apply Forall_fmap, Forall_forall. intros r _. cbn.
  rewrite <- list_fmap_compose. apply list_fmap_id.
Qed.
(** C9. A successful update changes one row only, the first whose group name
    equals the selected name: the columns and every other row are as before,
    and in the changed row the group name is as before. The editor is any
    widget that hands back, for the dicts it was given, dicts with the same
    keys. *)
Theorem update_changes_one_row today name (st_data_editor : list dict → list dict)
    (w : World) df options sel data :
  df_orgaco w = Some df →
  group_options df = Ok options →
  truthy name = true →
  selected_row df name = Ok sel →
  pd.empty sel = false →
  data_to_edit sel = Ok data →
  Forall2 (λ d e : dict, e.*1 = d.*1) data (st_data_editor data) →
  conn_ok w = true →
  write_ok w = true →
  ∃ w' df' idx (old new : row),
    tab1 today (Some name) st_data_editor true w = (Raise RerunException, w')
    ∧ df_orgaco w' = Some df'
    ∧ sheet w' = df'
    ∧ columns df' = columns df
    ∧ rows df !! idx = Some old
    ∧ cell_eqb (old !!! "Group_Association") name = true
    ∧ (∀ j r, (j < idx)%nat → rows df !! j = Some r →
              cell_eqb (r !!! "Group_Association") name = false)
    ∧ rows df' !! idx = Some new
    ∧ new !! "Group_Association" = old !! "Group_Association"
    ∧ (∀ j, j ≠ idx → rows df' !! j = rows df !! j)
    ∧ length (rows df') = length (rows df).
Proof.
  intros Hs Hopts Htruthy Hsel Hnonempty Hdata Heditor Hconn Hwrite.
  destruct (selected_row_rows _ _ _ Hsel) as [Hg ->].
  destruct (data_to_edit_keys _ _ Hdata) as (_ & Hw & Hlen & Hkeys).
  cbn [columns rows] in Hw, Hlen, Hkeys.
  (* the mask holds somewhere, since a row was selected *)
  set (mask := pd.eq_mask (group_column df) name).
  assert (true ∈ mask) as Hmask.
  { unfold pd.empty in Hnonempty. cbn [rows] in Hnonempty.
    apply bool_decide_eq_false in Hnonempty.
    destruct (filter _ (rows df)) as [|r rs] eqn:Hf; [done|].
    assert (r ∈ filter (λ r : row, cell_eqb (r !!! "Group_Association") name) (rows df))
      as [Hr Hin]%list_elem_of_filter by (rewrite Hf; apply elem_of_cons; auto).
    apply Is_true_true in Hr. unfold mask, pd.eq_mask, group_column.
    rewrite <- list_fmap_compose. apply list_elem_of_fmap. by exists r. }
  destruct (first_index_where mask Hmask) as (idx & Hfirst & Hidx & Hbefore).
  (* the editor hands back a first dict over the displayed labels *)
  destruct data as [|d data]; [by destruct (filter _ (rows df)); simplify_eq/=|].
  apply Forall_cons in Hkeys as [Hd _].
  inversion Heditor as [|? edited ? rest Hed _ Ha Hb]; subst.
  rewrite Hd in Hed.
  assert (∀ k, k ∈ edited.*1 → k ∈ columns df ∧ k ≠ "Group_Association") as Hk.
  { intros k. rewrite Hed. intros [Hk ?]%list_elem_of_filter. split; [done|].
    intros ->. apply Hk, elem_of_cons. auto. }
  (* run the tab *)
  assert (tab1 today (Some name) st_data_editor true w
          = save_changes today name (edited :: rest) w) as ->.
  { unfold tab1. run_script. rewrite Hs, Hopts. cbn [mbind Py.result_bind].
    rewrite Htruthy, Hsel, Hnonempty, Hdata. cbn [negb]. by rewrite <- Hb. }
  rewrite (save_changes_runs today name edited rest w df idx)
    by (try done; intros k Hin; by apply Hk).
  rewrite Hconn, Hwrite.
  unfold mask, pd.eq_mask, group_column in Hidx, Hbefore.
  rewrite <- list_fmap_compose in Hidx, Hbefore.
  rewrite list_lookup_fmap in Hidx.
  destruct (rows df !! idx) as [old|] eqn:Hold; [|done].
  injection Hidx as Hidx.
  eexists _, _, idx, old, _. split; [reflexivity|]. cbn [df_orgaco sheet set_cache show
    set_sheet log_call set_df_orgaco columns rows].
  do 5 (split; [done|]). cbn [columns rows]. split.
  { intros j r Hj Hr. specialize (Hbefore j Hj).
    rewrite list_lookup_fmap, Hr in Hbefore. by injection Hbefore. }
  split; [by rewrite list_lookup_alter_eq, Hold|].
  split.
  { rewrite lookup_insert_ne by done. apply assign_all_other.
    intros Hin. by apply Hk in Hin as [_ ?]. }
  split; [|by rewrite length_alter].
  intros j Hj. by rewrite list_lookup_alter_ne.
Qed.
(** ** The data editor *)

Lemma fmap_alter_unchanged {A B} (g : A → B) (f : A → A) (l : list A) i :
  (∀ x, g (f x) = g x) → g <$> alter f i l = g <$> l.
Proof.
  intros Hg. revert i. induction l as [|x l IH]; intros [|i]; csimpl; [done..| |].
  - by rewrite Hg.
  - by rewrite IH.
Qed.

Lemma set_cell_keys c v (d : dict) : (set_cell c v d).*1 = d.*1.
Proof.
  unfold set_cell. rewrite <- list_fmap_compose. apply list_fmap_ext.
  by intros i [k old] _.
Qed.

Lemma data_editor_keys column_config edits data :
  (λ d : dict, d.*1) <$> data_editor column_config edits data
  = (λ d : dict, d.*1) <$> data.
Proof.
  unfold data_editor. revert data.
  induction edits as [|e edits IH]; intros data; [done|]. cbn [foldl].
  rewrite IH. unfold apply_edit. destruct (takes _ _ _); [|done].
  apply fmap_alter_unchanged. intros d. apply set_cell_keys.
Qed.

(** The editor hands back the keys it was given. *)
Lemma data_editor_keeps_keys column_config edits data :
  Forall2 (λ d e : dict, e.*1 = d.*1) data (data_editor column_config edits data).
Proof.
  assert (Forall2 (λ k1 k2 : list string, k2 = k1)
                  ((λ d : dict, d.*1) <$> data)
                  ((λ d : dict, d.*1) <$> data_editor column_config edits data)) as H.
  { rewrite data_editor_keys. by apply Forall_Forall2_diag, Forall_true. }
  by apply Forall2_fmap in H.
Qed.

Lemma set_cell_entry c v (d : dict) k v' :
  (k, v') ∈ set_cell c v d → (k, v') ∈ d ∨ (k = c ∧ v' = v).
Proof.
  unfold set_cell. intros [[k0 old] [Heq Hin]]%list_elem_of_fmap.
  destruct (String.eqb_spec k0 c) as [->|]; injection Heq as -> ->; [by right|by left].
Qed.

(** A cell the editor hands back is the cell it was given or a value the
    column takes. *)
Lemma data_editor_cells column_config edits data i (d' : dict) k v :
  data_editor column_config edits data !! i = Some d' →
  (k, v) ∈ d' →
  (∃ d : dict, data !! i = Some d ∧ (k, v) ∈ d) ∨ takes column_config k v = true.
Proof.
  unfold data_editor. revert data.
  induction edits as [|e edits IH]; intros data Hlook Hin; [by eauto|].
  cbn [foldl] in Hlook.
  destruct (IH _ Hlook Hin) as [(d1 & Hd1 & Hin1)|?]; [|by right].
  unfold apply_edit in Hd1.
  destruct (takes column_config (edit_column e) (edit_value e)) eqn:Ht; [|by eauto].
  destruct (decide (i = edit_row e)) as [->|Hne].
  - rewrite list_lookup_alter_eq in Hd1.
    destruct (data !! edit_row e) as [d|] eqn:Hd; [|done]. injection Hd1 as <-.
    apply set_cell_entry in Hin1 as [?|[-> ->]]; [by eauto|by right].
  - rewrite list_lookup_alter_ne in Hd1 by done. by eauto.
Qed.

(** What the year column of the update editor takes. *)
Lemma update_editor_takes_year today v :
  takes [("Last_Fee_Paid_Year", update_editor_year today)] "Last_Fee_Paid_Year" v = true →
  v = VMissing ∨ ∃ z, v = VInt z ∧ 1900 ≤ z ≤ Z.of_nat (Py.year today) + 1.
Proof.
  unfold takes.
  change (list_to_map [("Last_Fee_Paid_Year", update_editor_year today)])
    with (<["Last_Fee_Paid_Year" := update_editor_year today]>
            (∅ : gmap string number_bounds)).
  rewrite lookup_insert_eq. destruct v as [|z|s]; [by left| |done].
  unfold can_be_entered, update_editor_year. cbn [min_value max_value].
  rewrite andb_true_iff, !Z.leb_le. by eauto.
Qed.

(** The rows a filter keeps start with the first row it holds of. *)
Lemma filter_head (f : row → bool) (l : list row) idx (old : row) :
  l !! idx = Some old →
  f old = true →
  (∀ j r, (j < idx)%nat → l !! j = Some r → f r = false) →
  ∃ rest, filter (λ r, f r) l = old :: rest.
Proof.
  revert idx. induction l as [|x l IH]; intros [|idx] Hl Hf Hbefore; try done.
  - injection Hl as ->. rewrite filter_cons_True by (by apply Is_true_true). by eauto.
  - rewrite filter_cons_False.
    2: { apply Is_true_false. apply (Hbefore 0%nat x); [lia|done]. }
    apply (IH idx); [done|done|]. intros j r Hj Hr. apply (Hbefore (S j) r); [lia|done].
Qed.

Lemma update_changes_one_row_witness :
  ∃ w' df' idx (old new : row),
    tab1 a_day (Some (VStr "Rotary"))
         (update_editor a_day [edit_first "Last_Fee_Paid_Year" (VInt 2024)]) true
         (clubs_session true true)
      = (Raise RerunException, w')
    ∧ df_orgaco w' = Some df'
    ∧ sheet w' = df'
    ∧ columns df' = columns clubs_frame
    ∧ rows clubs_frame !! idx = Some old
    ∧ cell_eqb (old !!! "Group_Association") (VStr "Rotary") = true
    ∧ (∀ j r, (j < idx)%nat → rows clubs_frame !! j = Some r →
              cell_eqb (r !!! "Group_Association") (VStr "Rotary") = false)
    ∧ rows df' !! idx = Some new
    ∧ new !! "Group_Association" = old !! "Group_Association"
    ∧ (∀ j, j ≠ idx → rows df' !! j = rows clubs_frame !! j)
    ∧ length (rows df') = length (rows clubs_frame).
Proof.
  apply (update_changes_one_row a_day (VStr "Rotary")
           (update_editor a_day [edit_first "Last_Fee_Paid_Year" (VInt 2024)])
           (clubs_session true true) clubs_frame
           [VStr "Lions Club"; VStr "Rotary"] rotary_rows rotary_data).
  - reflexivity.
  - vm_compute. reflexivity.
  - reflexivity.
  - vm_compute. reflexivity.
  - vm_compute. reflexivity.
  - vm_compute. reflexivity.
  - apply data_editor_keeps_keys.
  - reflexivity.
  - reflexivity.
Defined.

(** The update of Rotary in a frame that holds the name twice: the first of
    the two rows gets the year and the stamp, the second and the row between
    them are as they were. *)
Example update_first_of_two :
  let out := tab1 a_day (Some (VStr "Rotary"))
               (update_editor a_day [edit_first "Last_Fee_Paid_Year" (VInt 2024)])
               true (clubs_session true true) in
  group_column (sheet out.2) = [VStr "Rotary"; VStr "Lions Club"; VStr "Rotary"]
  ∧ year_column (sheet out.2) = [VInt 2024; VInt 2023; VInt 2019]
  ∧ date_column (sheet out.2)
    = [VStr "2026-03-07"; VStr "2025-01-31"; VStr "2023-11-12"]
  ∧ (λ r : row, r !!! "President_Name") <$> rows (sheet out.2)
    = [VStr "Ada"; VStr "Bo"; VStr "Cy"].
Proof. vm_compute. repeat split. Qed.

(** What the editor is given: the selected rows without the key and the
    stamp. *)
Lemma data_to_edit_shaped sel :
  columns sel = COLUMNS →
  let shown := filter (λ c, c ∉ ["Group_Association"; "Web_Data_Updated"]) COLUMNS in
  data_to_edit sel
  = Ok ((λ r : row, (λ c, (c, r !!! c)) <$> shown) <$> rows sel).
Proof.
  intros Hcols shown. unfold data_to_edit, pd.drop_columns. rewrite Hcols.
  assert (list_find (λ c, c ∉ COLUMNS) ["Group_Association"; "Web_Data_Updated"] = None)
    as -> by (vm_compute; reflexivity).
  cbn [mbind Py.result_bind]. fold shown. unfold pd.to_dict_records.
  cbn [columns rows]. f_equal. rewrite <- list_fmap_compose.
  apply list_fmap_ext. intros i r _. unfold compose.
  apply list_fmap_ext. intros j c Hc%list_elem_of_lookup_2. f_equal.
  by rewrite lookup_total_alt, lookup_reindex, decide_True.
Qed.

(** C3. The bound on the year is the configuration of the editor's column and
    nothing else. With the editor as lines 123-138 configure it, a year that
    "Save Changes" writes is the year the row had, whatever it was, or a value
    the column takes: none, or a number from 1900 to this year + 1. The
    handler itself checks nothing: for an existing group and a write that
    succeeds it assigns every cell of the row the editor hands back, stamps
    the row, writes the frame and reports success. *)
Theorem update_saves_edited_row today name (edits : list cell_edit)
    (w : World) df options :
  df_orgaco w = Some df →
  shaped df →
  group_options df = Ok options →
  truthy name = true →
  (∃ r, r ∈ rows df ∧ cell_eqb (r !!! "Group_Association") name = true) →
  conn_ok w = true →
  write_ok w = true →
  ∃ w' df' idx (old new : row) sel data (edited : dict) rest,
    tab1 today (Some name) (update_editor today edits) true w
      = (Raise RerunException, w')
    ∧ page w' = page w ++ [success_updated name (Py.strftime today)]
    ∧ df_orgaco w' = Some df'
    ∧ sheet w' = df'
    ∧ shaped df'
    ∧ rows df !! idx = Some old
    ∧ rows df' !! idx = Some new
    ∧ selected_row df name = Ok sel
    ∧ data_to_edit sel = Ok data
    ∧ update_editor today edits data = edited :: rest
    ∧ (∀ k v, (k, v) ∈ edited → new !! k = Some v)
    ∧ new !! "Web_Data_Updated" = Some (VStr (Py.strftime today))
    ∧ (new !! "Last_Fee_Paid_Year" = old !! "Last_Fee_Paid_Year"
       ∨ new !! "Last_Fee_Paid_Year" = Some VMissing
       ∨ ∃ z, new !! "Last_Fee_Paid_Year" = Some (VInt z)
              ∧ 1900 ≤ z ≤ Z.of_nat (Py.year today) + 1).
Proof.
  intros Hs [Hcols Hrows] Hopts Htruthy (r & Hr & Hmatch) Hconn Hwrite.
  assert ("Group_Association" ∈ columns df) as Hg
    by (rewrite Hcols; apply group_in_COLUMNS).
  set (matches := λ r : row, cell_eqb (r !!! "Group_Association") name).
  set (shown := filter (λ c, c ∉ ["Group_Association"; "Web_Data_Updated"]) COLUMNS).
  assert ("Last_Fee_Paid_Year" ∈ shown ∧ NoDup shown
          ∧ ("Group_Association" ∉ shown) ∧ ("Web_Data_Updated" ∉ shown)
          ∧ ∀ k, k ∈ shown → k ∈ COLUMNS) as (Hyear & Hnd & Hng & Hnw & Hsub).
  { split; [apply (bool_decide_unpack _); vm_compute; exact I|].
    split; [apply (bool_decide_unpack _); vm_compute; exact I|].
    split; [apply (bool_decide_unpack _); vm_compute; exact I|].
    split; [apply (bool_decide_unpack _); vm_compute; exact I|].
    intros k. unfold shown. by intros [_ ?]%list_elem_of_filter. }
  (* the first row that bears the name *)
  assert (true ∈ pd.eq_mask (group_column df) name) as Hmask.
  { unfold pd.eq_mask, group_column. rewrite <- list_fmap_compose.
    apply list_elem_of_fmap. by exists r. }
  destruct (first_index_where _ Hmask) as (idx & Hfirst & Hidx & Hbefore).
  unfold pd.eq_mask, group_column in Hidx, Hbefore.
  rewrite <- list_fmap_compose in Hidx, Hbefore.
  rewrite list_lookup_fmap in Hidx.
  destruct (rows df !! idx) as [old|] eqn:Hold; [|done]. injection Hidx as Hidx.
  assert (dom old = list_to_set COLUMNS) as Hdom.
  { eapply Forall_forall in Hrows; [exact Hrows|]. by eapply list_elem_of_lookup_2. }
  destruct (filter_head matches (rows df) idx old Hold Hidx) as [others Hsel].
  { intros j r0 Hj Hr0. specialize (Hbefore j Hj).
    rewrite list_lookup_fmap, Hr0 in Hbefore. by injection Hbefore. }
  (* the selection and the dicts given to the editor *)
  set (sel := Frame (columns df) (filter (λ r, matches r) (rows df))).
  assert (selected_row df name = Ok sel) as Hselected.
  { unfold selected_row. rewrite getitem_group by done. cbn [mbind Py.result_bind].
    f_equal. by apply filter_rows_eq_mask, getitem_group. }
  pose proof (data_to_edit_shaped sel Hcols) as Hdata. cbn zeta in Hdata.
  fold shown in Hdata. unfold sel in Hdata at 2. cbn [rows] in Hdata.
  rewrite Hsel in Hdata. rewrite fmap_cons in Hdata.
  set (d0 := (λ c, (c, old !!! c)) <$> shown) in Hdata.
  set (more := (λ r0 : row, (λ c, (c, r0 !!! c)) <$> shown) <$> others) in Hdata.
  (* what the editor hands back *)
  pose proof (data_editor_keeps_keys
                [("Last_Fee_Paid_Year", update_editor_year today)] edits (d0 :: more))
    as Hkeys.
  fold (update_editor today edits) in Hkeys.
  destruct (update_editor today edits (d0 :: more)) as [|edited rest] eqn:Hedited;
    [by inversion Hkeys|].
  apply Forall2_cons in Hkeys as [Hk _].
  assert (edited.*1 = shown) as Hek.
  { rewrite Hk. unfold d0. rewrite <- list_fmap_compose. apply list_fmap_id. }
  (* run the tab *)
  assert (tab1 today (Some name) (update_editor today edits) true w
          = save_changes today name (edited :: rest) w) as Htab.
  { unfold tab1. run_script. rewrite Hs, Hopts. cbn [mbind Py.result_bind].
    rewrite Htruthy, Hselected.
    assert (pd.empty sel = false) as ->.
    { unfold pd.empty, sel. cbn [rows]. rewrite Hsel. by apply bool_decide_eq_false_2. }
    cbn [negb]. rewrite Hdata. by rewrite Hedited. }
  rewrite Htab.
  rewrite (save_changes_runs today name edited rest w df idx); try done.
  2: { rewrite Hcols. apply (bool_decide_unpack _). vm_compute. exact I. }
  2: { intros k Hk'. rewrite Hcols, Hek in *. by apply Hsub. }
  rewrite Hconn, Hwrite.
  eexists _, _, idx, old, _, sel, (d0 :: more), edited, rest.
  split; [reflexivity|].
  cbn [page df_orgaco sheet set_cache show set_sheet log_call set_df_orgaco].
  do 3 (split; [done|]). cbn [rows].
  rewrite list_lookup_alter_eq, Hold. cbn [fmap option_fmap option_map].
  assert (∀ k v, (k, v) ∈ edited →
            <["Web_Data_Updated" := VStr (Py.strftime today)]> (assign_all edited old) !! k
            = Some v) as Hcells.
  { intros k v Hin.
    assert (k ∈ shown) as Hkin by (rewrite <- Hek; apply list_elem_of_fmap; by exists (k, v)).
    rewrite lookup_insert_ne by (by intros <-).
    apply assign_all_entry; [by rewrite Hek|done]. }
  split.
  { split; [done|]. cbn [rows]. apply Forall_alter; [done|]. intros r0 _ Hdom0.
    rewrite dom_insert_lookup_L, dom_assign_all; [done| |].
    + intros k Hk'. rewrite Hdom0, Hek in *. apply elem_of_list_to_set. by apply Hsub.
    + apply elem_of_dom. rewrite dom_assign_all, Hdom0.
      * apply (bool_decide_unpack _). vm_compute. exact I.
      * intros k Hk'. rewrite Hdom0, Hek in *. apply elem_of_list_to_set. by apply Hsub. }
  do 5 (split; [done|]). split; [exact Hcells|]. split; [apply lookup_insert_eq|].
  (* the year *)
  assert (∃ v, ("Last_Fee_Paid_Year", v) ∈ edited) as [v Hv].
  { rewrite <- Hek in Hyear. apply list_elem_of_fmap in Hyear as [[k v] [-> Hin]]. by eauto. }
  rewrite (Hcells _ _ Hv).
  assert (update_editor today edits (d0 :: more) !! 0%nat = Some edited) as Hlook
    by (by rewrite Hedited).
  destruct (data_editor_cells _ _ _ _ _ _ _ Hlook Hv) as [(d & Hd & Hin)|Htakes].
  - left. injection Hd as <-. unfold d0 in Hin.
    apply list_elem_of_fmap in Hin as (c & [= <- ->] & _).
    rewrite lookup_total_alt.
    assert ("Last_Fee_Paid_Year" ∈ dom old) as [v Hv']%elem_of_dom.
    { rewrite Hdom. apply elem_of_list_to_set. by apply Hsub. }
    by rewrite Hv'.
  - right. apply update_editor_takes_year in Htakes as [->|(z & -> & Hz)]; [by left|].
    right. by eauto.
Qed.

Lemma update_saves_edited_row_witness :
  ∃ w' df' idx (old new : row) sel data (edited : dict) rest,
    tab1 a_day (Some (VStr "Rotary"))
         (update_editor a_day [edit_first "Last_Fee_Paid_Year" (VInt 1900);
                               edit_first "President_Name" (VStr "Eve")])
         true (clubs_session true true)
      = (Raise RerunException, w')
    ∧ page w' = page (clubs_session true true)
                ++ [success_updated (VStr "Rotary") (Py.strftime a_day)]
    ∧ df_orgaco w' = Some df'
    ∧ sheet w' = df'
    ∧ shaped df'
    ∧ rows clubs_frame !! idx = Some old
    ∧ rows df' !! idx = Some new
    ∧ selected_row clubs_frame (VStr "Rotary") = Ok sel
    ∧ data_to_edit sel = Ok data
    ∧ update_editor a_day [edit_first "Last_Fee_Paid_Year" (VInt 1900);
                           edit_first "President_Name" (VStr "Eve")] data
      = edited :: rest
    ∧ (∀ k v, (k, v) ∈ edited → new !! k = Some v)
    ∧ new !! "Web_Data_Updated" = Some (VStr (Py.strftime a_day))
    ∧ (new !! "Last_Fee_Paid_Year" = old !! "Last_Fee_Paid_Year"
       ∨ new !! "Last_Fee_Paid_Year" = Some VMissing
       ∨ ∃ z, new !! "Last_Fee_Paid_Year" = Some (VInt z)
              ∧ 1900 ≤ z ≤ Z.of_nat (Py.year a_day) + 1).
Proof.
  apply (update_saves_edited_row a_day (VStr "Rotary")
           [edit_first "Last_Fee_Paid_Year" (VInt 1900);
            edit_first "President_Name" (VStr "Eve")]
           (clubs_session true true) clubs_frame [VStr "Lions Club"; VStr "Rotary"]).
  - reflexivity.
  - split; [reflexivity|]. repeat constructor; apply (bool_decide_unpack _);
      vm_compute; exact I.
  - vm_compute. reflexivity.
  - reflexivity.
  - exists (club_row "Rotary" "Ada" (VInt 2021) "2024-05-01").
    split; [apply elem_of_cons; by left|]. vm_compute. reflexivity.
  - reflexivity.
  - reflexivity.
Defined.

(** The update at the bounds: 1900 and next year are taken and saved; 1899 and
    the year after next are not taken by the editor, and the row is saved
    with the year it had. *)
Example update_at_the_bounds :
  let saved_year y :=
    year_column
      (sheet (tab1 a_day (Some (VStr "Rotary"))
                   (update_editor a_day [edit_first "Last_Fee_Paid_Year" (VInt y)])
                   true (clubs_session true true)).2) in
  saved_year 1900 = [VInt 1900; VInt 2023; VInt 2019]
  ∧ saved_year 2027 = [VInt 2027; VInt 2023; VInt 2019]
  ∧ saved_year 1899 = [VInt 2021; VInt 2023; VInt 2019]
  ∧ saved_year 2028 = [VInt 2021; VInt 2023; VInt 2019].
Proof. vm_compute. repeat split. Qed.

(** C3, as stated, fails: no update ends in a validation failure. A sheet
    holds the year 1899 for one group and none for another; the session loads
    them as 1899 and 0, which the editor's column would not take. The user
    changes the president's name and saves: the handler reports success, and
    the row it writes holds the year 1899. *)
Lemma out_of_range_year_is_saved :
  let w := (init_session iso_to_datetime (fresh stale_sheet)).2 in
  let out := tab1 a_day (Some (VStr "Lions Club"))
               (update_editor a_day [edit_first "President_Name" (VStr "Cy")])
               true w in
  year_column <$> df_orgaco w = Some [VInt 1899; VInt 0]
  ∧ can_be_entered (update_editor_year a_day) 1899 = false
  ∧ can_be_entered (update_editor_year a_day) 0 = false
  ∧ out.1 = Raise RerunException
  ∧ page out.2 = [success_updated (VStr "Lions Club") "2026-03-07"]
  ∧ year_column (sheet out.2) = [VInt 1899; VInt 0]
  ∧ (λ r : row, r !!! "President_Name") <$> rows (sheet out.2) = [VStr "Cy"; VStr "Ada"]
  ∧ date_column (sheet out.2) = [VStr "2026-03-07"; VStr "2024-05-01"].
Proof. vm_compute. repeat split. Qed.
(** ** Listing the group names *)

Section unique.
Context {A : Type} `{EqDecision A}.
Implicit Types seen l : list A.

Lemma elem_of_unique_from x seen l :
  x ∈ pd.unique_from seen l ↔ x ∈ l ∧ x ∉ seen.
Proof.
  revert seen. induction l as [|y l IH]; intros seen; cbn [pd.unique_from].
  - rewrite elem_of_nil. tauto.
  - case_decide as Hy.
    + rewrite IH, elem_of_cons. split; [tauto|].
      intros [[->|Hx] Hseen]; tauto.
    + rewrite !elem_of_cons, IH, not_elem_of_cons.
      destruct (decide (x = y)) as [->|Hne]; tauto.
Qed.

Lemma NoDup_unique_from seen l : NoDup (pd.unique_from seen l).
Proof.
  revert seen. induction l as [|y l IH]; intros seen; cbn [pd.unique_from].
  - constructor.
  - case_decide; [done|]. constructor; [|done].
    rewrite elem_of_unique_from, not_elem_of_cons. tauto.
Qed.

Lemma StronglySorted_unique_from (R : relation A) seen l :
  StronglySorted R l → StronglySorted R (pd.unique_from seen l).
Proof.
  intros Hl. revert seen.
  induction Hl as [|y l Hl IH Hy]; intros seen; cbn [pd.unique_from].
  - constructor.
  - case_decide; [done|]. constructor; [done|].
    apply Forall_forall. intros x [Hx _]%elem_of_unique_from.
    by eapply Forall_forall in Hy.
Qed.

Lemma unique_from_fmap {B} `{EqDecision B} (f : A → B) `{!Inj (=) (=) f} seen l :
  pd.unique_from (f <$> seen) (f <$> l) = f <$> pd.unique_from seen l.
Proof.
  revert seen. induction l as [|y l IH]; intros seen; [done|].
  csimpl. destruct (decide (y ∈ seen)) as [Hy|Hy].
  - rewrite decide_True by (by apply list_elem_of_fmap_2). apply IH.
  - rewrite decide_False by (by rewrite list_elem_of_fmap_inj).
    csimpl. f_equal. apply (IH (y :: seen)).
Qed.
End unique.

Lemma unique_from_seen (seen m : list cell) :
  Forall (λ c, c ∈ seen) m → pd.unique_from seen m = [].
Proof.
  induction 1 as [|c m Hc _ IH]; [done|]. cbn [pd.unique_from].
  by rewrite decide_True.
Qed.

(** [unique] after the sort: the blanks, which come last, leave one NaN. *)
Lemma unique_from_blanks (seen l m : list cell) :
  VMissing ∉ seen →
  VMissing ∉ l →
  Forall (λ c, c = VMissing) m →
  pd.unique_from seen (l ++ m)
  = pd.unique_from seen l ++ (if decide (m = []) then [] else [VMissing]).
Proof.
  intros Hseen Hl Hm. revert seen Hseen.
  induction l as [|c l IH]; intros seen Hseen.
  - cbn [app pd.unique_from]. destruct Hm as [|c m -> Hm]; [done|].
    cbn [pd.unique_from]. rewrite decide_False by done.
    rewrite decide_False by done. f_equal. apply unique_from_seen.
    eapply Forall_impl; [exact Hm|]. intros c ->. apply elem_of_cons. by left.
  - apply not_elem_of_cons in Hl as [Hc Hl]. cbn [app pd.unique_from].
    destruct (decide (c ∈ seen)); [by apply IH|].
    cbn [app]. f_equal. apply IH; [done|].
    apply not_elem_of_cons. by split.
Qed.

Lemma sort_values_names (col : list cell) :
  Forall text_or_blank col →
  pd.sort_values col
  = Ok ((VStr <$> merge_sort Py.le (omap pd.text_of col))
        ++ filter (λ c, c = VMissing) col).
Proof.
  intros Hcol. unfold pd.sort_values.
  assert (forallb (λ c, bool_decide (is_Some (pd.text_of c)))
                  (filter (λ c, c ≠ VMissing) col) = true) as ->.
  { apply forallb_forall. intros c [Hc Hin]%list_elem_of_In%list_elem_of_filter.
    assert (text_or_blank c) as [->|[s ->]]
      by (eapply Forall_forall in Hcol; [exact Hcol|exact Hin]); [done|].
    apply bool_decide_eq_true. by eexists. }
  assert (omap pd.text_of (filter (λ c, c ≠ VMissing) col) = omap pd.text_of col) as ->.
  { clear Hcol. induction col as [|c col IH]; [done|].
    destruct (decide (c = VMissing)) as [->|Hc].
    - by rewrite filter_cons_False by (by intros ?).
    - rewrite filter_cons_True by done. csimpl. by rewrite IH. }
  done.
Qed.

(** The options computed from a frame whose group names are texts or
    blank. *)
Lemma group_options_names df :
  "Group_Association" ∈ columns df →
  Forall text_or_blank (group_column df) →
  ∃ names : list Py.str,
    group_options df
    = Ok ((VStr <$> names)
          ++ (if decide (VMissing ∈ group_column df) then [VMissing] else []))
    ∧ StronglySorted Py.le names
    ∧ NoDup names
    ∧ ∀ s, s ∈ names ↔ VStr s ∈ group_column df.
Proof.
  intros Hg Hcol.
  set (texts := omap pd.text_of (group_column df)).
  exists (pd.unique_from [] (merge_sort Py.le texts)).
  split; [|split; [|split]].
  - unfold group_options. rewrite getitem_group by done.
    cbn [mbind Py.result_bind]. rewrite sort_values_names by done. fold texts.
    cbn [mbind Py.result_bind]. f_equal. unfold pd.unique.
    rewrite unique_from_blanks.
    + rewrite (unique_from_fmap VStr []). f_equal.
      destruct (decide (VMissing ∈ group_column df)) as [Hin|Hout].
      * rewrite decide_False; [done|]. intros Hnil.
        assert (VMissing ∈ filter (λ c, c = VMissing) (group_column df)) as Hf
          by (by apply list_elem_of_filter).
        rewrite Hnil in Hf. by apply elem_of_nil in Hf.
      * rewrite decide_True; [done|].
        destruct (filter _ (group_column df)) as [|c m] eqn:Hf; [done|].
        assert (c ∈ filter (λ c, c = VMissing) (group_column df)) as [-> ?]%list_elem_of_filter
          by (rewrite Hf; apply elem_of_cons; by left).
        done.
    + apply not_elem_of_nil.
    + by intros (s & ? & _)%list_elem_of_fmap.
    + apply Forall_forall. by intros c [-> _]%list_elem_of_filter.
  - apply StronglySorted_unique_from, StronglySorted_merge_sort; apply _.
  - apply NoDup_unique_from.
  - intros s. rewrite elem_of_unique_from, merge_sort_Permutation.
    unfold texts. rewrite list_elem_of_omap. rewrite elem_of_nil. split.
    + intros [(c & Hc & Ht) _]. destruct c; try done. by injection Ht as ->.
    + intros Hs. split; [|tauto]. by exists (VStr s).
Qed.

Lemma texts_or_blank (col : list cell) :
  Forall (λ c, ∃ s, c = VStr s) col → Forall text_or_blank col ∧ VMissing ∉ col.
Proof.
  intros Hcol. split.
  - eapply Forall_impl; [exact Hcol|]. intros c ?. by right.
  - intros Hin. eapply Forall_forall in Hcol as [s Hs]; [|exact Hin]. done.
Qed.

(** The options computed from a frame whose group names are texts. *)
Lemma group_options_texts df :
  "Group_Association" ∈ columns df →
  Forall (λ c, ∃ s, c = VStr s) (group_column df) →
  ∃ names : list Py.str,
    group_options df = Ok (VStr <$> names)
    ∧ StronglySorted Py.le names
    ∧ NoDup names
    ∧ ∀ s, s ∈ names ↔ VStr s ∈ group_column df.
Proof.
  intros Hg [Hcol Hno]%texts_or_blank.
  destruct (group_options_names df Hg Hcol) as (names & Hopts & Hrest).
  exists names. split; [|done]. rewrite Hopts, decide_False by done.
  by rewrite app_nil_r.
Qed.

(** After a successful insert the new name is among the options. *)
Lemma inserted_name_listed today f (w : World) df :
  df_orgaco w = Some df →
  shaped df →
  Forall (λ c, ∃ s, c = VStr s) (group_column df) →
  new_group_name f ≠ "" →
  VStr (new_group_name f) ∉ group_column df →
  conn_ok w = true →
  write_ok w = true →
  ∃ names : list Py.str,
    (list_group_names (tab2 today f true w).2).1 = Ok (VStr <$> names)
    ∧ new_group_name f ∈ names.
Proof.
  intros Hs Hdf Htexts Hne Hnew Hconn Hwrite.
  rewrite (tab2_new_name today f w df) by done. rewrite Hconn, Hwrite.
  set (df' := Frame COLUMNS _).
  assert (group_column df' = group_column df ++ [VStr (new_group_name f)]) as Hcol.
  { unfold group_column, df'. cbn [rows]. rewrite fmap_app. f_equal. }
  destruct (group_options_texts df') as (names & Hopts & _ & _ & Hnames).
  { apply group_in_COLUMNS. }
  { rewrite Hcol. apply Forall_app. split; [done|]. apply Forall_singleton. eauto. }
  exists names. split.
  - unfold list_group_names. run_script. by rewrite Hopts.
  - apply Hnames. rewrite Hcol. apply elem_of_app. right. by apply list_elem_of_singleton.
Qed.

(** C6. In the spreadsheet variant the options of the selectbox are computed
    from the session frame alone: when its group names are texts or blank,
    the options are the names, each once, in the order of their code points,
    followed by one NaN if a name is blank, and the world (the calls issued to
    the service among it) is unchanged. In the relational variant the list is
    the answer to a query, which is sent to the database at every call. *)
Theorem group_names_listed (w : World) df
    (select_distinct_ordered : DataFrame → DataFrame) (db : App.World) :
  df_orgaco w = Some df →
  "Group_Association" ∈ columns df →
  Forall text_or_blank (group_column df) →
  (∃ names : list Py.str,
     list_group_names w
     = (Ok ((VStr <$> names)
            ++ (if decide (VMissing ∈ group_column df) then [VMissing] else [])), w)
     ∧ StronglySorted Py.le names
     ∧ NoDup names
     ∧ ∀ s, s ∈ names ↔ VStr s ∈ group_column df)
  ∧ App.statements (App.fetch_group_associations select_distinct_ordered db).2
    = App.statements db ++ [App.SelectDistinctGroups].
Proof.
  intros Hs Hg Hnames. split.
  - destruct (group_options_names df Hg Hnames) as (names & Hopts & Hrest).
    exists names. split; [|done].
    unfold list_group_names. run_script. by rewrite Hs, Hopts.
  - unfold App.fetch_group_associations, App.read_sql.
    cbv [mbind script_bind lift]. destruct (App.db_ok db); [|done].
    by destruct (pd.getitem _ _).
Qed.

Lemma group_names_listed_witness :
  (∃ names : list Py.str,
     list_group_names (clubs_session true true)
     = (Ok ((VStr <$> names)
            ++ (if decide (VMissing ∈ group_column clubs_frame) then [VMissing] else [])),
        clubs_session true true)
     ∧ StronglySorted Py.le names
     ∧ NoDup names
     ∧ ∀ s, s ∈ names ↔ VStr s ∈ group_column clubs_frame)
  ∧ App.statements (App.fetch_group_associations id rotary_table).2
    = App.statements rotary_table ++ [App.SelectDistinctGroups].
Proof.
  apply (group_names_listed (clubs_session true true) clubs_frame id rotary_table).
  - reflexivity.
  - apply (bool_decide_unpack _). vm_compute. exact I.
  - apply Forall_fmap. unfold clubs_frame. cbn [rows].
    apply Forall_cons. split; [right; exists "Rotary"; vm_compute; reflexivity|].
    apply Forall_cons. split; [right; exists "Lions Club"; vm_compute; reflexivity|].
    apply Forall_cons. split; [right; exists "Rotary"; vm_compute; reflexivity|].
    by apply Forall_nil.
Defined.

(** The options for a frame whose names are out of order and hold one name
    twice; with a blank name, the NaN comes last. *)
Example group_names_sample :
  (list_group_names (clubs_session true true)).1
  = Ok [VStr "Lions Club"; VStr "Rotary"]
  ∧ group_options (Frame COLUMNS [ club_row "b" "" VMissing "";
                                   <["Group_Association" := VMissing]>
                                     (club_row "" "" VMissing "");
                                   club_row "B" "" VMissing "";
                                   club_row "b" "" VMissing "" ])
    = Ok [VStr "B"; VStr "b"; VMissing].
Proof. vm_compute. split; reflexivity. Qed.

(** C6, as stated, fails in three ways. A name that is a number among names
    that are texts makes the computation of the options raise; after a write
    that failed the options hold the name that was not saved; and in the
    relational variant listing the names sends a query to the database. *)
Lemma group_names_not_as_stated :
  let loaded := (init_session iso_to_datetime (fresh numbered_sheet)).2 in
  let unsaved := (tab2 a_day rotary true (session true false)).2 in
  (group_column <$> df_orgaco loaded = Some [VStr "Rotary"; VInt 42]
   ∧ (list_group_names loaded).1 = Raise TypeError)
  ∧ (write_ok (session true false) = false
     ∧ (list_group_names unsaved).1 = Ok [VStr "Lions Club"; VStr "Rotary"]
     ∧ group_column (sheet unsaved) = [VStr "Lions Club"])
  ∧ (App.statements rotary_table = []
     ∧ App.statements (App.fetch_group_associations id rotary_table).2
       = [App.SelectDistinctGroups]).
Proof. vm_compute. repeat split. Qed.
(** ** Loading the sheet *)



(** The cast of a year cell, once the blanks are filled with 0. *)
Lemma int_of_cell_year (c : cell) :
  pd.int_of_cell match c with VMissing => VInt 0 | _ => c end
  = match year_value c with
    | Some z => Ok z
    | None => Raise (match c with
                     | VStr s => match Py.int s with
                                 | Some _ => OverflowError
                                 | None => ValueError
                                 end
                     | _ => OverflowError
                     end)
    end.
Proof.
  unfold pd.int_of_cell, year_value. destruct c as [|z|s]; [done| |].
  - cbn [mbind Py.result_bind option_bind]. by destruct (pd.is_int64 z).
  - destruct (Py.int s) as [z|]; [|done].
    cbn [mbind Py.result_bind option_bind]. by destruct (pd.is_int64 z).
Qed.

Lemma astype_int_fillna (col : list cell) :
  match mapM year_value col with
  | Some zs => pd.astype_int (pd.fillna (VInt 0) col) = Ok (VInt <$> zs)
  | None => ∃ e, pd.astype_int (pd.fillna (VInt 0) col) = Raise e
                 ∧ (e = ValueError ∨ e = OverflowError)
  end.
Proof.
  induction col as [|c col IH]; [done|].
  unfold pd.fillna in *. csimpl. rewrite int_of_cell_year.
  destruct (year_value c) as [z|]; cbn [mbind Py.result_bind option_bind].
  - destruct (mapM year_value col) as [zs|]; cbn [mbind Py.result_bind option_bind option_ret mret].
    + by rewrite IH.
    + destruct IH as (e & -> & He). by exists e.
  - eexists. split; [reflexivity|]. destruct c as [| |s]; [by right..|].
    destruct (Py.int s); [by right|by left].
Qed.

Lemma mapM_year_value (col : list cell) :
  Forall (λ c, is_Some (year_value c)) col →
  mapM year_value col = Some ((λ c, default 0 (year_value c)) <$> col).
Proof.
  intros Hcol. apply mapM_Some, Forall2_fmap_r, Forall_Forall2_diag.
  eapply Forall_impl; [done|]. intros c [z Hz]. unfold compose. by rewrite Hz.
Qed.

Lemma zip_with_insert_fmap (c : string) (f : row → cell) (l : list row) :
  zip_with (λ (r : row) v, <[c := v]> r) l (f <$> l) = (λ r : row, <[c := f r]> r) <$> l.
Proof. induction l as [|r l IH]; [done|]. csimpl. by rewrite IH. Qed.

(** The loop that fills in the columns the sheet lacks. *)
Lemma fill_missing_columns cols df :
  let df' := foldl (λ df col,
                      if decide (col ∈ columns df) then df
                      else pd.setitem_scalar df col (VStr ""))
                   df cols in
  (∀ c, c ∈ columns df' ↔ c ∈ columns df ∨ c ∈ cols)
  ∧ length (rows df') = length (rows df)
  ∧ ∀ i (r' : row), rows df' !! i = Some r' →
      ∃ r : row, rows df !! i = Some r
        ∧ ∀ c, r' !!! c = if decide (c ∈ columns df) then r !!! c
                          else if decide (c ∈ cols) then VStr "" else r !!! c.
Proof.
  revert df. induction cols as [|c0 cols IH]; intros df; cbn [foldl].
  - split; [|split; [done|]].
    + intros c. rewrite elem_of_nil. tauto.
    + intros i r' Hr'. exists r'. split; [done|]. intros c.
      destruct (decide (c ∈ columns df)); [done|].
      destruct (decide (c ∈ [])) as [[]%elem_of_nil|]; done.
  - destruct (decide (c0 ∈ columns df)) as [Hin|Hout].
    + destruct (IH df) as (Hcols & Hlen & Hrows). split; [|split; [done|]].
      * intros c. rewrite Hcols, elem_of_cons.
        split; [tauto|]. intros [?|[->|?]]; tauto.
      * intros i r' Hr'. destruct (Hrows i r' Hr') as (r & Hr & Hcells).
        exists r. split; [done|]. intros c. rewrite Hcells.
        destruct (decide (c ∈ columns df)) as [|Hc]; [done|].
        destruct (decide (c ∈ cols)) as [Hc'|Hc'].
        -- rewrite decide_True; [done|]. apply elem_of_cons. by right.
        -- rewrite decide_False; [done|]. rewrite elem_of_cons. by intros [->|?].
    + set (df1 := pd.setitem_scalar df c0 (VStr "")).
      assert (columns df1 = columns df ++ [c0]) as Hc1.
      { unfold df1, pd.setitem_scalar, pd.with_label. cbn [columns].
        by rewrite decide_False. }
      assert (rows df1 = (λ r : row, <[c0 := VStr ""]> r) <$> rows df) as Hr1 by done.
      destruct (IH df1) as (Hcols & Hlen & Hrows).
      rewrite Hr1, length_fmap in Hlen.
      setoid_rewrite Hc1 in Hcols.
      split; [|split; [done|]].
      * intros c. rewrite Hcols, elem_of_app, list_elem_of_singleton, elem_of_cons. tauto.
      * intros i r' Hr'. destruct (Hrows i r' Hr') as (r1 & Hlook & Hcells).
        rewrite Hr1, list_lookup_fmap in Hlook.
        destruct (rows df !! i) as [r|] eqn:Hr; [|done]. injection Hlook as <-.
        exists r. split; [done|]. intros c. rewrite Hcells, Hc1.
        destruct (decide (c = c0)) as [->|Hne].
        -- rewrite decide_True by (apply elem_of_app; right; by apply list_elem_of_singleton).
           rewrite decide_False by done.
           rewrite decide_True by (apply elem_of_cons; by left).
           by rewrite lookup_total_insert_eq.
        -- rewrite lookup_total_insert_ne by done.
           destruct (decide (c ∈ columns df)) as [Hc|Hc].
           ++ rewrite decide_True; [done|]. apply elem_of_app. by left.
           ++ rewrite decide_False.
              2: { rewrite elem_of_app, list_elem_of_singleton. tauto. }
              destruct (decide (c ∈ cols)) as [Hc'|Hc'].
              ** rewrite decide_True; [done|]. apply elem_of_cons. by right.
              ** rewrite decide_False; [done|]. rewrite elem_of_cons. tauto.
Qed.
Lemma getitem_known df c :
  c ∈ columns df → pd.getitem df c = Ok ((λ r : row, r !!! c) <$> rows df).
Proof. intros Hc. unfold pd.getitem. by rewrite decide_True. Qed.

Lemma select_all df cols :
  (∀ c, c ∈ cols → c ∈ columns df) →
  pd.select df cols = Ok (Frame cols (pd.reindex cols <$> rows df)).
Proof.
  intros Hall. unfold pd.select.
  destruct (list_find _ cols) as [[i c]|] eqn:Hfind; [|done].
  apply list_find_Some in Hfind as (Hc%list_elem_of_lookup_2 & Hout & _).
  by apply Hall in Hc.
Qed.

Lemma setitem_known df c (vals : list cell) :
  c ∈ columns df →
  pd.setitem df c vals
  = Frame (columns df) (zip_with (λ (r : row) v, <[c := v]> r) (rows df) vals).
Proof. intros Hc. unfold pd.setitem, pd.with_label. by rewrite decide_True. Qed.

(** The frame [load_data] builds from what [conn.read] answers, when that
    holds the year and the date columns and its year cells can all be
    read. *)
Lemma load_data_body_reads td (w : World) raw :
  (∀ col, length (td col) = length col) →
  conn_ok w = true →
  read_answers w raw →
  "Last_Fee_Paid_Year" ∈ columns raw →
  "Web_Data_Updated" ∈ columns raw →
  Forall (λ c, is_Some (year_value c)) (year_column raw) →
  ∃ df w',
    load_data_body td w = (Ok df, w')
    ∧ (page w' = page w ∧ sheet w' = sheet w ∧ cache w' = cache w
       ∧ df_orgaco w' = df_orgaco w)
    ∧ columns df = COLUMNS
    ∧ length (rows df) = length (rows raw)
    ∧ ∀ i (r : row), rows raw !! i = Some r →
        ∃ (r' : row) (t : option date),
          rows df !! i = Some r'
          ∧ td (date_column raw) !! i = Some t
          ∧ ∀ c, c ∈ COLUMNS →
              r' !! c
              = Some (if decide (c ∈ columns raw) then
                        if decide (c = "Web_Data_Updated") then
                          match t with Some d => VStr (Py.strftime d) | None => VMissing end
                        else if decide (c = "Last_Fee_Paid_Year") then
                          VInt (default 0 (year_value (r !!! c)))
                        else r !!! c
                      else VStr "").
Proof.
  intros Hlen Hconn Hans Hy Hd Hyears.
  set (yv := λ r : row, VInt (default 0 (year_value (r !!! "Last_Fee_Paid_Year")))).
  set (df1 := Frame (columns raw)
                    ((λ r : row, <["Last_Fee_Paid_Year" := yv r]> r) <$> rows raw)).
  set (dates := pd.dt_strftime (td (date_column raw))).
  set (df2 := Frame (columns raw)
                    (zip_with (λ (r : row) v, <["Web_Data_Updated" := v]> r)
                              (rows df1) dates)).
  set (df3 := foldl (λ df col,
                       if decide (col ∈ columns df) then df
                       else pd.setitem_scalar df col (VStr "")) df2 COLUMNS).
  assert (length dates = length (rows raw)) as Hdates.
  { unfold dates, pd.dt_strftime, date_column. by rewrite length_fmap, Hlen, length_fmap. }
  destruct (fill_missing_columns COLUMNS df2) as (Hcols3 & Hlen3 & Hrows3).
  fold df3 in Hcols3, Hlen3, Hrows3.
  assert (length (rows df2) = length (rows raw)) as Hlen2.
  { unfold df2, df1. cbn [rows]. rewrite length_zip_with, length_fmap. lia. }
  pose proof (astype_int_fillna (year_column raw)) as Hcast.
  rewrite mapM_year_value in Hcast by done.
  exists (Frame COLUMNS (pd.reindex COLUMNS <$> rows df3)).
  assert (∃ w', load_data_body td w
                = (Ok (Frame COLUMNS (pd.reindex COLUMNS <$> rows df3)), w')
                ∧ page w' = page w ∧ sheet w' = sheet w ∧ cache w' = cache w
                ∧ df_orgaco w' = df_orgaco w) as (w' & Hrun & Hworld).
  { unfold load_data_body. run_script. rewrite Hconn.
    destruct Hans as [Hc|(Hc & Hok & Hsh)]; rewrite Hc; [|rewrite Hok, Hsh].
    all: cbn [read_cache set_read_cache log_call sheet].
    all: rewrite (getitem_known raw "Last_Fee_Paid_Year") by done.
    all: fold (year_column raw); rewrite Hcast.
    all: rewrite setitem_known by done.
    all: assert (VInt <$> ((λ c, default 0 (year_value c)) <$> year_column raw)
                 = yv <$> rows raw) as ->
           by (unfold year_column; by rewrite <- !list_fmap_compose).
    all: rewrite zip_with_insert_fmap; fold df1.
    all: rewrite (getitem_known df1 "Web_Data_Updated") by done.
    all: assert ((λ r : row, r !!! "Web_Data_Updated") <$> rows df1 = date_column raw) as ->
           by (unfold df1, date_column; cbn [rows]; rewrite <- list_fmap_compose;
               apply list_fmap_ext; intros i r _; cbn;
               by rewrite lookup_total_insert_ne).
    all: rewrite setitem_known by done; fold dates; cbn [columns]; fold df2; fold df3.
    all: rewrite select_all by (intros c Hc'; apply Hcols3; by right).
    all: eexists; split; [reflexivity|]; done. }
  exists w'. split; [done|]. split; [done|]. split; [done|]. split.
  - cbn [rows]. rewrite length_fmap. lia.
  - intros i r Hr.
    assert (is_Some (rows df3 !! i)) as [r3 Hr3].
    { apply lookup_lt_is_Some. rewrite Hlen3, Hlen2. by eapply lookup_lt_Some. }
    destruct (Hrows3 i r3 Hr3) as (r2 & Hr2 & Hcells).
    unfold df2, df1 in Hr2. cbn [rows] in Hr2.
    apply lookup_zip_with_Some in Hr2 as (r1 & v & -> & Hr1 & Hv).
    rewrite list_lookup_fmap, Hr in Hr1. injection Hr1 as <-.
    unfold dates, pd.dt_strftime in Hv. rewrite list_lookup_fmap in Hv.
    destruct (td (date_column raw) !! i) as [t|] eqn:Ht; [|done]. injection Hv as <-.
    exists (pd.reindex COLUMNS r3), t. cbn [rows].
    split; [by rewrite list_lookup_fmap, Hr3|].
    split; [done|]. intros c Hc.
    rewrite lookup_reindex, decide_True by done. f_equal. rewrite Hcells.
    change (columns df2) with (columns raw).
    destruct (decide (c ∈ columns raw)) as [Hin|Hout]; [|by rewrite decide_True].
    destruct (decide (c = "Web_Data_Updated")) as [->|Hnd].
    { by rewrite lookup_total_insert_eq. }
    rewrite lookup_total_insert_ne by done.
    destruct (decide (c = "Last_Fee_Paid_Year")) as [->|Hny].
    { by rewrite lookup_total_insert_eq. }
    by rewrite lookup_total_insert_ne.
Qed.


Example load_partial_sheet :
  (λ df, (year_column df, date_column df,
          (λ r : row, r !!! "President_Name") <$> rows df))
  <$> (load_data iso_to_datetime (fresh partial_sheet)).1
  = Ok ([VInt 0; VInt 2024], [VStr "2025-01-31"; VMissing], [VStr ""; VStr ""]).
Proof. vm_compute. reflexivity. Qed.

(** The frame the connection keeps of a read is what a load normalises, not
    the sheet as it is now. *)
Example load_cached_read :
  let w := set_read_cache (Some partial_sheet) (fresh lions_frame) in
  year_column <$> (load_data iso_to_datetime w).1 = Ok [VInt 0; VInt 2024]
  ∧ calls (load_data iso_to_datetime w).2 = [Connect].
Proof. vm_compute. split; reflexivity. Qed.

(** Once the ten minutes are over, the sheet is read again. *)
Example load_after_expiry :
  let w := (read_cache_expires
              (set_read_cache (Some partial_sheet) (fresh lions_frame))).2 in
  year_column <$> (load_data iso_to_datetime w).1 = Ok [VInt 2023]
  ∧ calls (load_data iso_to_datetime w).2 = [Connect; Read].
Proof. vm_compute. split; reflexivity. Qed.


(** So does a year that does not fit in 64 bits, and a year text that starts
    with a file separator, which [int()] does not skip. *)
Example unreadable_years :
  let page_of (year : cell) :=
    page (load_data iso_to_datetime
            (fresh (Frame COLUMNS [club_row "Rotary" "Ada" year "2024-05-01"]))).2 in
  page_of (VStr "9223372036854775808")
  = [error_connecting; exception_shown OverflowError]
  ∧ page_of (VInt 9223372036854775808)
    = [error_connecting; exception_shown OverflowError]
  ∧ page_of (VStr (0x1C :: "2023")%N)
    = [error_connecting; exception_shown ValueError]
  ∧ page_of (VStr "9223372036854775807") = [].
Proof. vm_compute. repeat split. Qed.

(** A sheet without the year column takes the failure path as well: the
    column is read before the missing columns are filled in. *)
Example yearless_sheet_not_filled :
  let w := fresh yearless_sheet in
  (load_data iso_to_datetime w).1 = Ok (Frame COLUMNS [])
  ∧ page (load_data iso_to_datetime w).2
    = [error_connecting; exception_shown (KeyError "Last_Fee_Paid_Year")].
Proof. vm_compute. repeat split. Qed.
(** ** More on the spreadsheet variant *)

(** What a run of the body of [load_data] leaves behind: the calls, and
    possibly the elements of the failure path. *)
Lemma load_data_body_effects td (w : World) :
  ∃ df w' es,
    load_data_body td w = (Ok df, w')
    ∧ page w' = page w ++ es
    ∧ sheet w' = sheet w
    ∧ cache w' = cache w
    ∧ df_orgaco w' = df_orgaco w.
Proof.
  unfold load_data_body. run_script.
  destruct (conn_ok w).
  2: { eexists _, _, _. split; [reflexivity|]. cbn. by rewrite <- app_assoc. }
  destruct (read_cache w) as [cached|]; [|destruct (read_ok w)].
  3: { eexists _, _, _. split; [reflexivity|]. cbn. by rewrite <- app_assoc. }
  all: cbn [read_cache set_read_cache log_call].
  all: match goal with
       | |- context [pd.getitem ?raw "Last_Fee_Paid_Year"] =>
           destruct (pd.getitem raw "Last_Fee_Paid_Year") as [ycol|e] eqn:Hy;
             [|apply getitem_raise in Hy as ->; eexists _, _, _;
               (split; [reflexivity|]); cbn; by rewrite <- app_assoc]
       end.
  all: destruct (pd.astype_int _) as [ycol'|e] eqn:Hy';
    [|apply astype_int_raise in Hy' as [->| ->]; eexists _, _, _;
      (split; [reflexivity|]); cbn; by rewrite <- app_assoc].
  all: destruct (pd.getitem _ "Web_Data_Updated") as [dcol|e] eqn:Hd;
    [|apply getitem_raise in Hd as ->; eexists _, _, _;
      (split; [reflexivity|]); cbn; by rewrite <- app_assoc].
  all: match goal with
       | |- context [pd.select ?raw COLUMNS] =>
           destruct (pd.select raw COLUMNS) as [df|e] eqn:Hsel
       end.
  all: try (exists df; eexists _, []; (split; [reflexivity|]); cbn;
            by rewrite app_nil_r).
  all: apply select_raise in Hsel as [c ->]; eexists _, _, _;
       (split; [reflexivity|]); cbn; by rewrite <- app_assoc.
Qed.

(** X1. Once [load_data] has run, calling it again before the cache is cleared
    gives the same frame and replays the elements of the first run; it calls
    the service no more and changes nothing else. *)
Theorem load_data_cached_again td (w : World) :
  cache w = None →
  ∃ df es w1,
    load_data td w = (Ok df, w1)
    ∧ page w1 = page w ++ es
    ∧ load_data td w1 = (Ok df, show es w1)
    ∧ calls (load_data td w1).2 = calls w1
    ∧ sheet (load_data td w1).2 = sheet w1.
Proof.
  intros Hc. unfold load_data at 1. rewrite Hc.
  destruct (load_data_body_effects td w) as (df & w' & es & -> & Hpage & _).
  exists df, es. eexists. split; [reflexivity|].
  assert (drop (length (page w)) (page w') = es) as Hes.
  { rewrite Hpage. by rewrite drop_app_length. }
  rewrite Hes. split; [done|].
  unfold load_data. cbn [cache set_cache]. done.
Qed.

Lemma load_data_cached_again_witness :
  ∃ df es w1,
    load_data iso_to_datetime offline = (Ok df, w1)
    ∧ page w1 = page offline ++ es
    ∧ load_data iso_to_datetime w1 = (Ok df, show es w1)
    ∧ calls (load_data iso_to_datetime w1).2 = calls w1
    ∧ sheet (load_data iso_to_datetime w1).2 = sheet w1.
Proof. apply (load_data_cached_again iso_to_datetime offline). reflexivity. Defined.

(** X2. The start of the script leaves a session frame that is already there
    alone, whatever the cache and the service hold; where there is none, it
    sets one, and that frame is shaped. *)
Theorem init_session_sets_once td (w : World) :
  cache_shaped w →
  (∀ df, df_orgaco w = Some df → init_session td w = (Ok (), w))
  ∧ (df_orgaco w = None →
     ∃ df w', init_session td w = (Ok (), w')
       ∧ df_orgaco w' = Some df ∧ shaped df ∧ sheet w' = sheet w).
Proof.
  intros Hcache. split.
  - intros df Hdf. unfold init_session. by rewrite Hdf.
  - intros Hnone. unfold init_session. rewrite Hnone.
    cbv [mbind script_bind update]. unfold load_data.
    destruct (cache w) as [[df es]|] eqn:Hc.
    + exists df. eexists. split; [reflexivity|]. split; [done|]. split; [by eauto|done].
    + destruct (load_data_body_effects td w) as (df & w' & es & Hrun & _ & Hsheet & _).
      destruct (load_data_body_cases td w) as (df2 & w2 & Hrun2 & Hdf).
      rewrite Hrun in Hrun2. injection Hrun2 as <- <-. rewrite Hrun.
      exists df. eexists. split; [reflexivity|]. split; [done|]. split; [|done].
      destruct Hdf as [->|[raw Hsel]]; [by split; [|constructor]|].
      by apply select_shape in Hsel.
Qed.

Lemma init_session_sets_once_witness :
  (∀ df, df_orgaco offline = Some df →
         init_session iso_to_datetime offline = (Ok (), offline))
  ∧ (df_orgaco offline = None →
     ∃ df w', init_session iso_to_datetime offline = (Ok (), w')
       ∧ df_orgaco w' = Some df ∧ shaped df ∧ sheet w' = sheet offline).
Proof.
  apply (init_session_sets_once iso_to_datetime offline).
  intros df es. discriminate.
Defined.

(** X3. [write_data] never raises. It answers [True] exactly when both the
    connection and the write succeed, and then the sheet is the frame it was
    given; otherwise the sheet is as before and the error is shown. The
    session frame and the cache are not touched. *)
Theorem write_data_outcome (df : DataFrame) (w : World) :
  ∃ w',
    write_data df w = (Ok (conn_ok w && write_ok w), w')
    ∧ df_orgaco w' = df_orgaco w
    ∧ cache w' = cache w
    ∧ if conn_ok w && write_ok w
      then sheet w' = df ∧ page w' = page w
      else sheet w' = sheet w
           ∧ ∃ e, page w' = page w ++ [error_writing; exception_shown e].
Proof.
  unfold write_data. run_script.
  destruct (conn_ok w), (write_ok w); cbn; eexists; (split; [reflexivity|]); cbn;
    rewrite <- ?app_assoc; eauto.
Qed.
Lemma index_where_no_match mask : true ∉ mask → pd.index_where mask = [].
Proof.
  induction mask as [|b mask IH]; intros Hno; [done|].
  rewrite index_where_cons. apply not_elem_of_cons in Hno as [Hb Hno].
  destruct b; [done|]. by rewrite IH.
Qed.

(** X4. When no row of the session frame bears the selected name, or the
    editor handed back no row, "Save Changes" shows the preparation error
    ([IndexError]) and does nothing else: the session frame, the sheet and the
    cache are as before and the service is not called. *)
Theorem save_changes_nothing_to_update today name (edited_data : list dict)
    (w : World) df :
  df_orgaco w = Some df →
  "Group_Association" ∈ columns df →
  (∀ r : row, r ∈ rows df → cell_eqb (r !!! "Group_Association") name = false)
  ∨ edited_data = [] →
  save_changes today name edited_data w
  = (Ok (), show [error_preparing IndexError] w).
Proof.
  intros Hs Hg Hnothing. unfold save_changes. run_script.
  rewrite Hs, getitem_group by done.
  destruct (pd.first (pd.index_where (pd.eq_mask (group_column df) name)))
    as [idx|e] eqn:Hidx.
  - destruct Hnothing as [Hno | ->]; [|done].
    rewrite index_where_no_match in Hidx; [done|].
    unfold pd.eq_mask, group_column. rewrite <- list_fmap_compose.
    intros [r [Heq Hr]]%list_elem_of_fmap. cbn in Heq. by rewrite (Hno r Hr) in Heq.
  - destruct (pd.index_where _); [|done]. by injection Hidx as <-.
Qed.

Lemma save_changes_nothing_to_update_witness :
  save_changes a_day (VStr "Rotary") (edit_year 2024 lions_data) (session true true)
  = (Ok (), show [error_preparing IndexError] (session true true)).
Proof.
  apply (save_changes_nothing_to_update a_day (VStr "Rotary") (edit_year 2024 lions_data)
           (session true true) lions_frame).
  - reflexivity.
  - apply (bool_decide_unpack _). vm_compute. exact I.
  - left. intros r Hr. apply list_elem_of_singleton in Hr as ->. vm_compute. reflexivity.
Defined.

(** X5. When the write fails, "Save Changes" shows the write error and returns
    without a rerun; the sheet and the cache are as before, but the session
    frame keeps the edited and stamped row, in the place of the first row
    that bears the selected name. If the sheet held the session frame before
    and the row has changed, the session frame is no longer what the sheet
    holds. *)
Theorem save_changes_write_failure today name (edited : dict) rest
    (w : World) df :
  df_orgaco w = Some df →
  shaped df →
  (∃ r, r ∈ rows df ∧ cell_eqb (r !!! "Group_Association") name = true) →
  NoDup edited.*1 →
  (∀ k, k ∈ edited.*1 →
        k ∈ COLUMNS ∧ k ≠ "Group_Association" ∧ k ≠ "Web_Data_Updated") →
  conn_ok w = false ∨ write_ok w = false →
  ∃ e w' df' idx (old new : row),
    save_changes today name (edited :: rest) w = (Ok (), w')
    ∧ page w' = page w ++ [error_writing; exception_shown e]
    ∧ sheet w' = sheet w
    ∧ cache w' = cache w
    ∧ df_orgaco w' = Some df'
    ∧ rows df !! idx = Some old
    ∧ cell_eqb (old !!! "Group_Association") name = true
    ∧ (∀ j r, (j < idx)%nat → rows df !! j = Some r →
              cell_eqb (r !!! "Group_Association") name = false)
    ∧ rows df' !! idx = Some new
    ∧ new !! "Group_Association" = old !! "Group_Association"
    ∧ (∀ k v, (k, v) ∈ edited → new !! k = Some v)
    ∧ new !! "Web_Data_Updated" = Some (VStr (Py.strftime today))
    ∧ (∀ j, j ≠ idx → rows df' !! j = rows df !! j)
    ∧ (sheet w = df → new ≠ old → df_orgaco w' ≠ Some (sheet w')).
Proof.
  intros Hs [Hcols Hrows] (r & Hr & Hmatch) Hnd Hkeys Hfail.
  assert (true ∈ pd.eq_mask (group_column df) name) as Hmask.
  { unfold pd.eq_mask, group_column. rewrite <- list_fmap_compose.
    apply list_elem_of_fmap. by exists r. }
  destruct (first_index_where _ Hmask) as (idx & Hfirst & Hidx & Hbefore).
  rewrite (save_changes_runs today name edited rest w df idx); try done.
  2: { rewrite Hcols. apply group_in_COLUMNS. }
  2: { rewrite Hcols. apply (bool_decide_unpack _). vm_compute. exact I. }
  2: { intros k Hk. rewrite Hcols. by apply Hkeys. }
  unfold pd.eq_mask, group_column in Hidx, Hbefore.
  rewrite <- list_fmap_compose in Hidx, Hbefore.
  rewrite list_lookup_fmap in Hidx.
  destruct (rows df !! idx) as [old|] eqn:Hold; [|done]. injection Hidx as Hidx.
  set (new := <["Web_Data_Updated" := VStr (Py.strftime today)]> (assign_all edited old)).
  set (df' := Frame (columns df)
                (alter (λ r : row, <["Web_Data_Updated" := VStr (Py.strftime today)]>
                                     (assign_all edited r)) idx (rows df))).
  assert (rows df' !! idx = Some new) as Hnew
    by (unfold df'; cbn [rows]; by rewrite list_lookup_alter_eq, Hold).
  assert (∀ j r0, (j < idx)%nat → rows df !! j = Some r0 →
                  cell_eqb (r0 !!! "Group_Association") name = false) as Hfirst'.
  { intros j r0 Hj Hr0. specialize (Hbefore j Hj).
    rewrite list_lookup_fmap, Hr0 in Hbefore. by injection Hbefore. }
  assert (new !! "Group_Association" = old !! "Group_Association") as Hgroup.
  { unfold new. rewrite lookup_insert_ne by done. apply assign_all_other.
    intros Hin. by apply Hkeys in Hin as (_ & ? & _). }
  assert (∀ k v, (k, v) ∈ edited → new !! k = Some v) as Hentries.
  { intros k v Hin.
    assert (k ∈ edited.*1) as Hk by (apply list_elem_of_fmap; by exists (k, v)).
    apply Hkeys in Hk as (_ & _ & Hk).
    unfold new. rewrite lookup_insert_ne by done. by apply assign_all_entry. }
  assert (new !! "Web_Data_Updated" = Some (VStr (Py.strftime today))) as Hstamp
    by apply lookup_insert_eq.
  assert (∀ j, j ≠ idx → rows df' !! j = rows df !! j) as Hothers.
  { intros j Hj. unfold df'. cbn [rows]. by rewrite list_lookup_alter_ne. }
  assert (new ≠ old → df' ≠ df) as Hdiffer.
  { intros Hchanged Heq. rewrite Heq, Hold in Hnew. congruence. }
  destruct (conn_ok w) eqn:Hconn; [destruct Hfail as [? | ->]; [done|] |].
  all: eexists _, _, df', idx, old, new; split; [reflexivity|].
  all: cbn [page sheet cache df_orgaco show log_call set_df_orgaco].
  all: do 12 (split; [done|]).
  all: intros Hsync Hchanged [= Heq]; rewrite Hsync in Heq; by apply Hdiffer.
Qed.

Lemma save_changes_write_failure_witness :
  ∃ e w' df' idx (old new : row),
    save_changes a_day (VStr "Rotary") [club_data "Eve" (VInt 2024)]
                 (clubs_session true false) = (Ok (), w')
    ∧ page w' = page (clubs_session true false) ++ [error_writing; exception_shown e]
    ∧ sheet w' = sheet (clubs_session true false)
    ∧ cache w' = cache (clubs_session true false)
    ∧ df_orgaco w' = Some df'
    ∧ rows clubs_frame !! idx = Some old
    ∧ cell_eqb (old !!! "Group_Association") (VStr "Rotary") = true
    ∧ (∀ j r, (j < idx)%nat → rows clubs_frame !! j = Some r →
              cell_eqb (r !!! "Group_Association") (VStr "Rotary") = false)
    ∧ rows df' !! idx = Some new
    ∧ new !! "Group_Association" = old !! "Group_Association"
    ∧ (∀ k v, (k, v) ∈ club_data "Eve" (VInt 2024) → new !! k = Some v)
    ∧ new !! "Web_Data_Updated" = Some (VStr (Py.strftime a_day))
    ∧ (∀ j, j ≠ idx → rows df' !! j = rows clubs_frame !! j)
    ∧ (sheet (clubs_session true false) = clubs_frame → new ≠ old →
       df_orgaco w' ≠ Some (sheet w')).
Proof.
  apply (save_changes_write_failure a_day (VStr "Rotary")
           (club_data "Eve" (VInt 2024)) [] (clubs_session true false) clubs_frame).
  - reflexivity.
  - split; [reflexivity|]. apply (bool_decide_unpack _). vm_compute. exact I.
  - exists (club_row "Rotary" "Ada" (VInt 2021) "2024-05-01").
    split; [apply elem_of_cons; by left|]. vm_compute. reflexivity.
  - apply (bool_decide_unpack _). vm_compute. exact I.
  - apply Forall_forall. apply (bool_decide_unpack _). vm_compute. exact I.
  - right. reflexivity.
Defined.

(** The failed update of Rotary in a frame that holds the name twice: the
    session frame has the edit in its first row, the sheet has not. *)
Example save_changes_write_failure_sample :
  let out := save_changes a_day (VStr "Rotary") [club_data "Eve" (VInt 2024)]
                          (clubs_session true false) in
  out.1 = Ok ()
  ∧ year_column <$> df_orgaco out.2 = Some [VInt 2024; VInt 2023; VInt 2019]
  ∧ year_column (sheet out.2) = [VInt 2021; VInt 2023; VInt 2019]
  ∧ page out.2 = [error_writing; exception_shown BackendError].
Proof. vm_compute. repeat split. Qed.

(** X6. Looking a group up without pressing "Save Changes" changes nothing but
    the page: the session frame, the sheet and the cache are as before and the
    service is not called, whatever is selected and whether or not the tab
    raises. *)
Theorem tab1_view_changes_nothing today selected
    (st_data_editor : list dict → list dict) (w : World) :
  let w' := (tab1 today selected st_data_editor false w).2 in
  df_orgaco w' = df_orgaco w
  ∧ sheet w' = sheet w
  ∧ calls w' = calls w
  ∧ cache w' = cache w.
Proof.
  unfold tab1. run_script.
  destruct (df_orgaco w) as [df|] eqn:Hs; [|by cbn].
  destruct (group_options df); [|by cbn].
  destruct selected as [name|]; [|by cbn].
  destruct (truthy name); [|by cbn].
  destruct (selected_row df name) as [sel|]; [|by cbn].
  destruct (pd.empty sel); [by cbn|]. cbn [negb].
  destruct (data_to_edit sel); by cbn.
Qed.

(** The session frame after "Save Changes", for an edited row over the
    displayed columns. *)
Lemma save_changes_session today name (edited : dict) rest (w : World) df :
  df_orgaco w = Some df →
  shaped df →
  (∀ k, k ∈ edited.*1 →
        k ∈ COLUMNS ∧ k ≠ "Group_Association" ∧ k ≠ "Web_Data_Updated") →
  ∃ df',
    df_orgaco (save_changes today name (edited :: rest) w).2 = Some df'
    ∧ shaped df'
    ∧ group_column df' = group_column df
    ∧ (cache (save_changes today name (edited :: rest) w).2 = cache w
       ∨ cache (save_changes today name (edited :: rest) w).2 = None).
Proof.
  intros Hs [Hcols Hrows] Hkeys.
  assert ("Group_Association" ∈ columns df) as Hg
    by (rewrite Hcols; apply group_in_COLUMNS).
  destruct (decide (true ∈ pd.eq_mask (group_column df) name)) as [Hmask|Hno].
  - destruct (first_index_where _ Hmask) as (idx & Hfirst & _ & _).
    rewrite (save_changes_runs today name edited rest w df idx); try done.
    2: { rewrite Hcols. apply (bool_decide_unpack _). vm_compute. exact I. }
    2: { intros k Hk. rewrite Hcols. by apply Hkeys. }
    eexists (Frame (columns df) _).
    split; [by destruct (conn_ok w), (write_ok w)|].
    split; [|split].
    + split; [done|]. cbn [rows].
      apply Forall_alter; [done|]. intros r0 _ Hdom.
      rewrite dom_insert_lookup_L, dom_assign_all; [done| |].
      * intros k Hk. rewrite Hdom. apply elem_of_list_to_set. by apply Hkeys.
      * apply elem_of_dom. rewrite dom_assign_all, Hdom.
        -- apply (bool_decide_unpack _). vm_compute. exact I.
        -- intros k Hk. rewrite Hdom. apply elem_of_list_to_set. by apply Hkeys.
    + unfold group_column. cbn [rows]. apply fmap_alter_unchanged. intros r0.
      rewrite !lookup_total_alt, lookup_insert_ne by done.
      rewrite assign_all_other; [done|]. intros Hin. by apply Hkeys in Hin as (_ & ? & _).
    + destruct (conn_ok w), (write_ok w); cbn; auto.
  - exists df. unfold save_changes. run_script. rewrite Hs, getitem_group by done.
    rewrite index_where_no_match by done. cbn. by repeat split; auto.
Qed.
(** The session frame after tab 1 has run. *)
Lemma tab1_session today selected (editor : list dict → list dict) clicked
    (w : World) df :
  df_orgaco w = Some df →
  shaped df →
  keeps_keys editor →
  ∃ df',
    df_orgaco (tab1 today selected editor clicked w).2 = Some df'
    ∧ shaped df'
    ∧ group_column df' = group_column df
    ∧ (cache (tab1 today selected editor clicked w).2 = cache w
       ∨ cache (tab1 today selected editor clicked w).2 = None).
Proof.
  intros Hs Hdf Hed.
  unfold tab1. run_script. rewrite Hs.
  destruct (group_options df);
    [|exists df; cbn [snd df_orgaco cache]; by auto].
  destruct selected as [name|];
    [|exists df; cbn [snd df_orgaco cache show]; by auto].
  destruct (truthy name);
    [|exists df; cbn [snd df_orgaco cache show]; by auto].
  destruct (selected_row df name) as [sel|] eqn:Hsel;
    [|exists df; cbn [snd df_orgaco cache]; by auto].
  destruct (pd.empty sel) eqn:Hempty;
    [exists df; cbn [snd df_orgaco cache show negb]; by auto|].
  cbn [negb].
  destruct (data_to_edit sel) as [data|] eqn:Hdata;
    [|exists df; cbn [snd df_orgaco cache]; by auto].
  destruct clicked; [|exists df; cbn [snd df_orgaco cache]; by auto].
  destruct (selected_row_rows _ _ _ Hsel) as [Hg ->].
  destruct (data_to_edit_keys _ _ Hdata) as (_ & _ & Hlen & Hkeys).
  cbn [columns rows] in Hlen, Hkeys.
  unfold pd.empty in Hempty. cbn [rows] in Hempty.
  apply bool_decide_eq_false in Hempty.
  destruct data as [|d data].
  { destruct (filter _ (rows df)); [done|discriminate Hlen]. }
  apply Forall_cons in Hkeys as [Hd _].
  pose proof (Hed (d :: data)) as Hout.
  destruct (editor (d :: data)) as [|edited rest] eqn:Heditor;
    [by inversion Hout|].
  apply Forall2_cons in Hout as [Hkeep _].
  apply save_changes_session; [done..|].
  intros k. rewrite Hkeep, Hd. destruct Hdf as [-> _].
  intros [Hk Hin]%list_elem_of_filter. split; [done|].
  split; intros ->; apply Hk.
  - apply elem_of_cons. by left.
  - apply elem_of_cons. right. apply elem_of_cons. by left.
Qed.
(** The session frame after tab 2 has run: as it was, or with one row more,
    for a name that was not there. *)
Lemma tab2_session today f sub (w : World) df :
  df_orgaco w = Some df →
  shaped df →
  ∃ df',
    df_orgaco (tab2 today f sub w).2 = Some df'
    ∧ shaped df'
    ∧ (group_column df' = group_column df
       ∨ ((VStr (new_group_name f) ∉ group_column df)
          ∧ group_column df' = group_column df ++ [VStr (new_group_name f)]))
    ∧ (cache (tab2 today f sub w).2 = cache w
       ∨ cache (tab2 today f sub w).2 = None).
Proof.
  intros Hs Hdf.
  destruct sub; [|exists df; cbn [tab2 snd]; by auto].
  destruct (decide (new_group_name f = "")) as [Hempty|Hne].
  { exists df. unfold tab2.
    rewrite (bool_decide_eq_true_2 (new_group_name f = [])) by exact Hempty.
    cbn. auto. }
  destruct (decide (VStr (new_group_name f) ∈ group_column df)) as [Hin|Hnew].
  - exists df. unfold tab2.
    rewrite (bool_decide_eq_false_2 (new_group_name f = [])) by exact Hne.
    run_script. rewrite Hs.
    rewrite getitem_group by (destruct Hdf as [-> _]; apply group_in_COLUMNS).
    apply py_in_VStr in Hin. rewrite Hin. cbn. auto.
  - rewrite (tab2_new_name today f w df) by done.
    eexists (Frame COLUMNS _). split; [by destruct (conn_ok w), (write_ok w)|].
    split; [|split].
    + rewrite <- (concat_shaped df (new_data today f)) by done.
      by apply concat_preserves_shape.
    + right. split; [done|]. unfold group_column. cbn [rows].
      rewrite fmap_app. f_equal.
    + destruct (conn_ok w), (write_ok w); cbn; auto.
Qed.
Lemma init_session_session td (w : World) :
  session_shaped w →
  ∃ df w',
    init_session td w = (Ok (), w')
    ∧ df_orgaco w' = Some df
    ∧ shaped df
    ∧ cache_shaped w'
    ∧ (∀ df0, df_orgaco w = Some df0 → df = df0).
Proof.
  intros [Hcache Hsession]. unfold init_session.
  destruct (df_orgaco w) as [df0|] eqn:Hs.
  - exists df0, w. do 2 (split; [done|]). split; [by apply Hsession|].
    split; [done|]. by intros ? [= ->].
  - destruct (load_data_shaped td w Hcache) as (df & w' & Hload & Hshape & Hc').
    cbv [mbind script_bind update]. rewrite Hload.
    exists df, (set_df_orgaco df w'). by do 4 (split; [done|]).
Qed.

(** One run of the script, seen from the session frame. *)
Lemma script_run_session td (i : interaction) (w : World) :
  session_shaped w →
  keeps_keys (st_data_editor i) →
  session_shaped (script_run td i w).2
  ∧ ∀ df, df_orgaco w = Some df →
      ∃ df',
        df_orgaco (script_run td i w).2 = Some df'
        ∧ (group_column df' = group_column df
           ∨ ∃ name, (VStr name ∉ group_column df)
                     ∧ group_column df' = group_column df ++ [VStr name]).
Proof.
  intros Hw Hed. unfold script_run.
  assert (session_shaped (clear_page w)) as Hw0 by done.
  destruct (init_session_session td (clear_page w) Hw0)
    as (d1 & w1 & Hinit & Hs1 & Hd1 & Hc1 & Hkept).
  destruct (tab1_session (today i) (selected_group_name i) (st_data_editor i)
              (save_clicked i) w1 d1 Hs1 Hd1 Hed) as (d2 & Hs2 & Hd2 & Hg2 & Hc2).
  set (run1 := tab1 (today i) (selected_group_name i) (st_data_editor i)
                    (save_clicked i) w1) in *.
  assert (cache_shaped run1.2) as Hcache2.
  { intros df es Hc. destruct Hc2 as [Heq|Heq]; rewrite Heq in Hc; [by eauto|done]. }
  destruct (tab2_session (today i) (new_group i) (submitted i) run1.2 d2 Hs2 Hd2)
    as (d3 & Hs3 & Hd3 & Hg3 & Hc3).
  set (run2 := tab2 (today i) (new_group i) (submitted i) run1.2) in *.
  assert (cache_shaped run2.2) as Hcache3.
  { intros df es Hc. destruct Hc3 as [Heq|Heq]; rewrite Heq in Hc; [by eauto|done]. }
  (* the state at the end is that after tab 1 or that after tab 2 *)
  assert ((script_run td i w).2 = run1.2 ∨ (script_run td i w).2 = run2.2) as Hend.
  { unfold script_run. cbv [mbind script_bind update]. rewrite Hinit. fold run1.
    destruct run1 as [[[]|e1] w2] eqn:Hrun1; [|by left]. cbn [snd] in *. fold run2.
    destruct run2 as [[[]|e2] w3]; [|by right]. right. unfold sidebar.
    cbv [mbind script_bind mret script_ret session_df]. by destruct (df_orgaco w3). }
  fold (script_run td i w).
  destruct Hend as [-> | ->]; (split; [split; [done|]|]).
  - intros df. rewrite Hs2. by intros [= <-].
  - intros df Hdf. rewrite (Hkept df Hdf) in *. exists d2. split; [done|]. by left.
  - intros df. rewrite Hs3. by intros [= <-].
  - intros df Hdf. rewrite (Hkept df Hdf) in *. exists d3. split; [done|].
    rewrite <- Hg2. destruct Hg3 as [?|[? ?]]; [by left|]. right. eauto.
Qed.
(** X7. However the script is run, from a world where nothing is cached and no
    session has started or from any later one, the session frame stays shaped:
    the twelve columns in their order, each row over exactly these labels. The
    editors are any that hand back the keys they were given. *)
Theorem script_runs_keep_shape td (steps : list interaction) (w : World) :
  session_shaped w →
  Forall (λ i, keeps_keys (st_data_editor i)) steps →
  session_shaped (script_runs td steps w).
Proof.
  intros Hw Hsteps. revert w Hw.
  induction Hsteps as [|i steps Hi _ IH]; intros w Hw; [done|].
  unfold script_runs. cbn [foldl]. apply IH.
  by apply script_run_session.
Qed.

(** X8. The script never removes or renames a record of the session frame:
    after any runs, the group names the frame had come first in the frame's
    group names, in the same order. If they were distinct, the group names
    are still distinct. *)
Theorem script_runs_keep_records td (steps : list interaction) (w : World) df :
  session_shaped w →
  df_orgaco w = Some df →
  Forall (λ i, keeps_keys (st_data_editor i)) steps →
  ∃ df',
    df_orgaco (script_runs td steps w) = Some df'
    ∧ group_column df `prefix_of` group_column df'
    ∧ (length (rows df) ≤ length (rows df'))%nat
    ∧ (NoDup (group_column df) → NoDup (group_column df')).
Proof.
  intros Hw Hs Hsteps. revert w df Hw Hs.
  induction Hsteps as [|i steps Hi _ IH]; intros w df Hw Hs.
  - exists df. by repeat split.
  - unfold script_runs. cbn [foldl].
    destruct (script_run_session td i w Hw Hi) as [Hw1 Hstep].
    destruct (Hstep df Hs) as (d1 & Hs1 & Hg1).
    destruct (IH _ d1 Hw1 Hs1) as (df' & Hs' & Hprefix & Hlen & Hnodup).
    exists df'. split; [done|].
    assert (length (group_column d1) = length (rows d1)
            ∧ length (group_column df) = length (rows df)) as [Hl1 Hl]
      by (unfold group_column; by rewrite !length_fmap).
    destruct Hg1 as [Heq|(name & Hnew & Heq)].
    + rewrite Heq in Hl1. split; [by rewrite <- Heq|]. split; [lia|].
      by rewrite <- Heq.
    + split; [|split].
      * etrans; [|done]. rewrite Heq. by apply prefix_app_r.
      * rewrite Heq, length_app in Hl1. cbn in Hl1. lia.
      * intros Hnd. apply Hnodup. rewrite Heq. apply NoDup_app.
        split; [done|]. split; [|apply NoDup_singleton].
        intros c Hc ->%list_elem_of_singleton. done.
Qed.
Lemma edit_year_keeps_keys y : keeps_keys (edit_year y).
Proof.
  intros data. unfold edit_year. apply Forall2_fmap_r, Forall_Forall2_diag.
  apply Forall_forall. intros d _. unfold compose.
  rewrite <- list_fmap_compose.
  apply list_fmap_ext. intros i [k v] _. cbn. by destruct (String.eqb k _).
Qed.

Lemma script_runs_keep_shape_witness :
  session_shaped (script_runs iso_to_datetime [add_rotary; save_lions] (session true true)).
Proof.
  apply (script_runs_keep_shape iso_to_datetime [add_rotary; save_lions]
           (session true true)).
  - split; [by intros df es|]. intros df [= <-].
    split; [reflexivity|]. apply Forall_singleton, dom_reindex.
  - repeat constructor; apply edit_year_keeps_keys.
Defined.

Lemma script_runs_keep_records_witness :
  ∃ df',
    df_orgaco (script_runs iso_to_datetime [add_rotary; save_lions] (session true true))
    = Some df'
    ∧ group_column lions_frame `prefix_of` group_column df'
    ∧ (length (rows lions_frame) ≤ length (rows df'))%nat
    ∧ (NoDup (group_column lions_frame) → NoDup (group_column df')).
Proof.
  apply (script_runs_keep_records iso_to_datetime [add_rotary; save_lions]
           (session true true) lions_frame).
  - split; [by intros df es|]. intros df [= <-].
    split; [reflexivity|]. apply Forall_singleton, dom_reindex.
  - reflexivity.
  - repeat constructor; apply edit_year_keeps_keys.
Defined.

Example script_runs_sample :
  (λ df, (group_column df, year_column df))
  <$> df_orgaco (script_runs iso_to_datetime [add_rotary; save_lions] (session true true))
  = Some ([VStr "Lions Club"; VStr "Rotary"], [VInt 2024; VInt 2025]).
Proof. vm_compute. reflexivity. Qed.

(** Loading a normalised frame gives that frame back. *)
Lemma load_data_body_normalised td (w : World) raw :
  (∀ col, length (td col) = length col) →
  conn_ok w = true →
  read_answers w raw →
  normalised raw →
  reads_back td (date_column raw) →
  ∃ w', load_data_body td w = (Ok raw, w')
        ∧ page w' = page w ∧ sheet w' = sheet w ∧ cache w' = cache w
        ∧ df_orgaco w' = df_orgaco w.
Proof.
  intros Hlen Hconn Hans [[Hcols Hrows] Hyears] Hback.
  assert (∀ c, c ∈ COLUMNS → c ∈ columns raw) as Hin by (by rewrite Hcols).
  destruct (load_data_body_reads td w raw)
    as (df & w' & Hrun & Hworld & Hcols' & Hlen' & Hcells); try done.
  { apply Hin. apply (bool_decide_unpack _). vm_compute. exact I. }
  { apply Hin. apply (bool_decide_unpack _). vm_compute. exact I. }
  { eapply Forall_impl; [done|]. intros c (z & -> & Hz). exists z.
    unfold year_value. cbn [mbind option_bind]. by rewrite Hz. }
  exists w'. split; [|done]. rewrite Hrun. do 2 f_equal.
  destruct (load_data_body_cases td w) as (df2 & w2 & Hrun2 & Hdf).
  rewrite Hrun in Hrun2. injection Hrun2 as <- <-.
  assert (Forall (λ r : row, dom r = list_to_set COLUMNS) (rows df)) as Hdom.
  { destruct Hdf as [->|[raw0 Hsel]]; [constructor|].
    by apply select_shape in Hsel as [_ ?]. }
  destruct df as [cols rs], raw as [cols0 rs0].
  cbn [columns rows] in *. subst cols cols0. f_equal.
  apply list_eq. intros i.
  destruct (rs0 !! i) as [r|] eqn:Hr.
  2: { apply lookup_ge_None. rewrite Hlen'. by apply lookup_ge_None. }
  destruct (Hcells i r Hr) as (r' & t & Hr' & Ht & Hc). rewrite Hr'. f_equal.
  assert (dom r' = list_to_set COLUMNS) as Hdr'
    by (eapply Forall_forall in Hdom; [done|by eapply list_elem_of_lookup_2]).
  assert (dom r = list_to_set COLUMNS) as Hdr
    by (eapply Forall_forall in Hrows; [done|by eapply list_elem_of_lookup_2]).
  apply map_eq. intros c.
  destruct (decide (c ∈ COLUMNS)) as [HcC|HcC].
  2: { transitivity (@None cell); [|symmetry];
         apply not_elem_of_dom; rewrite ?Hdr, ?Hdr'; by rewrite elem_of_list_to_set. }
  rewrite (Hc c HcC), decide_True by done.
  assert (r !! c = Some (r !!! c)) as ->.
  { assert (c ∈ dom r) as [v Hv]%elem_of_dom
      by (rewrite Hdr; by apply elem_of_list_to_set).
    by rewrite lookup_total_alt, Hv. }
  f_equal. destruct (decide (c = "Web_Data_Updated")) as [->|Hnd].
  - unfold reads_back, pd.dt_strftime, date_column in Hback. cbn [rows] in Hback.
    apply (f_equal (λ l, l !! i)) in Hback.
    rewrite !list_lookup_fmap, Hr in Hback. unfold date_column in Ht. cbn [rows] in Ht.
    rewrite Ht in Hback. by injection Hback.
  - destruct (decide (c = "Last_Fee_Paid_Year")) as [->|Hny]; [|done].
    eapply Forall_forall in Hyears as (z & Hz & Hz64).
    2: { unfold year_column. cbn [rows]. apply list_elem_of_fmap. exists r.
         split; [reflexivity|]. by eapply list_elem_of_lookup_2. }
    cbn beta in Hz. rewrite Hz. unfold year_value. cbn [mbind option_bind].
    by rewrite Hz64.
Qed.

(** X9. [load_data] changes nothing in a frame that is as the handlers write
    it (the twelve columns, years that are integers of 64 bits, stamps the
    date parser reads back): when [conn.read] answers such a frame,
    [load_data] returns exactly that frame, shows no error and caches it. *)
Theorem load_data_returns_written_frame td (w : World) raw :
  (∀ col, length (td col) = length col) →
  cache w = None →
  conn_ok w = true →
  read_answers w raw →
  normalised raw →
  reads_back td (date_column raw) →
  ∃ w', load_data td w = (Ok raw, w')
        ∧ page w' = page w
        ∧ sheet w' = sheet w
        ∧ cache w' = Some (raw, []).
Proof.
  intros Hlen Hcache Hconn Hans Hnorm Hback. unfold load_data.
  destruct (load_data_body_normalised td w raw Hlen Hconn Hans Hnorm Hback)
    as (w' & Hrun & Hpage & Hsheet & _).
  rewrite Hcache, Hrun.
  eexists. split; [reflexivity|]. cbn [page sheet cache set_cache].
  by rewrite Hpage, drop_all.
Qed.

Lemma load_data_returns_written_frame_witness :
  ∃ w', load_data iso_to_datetime (fresh clubs_frame) = (Ok clubs_frame, w')
        ∧ page w' = page (fresh clubs_frame)
        ∧ sheet w' = sheet (fresh clubs_frame)
        ∧ cache w' = Some (clubs_frame, []).
Proof.
  apply (load_data_returns_written_frame iso_to_datetime (fresh clubs_frame) clubs_frame).
  - intros col. apply length_fmap.
  - reflexivity.
  - reflexivity.
  - right. repeat split.
  - split; [split; [reflexivity|apply (bool_decide_unpack _); vm_compute; exact I]|].
    apply Forall_fmap. unfold clubs_frame. cbn [rows].
    apply Forall_cons. split; [exists 2021; split; vm_compute; reflexivity|].
    apply Forall_cons. split; [exists 2023; split; vm_compute; reflexivity|].
    apply Forall_cons. split; [exists 2019; split; vm_compute; reflexivity|].
    by apply Forall_nil.
  - vm_compute. reflexivity.
Defined.

(** A frame whose year does not fit in 64 bits is not returned: the load
    takes the failure path. *)
Example load_data_rejects_wide_year :
  let sheet := Frame COLUMNS [club_row "Rotary" "Ada" (VInt (2 ^ 63)) "2024-05-01"] in
  (load_data iso_to_datetime (fresh sheet)).1 = Ok (Frame COLUMNS []).
Proof. vm_compute. reflexivity. Qed.

(** ** More on the relational variant *)

(** What the form does to the database when the statement is accepted. *)
Lemma new_group_form_inserts (input : Py.str) (w : App.World) :
  input ≠ "" →
  App.db_ok w = true →
  "Group_Association" ∈ columns (App.table w) →
  App.new_group_form input true w
  = (Raise RerunException,
     App.show [App.success_added (Py.strip input)]
       (App.append_row {[ "id" := VInt (App.next_id w);
                          "Group_Association" := VStr (Py.strip input) ]}
          (App.log_statement (App.InsertGroup (Py.strip input)) w))).
Proof.
  intros Hne Hdb Hcol. unfold App.new_group_form.
  rewrite (bool_decide_eq_false_2 (input = [])) by exact Hne. cbn [negb andb].
  unfold App.add_new_group, try_except, App.execute_insert.
  cbv [mbind script_bind update lift].
  cbn [App.db_ok App.table App.log_statement].
  by rewrite Hdb, bool_decide_eq_true_2.
Qed.

(** X11. In the relational variant, after a name has been inserted, fetching
    the records of that (stripped) name gives, in the order the database
    chooses, the records the table already held under it and the new one,
    each once; every record fetched bears the name. *)
Theorem relational_insert_then_fetch (scan : list row → list row)
    (input : Py.str) (w : App.World) :
  (∀ l, scan l ≡ₚ l) →
  input ≠ "" →
  App.db_ok w = true →
  "Group_Association" ∈ columns (App.table w) →
  ∃ (stored : row) fetched w',
    App.fetch_data_by_group scan (VStr (Py.strip input))
      (App.new_group_form input true w).2
    = (Ok fetched, w')
    ∧ columns fetched = columns (App.table w)
    ∧ rows fetched
      ≡ₚ filter (λ r : row,
                   cell_eqb (r !!! "Group_Association") (VStr (Py.strip input)))
                (rows (App.table w)) ++ [stored]
    ∧ stored !! "Group_Association" = Some (VStr (Py.strip input))
    ∧ Forall (λ r : row, r !!! "Group_Association" = VStr (Py.strip input))
             (rows fetched)
    ∧ App.table w' = App.table (App.new_group_form input true w).2.
Proof.
  intros Hscan Hne Hdb Hcol. rewrite new_group_form_inserts by done. cbn [snd].
  set (stored := pd.reindex (columns (App.table w))
                   {[ "id" := VInt (App.next_id w);
                      "Group_Association" := VStr (Py.strip input) ]}).
  assert (stored !!! "Group_Association" = VStr (Py.strip input)) as Hstored.
  { unfold stored. rewrite lookup_total_alt, lookup_reindex, decide_True by done. cbn.
    rewrite lookup_total_alt, lookup_insert_ne by done.
    by rewrite lookup_singleton_eq. }
  exists stored. eexists _, _. split; [|split; [|split; [|split; [|split]]]].
  - unfold App.fetch_data_by_group, App.read_sql.
    cbv [mbind script_bind mret script_ret lift].
    cbn [App.db_ok App.table App.show App.append_row App.log_statement columns rows].
    rewrite Hdb. cbn [columns]. rewrite decide_True by done. reflexivity.
  - reflexivity.
  - cbn [rows]. rewrite Hscan. fold stored.
    rewrite filter_app, (filter_cons_True _ stored); [done|].
    by apply Is_true_true, cell_eqb_VStr.
  - unfold stored. rewrite lookup_reindex, decide_True by done.
    rewrite lookup_total_alt, lookup_insert_ne by done.
    by rewrite lookup_singleton_eq.
  - cbn [rows]. rewrite Hscan. apply Forall_forall.
    intros r [Hr _]%list_elem_of_filter. by apply Is_true_true, cell_eqb_VStr in Hr.
  - reflexivity.
Qed.

Lemma relational_insert_then_fetch_witness :
  ∃ (stored : row) fetched w',
    App.fetch_data_by_group reverse (VStr "Rotary")
      (App.new_group_form " Rotary " true rotary_table).2
    = (Ok fetched, w')
    ∧ columns fetched = columns (App.table rotary_table)
    ∧ rows fetched
      ≡ₚ filter (λ r : row, cell_eqb (r !!! "Group_Association") (VStr "Rotary"))
                (rows (App.table rotary_table)) ++ [stored]
    ∧ stored !! "Group_Association" = Some (VStr "Rotary")
    ∧ Forall (λ r : row, r !!! "Group_Association" = VStr "Rotary") (rows fetched)
    ∧ App.table w' = App.table (App.new_group_form " Rotary " true rotary_table).2.
Proof.
  apply (relational_insert_then_fetch reverse " Rotary " rotary_table).
  - intros l. apply reverse_Permutation.
  - discriminate.
  - reflexivity.
  - apply (bool_decide_unpack _). vm_compute. exact I.
Defined.

(** With a database that answers the newest row first. *)
Example relational_fetch_sample :
  (λ df, (λ r : row, r !!! "id") <$> rows df)
  <$> (App.fetch_data_by_group reverse (VStr "Rotary")
         (App.new_group_form " Rotary " true rotary_table).2).1
  = Ok [VInt 2; VInt 1].
Proof. vm_compute. reflexivity. Qed.

(** X12. The form of the relational variant either inserts and reruns, or
    returns and leaves the table as it was: the table gains a row only when
    the run ends in the rerun, and nothing else is ever raised. *)
Theorem new_group_form_outcome (input : Py.str) (sub : bool) (w : App.World) :
  (∃ stored : row,
     (App.new_group_form input sub w).1 = Raise RerunException
     ∧ sub = true ∧ input ≠ ""
     ∧ columns (App.table (App.new_group_form input sub w).2) = columns (App.table w)
     ∧ rows (App.table (App.new_group_form input sub w).2)
       = rows (App.table w) ++ [stored]
     ∧ App.page (App.new_group_form input sub w).2
       = App.page w ++ [App.success_added (Py.strip input)])
  ∨ ((App.new_group_form input sub w).1 = Ok ()
     ∧ App.table (App.new_group_form input sub w).2 = App.table w).
Proof.
  unfold App.new_group_form.
  destruct sub; [|by right].
  destruct (decide (input = [])) as [->|Hne]; [by right|].
  rewrite (bool_decide_eq_false_2 (input = [])) by exact Hne. cbn [negb andb].
  unfold App.add_new_group, try_except, App.execute_insert.
  cbv [mbind script_bind update lift].
  destruct (App.db_ok w && _); [|by right].
  left. by eexists.
Qed.

(** X13. For a column of the table whose label is plain, [update_record]
    never raises and touches that column of the records with the given id
    only: the table keeps its columns and its rows, every other cell is as
    before, and when the statement fails the table is as it was and the
    error is shown. *)
Theorem update_record_changes_one_column stored spliced record_id column_name
    new_value (w : AppEdit.World) :
  AppEdit.plain_label column_name = true →
  column_name ∈ columns (App.table (AppEdit.db w)) →
  let out := AppEdit.update_record stored spliced record_id column_name new_value w in
  let t := App.table (AppEdit.db w) in
  let t' := App.table (AppEdit.db out.2) in
  out.1 = Ok ()
  ∧ columns t' = columns t
  ∧ length (rows t') = length (rows t)
  ∧ (∀ i (r : row), rows t !! i = Some r →
       ∃ r' : row, rows t' !! i = Some r'
         ∧ (∀ c, c ≠ column_name → r' !! c = r !! c)
         ∧ (cell_eqb (r !!! "id") record_id = false → r' = r))
  ∧ (AppEdit.page out.2 = AppEdit.page w ++ [AppEdit.success_updated column_name record_id]
     ∨ ∃ e, AppEdit.page out.2 = AppEdit.page w ++ [AppEdit.error_updating e] ∧ t' = t).
Proof.
  intros Hplain Hcol.
  cbv zeta. unfold AppEdit.update_record, AppEdit.execute_update, try_except.
  cbv [mbind script_bind update].
  cbn [AppEdit.db AppEdit.log_update].
  rewrite Hplain, bool_decide_eq_true_2 by done. cbn [andb].
  assert (∀ i (r : row), rows (App.table (AppEdit.db w)) !! i = Some r →
            ∃ r' : row, rows (App.table (AppEdit.db w)) !! i = Some r'
              ∧ (∀ c, c ≠ column_name → r' !! c = r !! c)
              ∧ (cell_eqb (r !!! "id") record_id = false → r' = r)) as Hsame
    by (intros i r Hr; by exists r).
  destruct (App.db_ok (AppEdit.db w)); cbn [negb].
  2: { cbn. do 4 (split; [done|]). right. by eexists. }
  destruct (bool_decide ("id" ∈ _)).
  2: { cbn. do 4 (split; [done|]). right. by eexists. }
  destruct (stored column_name new_value) as [v|].
  2: { cbn. do 4 (split; [done|]). right. by eexists. }
  cbn. split; [done|]. split; [done|]. split; [by rewrite length_fmap|].
  split; [|by left].
  intros i r Hr. rewrite list_lookup_fmap, Hr. cbn.
  eexists. split; [reflexivity|].
  destruct (cell_eqb (r !!! "id") record_id); [|done].
  split; [|done]. intros c Hc. by rewrite lookup_insert_ne.
Qed.

Lemma update_record_changes_one_column_witness :
  let out := AppEdit.update_record sample_stored sample_spliced (VInt 2)
               "Last_Fee_Paid_Year" "2024" lions_table in
  let t := App.table (AppEdit.db lions_table) in
  let t' := App.table (AppEdit.db out.2) in
  out.1 = Ok ()
  ∧ columns t' = columns t
  ∧ length (rows t') = length (rows t)
  ∧ (∀ i (r : row), rows t !! i = Some r →
       ∃ r' : row, rows t' !! i = Some r'
         ∧ (∀ c, c ≠ "Last_Fee_Paid_Year" → r' !! c = r !! c)
         ∧ (cell_eqb (r !!! "id") (VInt 2) = false → r' = r))
  ∧ (AppEdit.page out.2
     = AppEdit.page lions_table
       ++ [AppEdit.success_updated "Last_Fee_Paid_Year" (VInt 2)]
     ∨ ∃ e, AppEdit.page out.2 = AppEdit.page lions_table ++ [AppEdit.error_updating e]
            ∧ t' = t).
Proof.
  apply (update_record_changes_one_column sample_stored sample_spliced (VInt 2)
           "Last_Fee_Paid_Year" "2024" lions_table).
  - reflexivity.
  - apply (bool_decide_unpack _). vm_compute. exact I.
Defined.

(** The update of the year of the second record, and the same statement for
    a year the database refuses. *)
Example update_record_sample :
  let years new_value :=
    let out := AppEdit.update_record sample_stored sample_spliced (VInt 2)
                 "Last_Fee_Paid_Year" new_value lions_table in
    ((λ r : row, r !!! "Last_Fee_Paid_Year") <$> rows (App.table (AppEdit.db out.2)),
     AppEdit.page out.2) in
  years "2024" = ([VInt 2023; VInt 2024],
                  [AppEdit.success_updated "Last_Fee_Paid_Year" (VInt 2)])
  ∧ years "soon" = ([VInt 2023; VInt 2022], [AppEdit.error_updating BackendError]).
Proof. vm_compute. split; reflexivity. Qed.

Lemma keys_kept_refl (w : AppEdit.World) : keys_kept w w.
Proof. by split. Qed.

Lemma keys_kept_trans (w1 w2 w3 : AppEdit.World) :
  keys_kept w1 w2 → keys_kept w2 w3 → keys_kept w1 w3.
Proof.
  intros [Hc1 Hk1] [Hc2 Hk2]. split; [congruence|].
  intros c Hc. by rewrite Hk2, Hk1.
Qed.

Lemma careful_quiet {A} cols (m : AppEdit.script A) :
  (∀ w, AppEdit.db (m w).2 = AppEdit.db w
        ∧ AppEdit.updates (m w).2 = AppEdit.updates w) →
  careful cols m.
Proof.
  intros Hm w _. destruct (Hm w) as [Hdb Hup]. split; [|by left].
  unfold keys_kept. by rewrite Hdb.
Qed.

(** A fragment followed by another, which may rely on what the first one
    returns. *)
Lemma careful_bind {A B} cols (Q : A → Prop) (m : AppEdit.script A)
    (k : A → AppEdit.script B) :
  careful cols m →
  (∀ w a w1, columns (App.table (AppEdit.db w)) = cols → m w = (Ok a, w1) → Q a) →
  (∀ a, Q a → careful cols (k a)) →
  careful cols (m ≫= k).
Proof.
  intros Hm HQ Hk w Hcols. cbv [mbind script_bind].
  destruct (Hm w Hcols) as [Hkeys Hups].
  destruct (m w) as [[a|e] w1] eqn:Hmw; cbn [fst snd] in *.
  - assert (columns (App.table (AppEdit.db w1)) = cols) as Hcols1
      by (destruct Hkeys as [-> _]; done).
    destruct (Hk a (HQ w a w1 Hcols Hmw) w1 Hcols1) as [Hkeys' Hups'].
    split; [by eapply keys_kept_trans|].
    destruct Hups as [Hu|(u & Hu & Hr & _)]; [|done].
    rewrite <- Hu. done.
  - split; [done|]. destruct Hups as [?|(u & Hu & Hr & Hcol)]; [by left|].
    injection Hr as ->. right. by exists u.
Qed.

Lemma careful_for_each {A} cols (l : list A) (body : A → AppEdit.script unit) :
  (∀ x, x ∈ l → careful cols (body x)) → careful cols (AppEdit.for_each l body).
Proof.
  induction l as [|x l IH]; intros Hbody.
  - apply careful_quiet. by intros w.
  - unfold AppEdit.for_each. cbn [foldr].
    apply (careful_bind cols (λ _, True)); [|done|].
    + apply Hbody, elem_of_cons. by left.
    + intros [] _. apply IH. intros y Hy. apply Hbody, elem_of_cons. by right.
Qed.

Lemma careful_update_record cols stored spliced record_id column_name new_value :
  column_name ∉ AppEdit.non_editable_cols →
  column_name ∈ cols →
  AppEdit.plain_label column_name = true →
  careful cols
    (_ ← AppEdit.update_record stored spliced record_id column_name new_value;
     (lift (Raise RerunException) : AppEdit.script unit)).
Proof.
  intros Hcol Hin Hplain w Hcols.
  unfold AppEdit.update_record, AppEdit.execute_update, try_except.
  cbv [mbind script_bind update lift]. cbn [AppEdit.db AppEdit.log_update].
  rewrite Hcols, Hplain, bool_decide_eq_true_2 by done. cbn [andb].
  assert (∀ es, keys_kept w
            (AppEdit.show es
               (AppEdit.log_update
                  {| AppEdit.set_column := column_name; AppEdit.set_value := new_value;
                     AppEdit.where_id := record_id |} w))) as Hsame by (by intros es).
  destruct (App.db_ok (AppEdit.db w)); cbn [negb].
  2: { cbn [Py.is_Exception fst snd]. split; [apply Hsame|]. right. by eexists. }
  destruct (bool_decide ("id" ∈ _)).
  2: { cbn [Py.is_Exception fst snd]. split; [apply Hsame|]. right. by eexists. }
  destruct (stored column_name new_value) as [v|].
  2: { cbn [Py.is_Exception fst snd]. split; [apply Hsame|]. right. by eexists. }
  cbn [fst snd]. split; [|right; by eexists].
  split; [by rewrite <- Hcols|]. intros c Hc. cbn. rewrite <- list_fmap_compose.
  apply list_fmap_ext. intros i r _. cbn.
  destruct (cell_eqb (r !!! "id") record_id); [|done].
  apply lookup_insert_ne. by intros ->.
Qed.

(** X14. On a table whose column labels are plain, the edit form of the
    relational variant never changes a key: after it has run, whatever was
    typed and pressed and in whatever order the database answers, the table
    has the columns it had and the [id] and [Group_Association] cells it had,
    row by row. It sends at most one [UPDATE], on an editable column, and
    then ends in the rerun. *)
Theorem edit_form_keeps_keys scan stored spliced str selected_group text_input button
    (w : AppEdit.World) :
  Forall (λ c, AppEdit.plain_label c = true) (columns (App.table (AppEdit.db w))) →
  let out := AppEdit.edit_form scan stored spliced str selected_group text_input
               button w in
  columns (App.table (AppEdit.db out.2)) = columns (App.table (AppEdit.db w))
  ∧ (λ r : row, r !! "id") <$> rows (App.table (AppEdit.db out.2))
    = (λ r : row, r !! "id") <$> rows (App.table (AppEdit.db w))
  ∧ (λ r : row, r !! "Group_Association") <$> rows (App.table (AppEdit.db out.2))
    = (λ r : row, r !! "Group_Association") <$> rows (App.table (AppEdit.db w))
  ∧ (AppEdit.updates out.2 = AppEdit.updates w
     ∨ ∃ u, AppEdit.updates out.2 = AppEdit.updates w ++ [u]
            ∧ out.1 = Raise RerunException
            ∧ AppEdit.set_column u ≠ "id"
            ∧ AppEdit.set_column u ≠ "Group_Association").
Proof.
  intros Hplain.
  set (cols := columns (App.table (AppEdit.db w))) in *.
  assert (careful cols
            (AppEdit.edit_form scan stored spliced str selected_group text_input button))
    as Hcareful.
  { unfold AppEdit.edit_form. destruct (truthy selected_group).
    2: { apply careful_quiet. by intros w0. }
    apply (careful_bind cols (λ data_df, columns data_df = cols)).
    { intros w0 _. unfold AppEdit.on_db, App.fetch_data_by_group, App.read_sql.
      cbv [mbind script_bind mret script_ret lift].
      split; [|left].
      - destruct (App.db_ok (AppEdit.db w0)); [|done].
        cbn [columns]. by destruct (decide _).
      - destruct (App.db_ok (AppEdit.db w0)); [|done].
        cbn [columns]. by destruct (decide _). }
    { intros w0 data_df w1 Hcols0.
      unfold AppEdit.on_db, App.fetch_data_by_group, App.read_sql.
      cbv [mbind script_bind mret script_ret lift].
      destruct (App.db_ok (AppEdit.db w0)); [|done].
      cbn [columns]. destruct (decide _); [|done]. by intros [= <- _]. }
    intros data_df Hdata. destruct (pd.empty data_df).
    { apply careful_quiet. by intros w0. }
    apply careful_for_each. intros r _.
    apply (careful_bind cols (λ _, True)); [|done|].
    { apply careful_quiet. by intros w0. }
    intros record_id _. apply careful_for_each. intros col Hin.
    destruct (bool_decide (col ∈ AppEdit.non_editable_cols)) eqn:Hcol.
    { apply careful_quiet. by intros w0. }
    apply bool_decide_eq_false in Hcol.
    destruct (negb _); [|apply careful_quiet; by intros w0].
    destruct (button record_id col); [|apply careful_quiet; by intros w0].
    rewrite Hdata in Hin. apply careful_update_record; [done|done|].
    by eapply Forall_forall in Hplain. }
  cbv zeta. destruct (Hcareful w eq_refl) as [[Hcols Hkeys] Hups].
  split; [done|]. split; [|split].
  - apply Hkeys. apply elem_of_cons. by left.
  - apply Hkeys. apply elem_of_cons. right. apply elem_of_cons. by left.
  - destruct Hups as [?|(u & Hu & Hr & Hcol)]; [by left|]. right. exists u.
    do 2 (split; [done|]). split; intros Heq; apply Hcol; rewrite Heq.
    + apply elem_of_cons. by left.
    + apply elem_of_cons. right. apply elem_of_cons. by left.
Qed.

Lemma edit_form_keeps_keys_witness :
  let typed := λ (id : cell) (col : string) (current : Py.str),
                 if bool_decide (id = VInt 2) && String.eqb col "Last_Fee_Paid_Year"
                 then ("2024" : Py.str) else current in
  let out := AppEdit.edit_form reverse sample_stored sample_spliced sample_str
               (VStr "Lions Club") typed (λ id col, true) lions_table in
  columns (App.table (AppEdit.db out.2)) = columns (App.table (AppEdit.db lions_table))
  ∧ (λ r : row, r !! "id") <$> rows (App.table (AppEdit.db out.2))
    = (λ r : row, r !! "id") <$> rows (App.table (AppEdit.db lions_table))
  ∧ (λ r : row, r !! "Group_Association") <$> rows (App.table (AppEdit.db out.2))
    = (λ r : row, r !! "Group_Association") <$> rows (App.table (AppEdit.db lions_table))
  ∧ (AppEdit.updates out.2 = AppEdit.updates lions_table
     ∨ ∃ u, AppEdit.updates out.2 = AppEdit.updates lions_table ++ [u]
            ∧ out.1 = Raise RerunException
            ∧ AppEdit.set_column u ≠ "id"
            ∧ AppEdit.set_column u ≠ "Group_Association").
Proof.
  apply (edit_form_keeps_keys reverse sample_stored sample_spliced sample_str
           (VStr "Lions Club")
           (λ (id : cell) (col : string) (current : Py.str),
              if bool_decide (id = VInt 2) && String.eqb col "Last_Fee_Paid_Year"
              then ("2024" : Py.str) else current)
           (λ id col, true) lions_table).
  apply (bool_decide_unpack _). vm_compute. exact I.
Defined.

Example edit_form_sample :
  let out := AppEdit.edit_form id sample_stored sample_spliced sample_str
               (VStr "Lions Club")
               (λ id col current,
                  if bool_decide (id = VInt 2) && String.eqb col "Last_Fee_Paid_Year"
                  then "2024" else current)
               (λ id col, true) lions_table in
  out.1 = Raise RerunException
  ∧ (λ r : row, r !!! "Last_Fee_Paid_Year") <$> rows (App.table (AppEdit.db out.2))
    = [VInt 2023; VInt 2024]
  ∧ AppEdit.page out.2
    = [AppEdit.info_shown "id" (VInt 1);
       AppEdit.info_shown "Group_Association" (VStr "Lions Club");
       AppEdit.info_shown "id" (VInt 2);
       AppEdit.info_shown "Group_Association" (VStr "Lions Club");
       AppEdit.success_updated "Last_Fee_Paid_Year" (VInt 2)].
Proof. vm_compute. repeat split. Qed.

(** ** Reruns and the sheet *)

Lemma group_options_raise df e : group_options df = Raise e → e ≠ RerunException.
Proof.
  unfold group_options.
  destruct (pd.getitem df _) as [col|e0] eqn:Hcol.
  - cbn [mbind Py.result_bind]. unfold pd.sort_values.
    destruct (forallb _ _); [done|]. destruct (forallb _ _); [done|].
    cbn [mbind Py.result_bind]. by intros [= <-].
  - cbn [mbind Py.result_bind]. apply getitem_raise in Hcol as ->. by intros [= <-].
Qed.

Lemma selected_row_raise df name e : selected_row df name = Raise e → e ≠ RerunException.
Proof.
  unfold selected_row. destruct (pd.getitem df _) as [col|e0] eqn:Hcol; [done|].
  cbn [mbind Py.result_bind]. apply getitem_raise in Hcol as ->. by intros [= <-].
Qed.

Lemma data_to_edit_raise sel e : data_to_edit sel = Raise e → e ≠ RerunException.
Proof.
  unfold data_to_edit, pd.drop_columns.
  destruct (list_find _ _) as [[? ?]|]; [|done].
  cbn [mbind Py.result_bind]. by intros [= <-].
Qed.

Lemma save_changes_saved_or_untouched today name (edited : dict) rest (w : World) df :
  df_orgaco w = Some df →
  shaped df →
  (∀ k, k ∈ edited.*1 → k ∈ COLUMNS) →
  saved_or_untouched w (save_changes today name (edited :: rest) w).
Proof.
  intros Hs [Hcols Hrows] Hkeys.
  assert ("Group_Association" ∈ columns df) as Hg
    by (rewrite Hcols; apply group_in_COLUMNS).
  destruct (decide (true ∈ pd.eq_mask (group_column df) name)) as [Hmask|Hno].
  - destruct (first_index_where _ Hmask) as (idx & Hfirst & _ & _).
    rewrite (save_changes_runs today name edited rest w df idx); try done.
    2: { rewrite Hcols. apply (bool_decide_unpack _). vm_compute. exact I. }
    2: { intros k Hk. rewrite Hcols. by apply Hkeys. }
    destruct (conn_ok w), (write_ok w); [by right|by left..].
  - left. unfold save_changes. run_script. rewrite Hs, getitem_group by done.
    by rewrite index_where_no_match by done.
Qed.

Lemma tab1_saved_or_untouched today selected (editor : list dict → list dict) clicked
    (w : World) df :
  df_orgaco w = Some df →
  shaped df →
  keeps_keys editor →
  saved_or_untouched w (tab1 today selected editor clicked w).
Proof.
  intros Hs Hdf Hed. unfold tab1. run_script. rewrite Hs.
  destruct (group_options df) as [opts|e] eqn:Hopts.
  2: { left. split; [done|]. cbn [fst]. apply group_options_raise in Hopts. congruence. }
  destruct selected as [name|]; [|by left].
  destruct (truthy name); [|by left].
  destruct (selected_row df name) as [sel|e] eqn:Hsel.
  2: { left. split; [done|]. cbn [fst]. apply selected_row_raise in Hsel. congruence. }
  destruct (pd.empty sel) eqn:Hempty; [by left|]. cbn [negb].
  destruct (data_to_edit sel) as [data|e] eqn:Hdata.
  2: { left. split; [done|]. cbn [fst]. apply data_to_edit_raise in Hdata. congruence. }
  destruct clicked; [|by left].
  destruct (selected_row_rows _ _ _ Hsel) as [Hg ->].
  destruct (data_to_edit_keys _ _ Hdata) as (_ & _ & Hlen & Hkeys).
  cbn [columns rows] in Hlen, Hkeys.
  unfold pd.empty in Hempty. cbn [rows] in Hempty.
  apply bool_decide_eq_false in Hempty.
  destruct data as [|d data].
  { destruct (filter _ (rows df)); [done|discriminate Hlen]. }
  apply Forall_cons in Hkeys as [Hd _].
  pose proof (Hed (d :: data)) as Hout.
  destruct (editor (d :: data)) as [|edited rest] eqn:Heditor;
    [by inversion Hout|].
  apply Forall2_cons in Hout as [Hkeep _].
  apply (save_changes_saved_or_untouched today name edited rest w df); [done..|].
  intros k. rewrite Hkeep, Hd. destruct Hdf as [-> _].
  by intros [_ Hin]%list_elem_of_filter.
Qed.

Lemma tab2_saved_or_untouched today f sub (w : World) df :
  df_orgaco w = Some df →
  shaped df →
  saved_or_untouched w (tab2 today f sub w).
Proof.
  intros Hs Hdf.
  destruct sub; [|by left].
  destruct (decide (new_group_name f = "")) as [Hempty|Hne].
  { left. unfold tab2.
    by rewrite (bool_decide_eq_true_2 (new_group_name f = [])) by exact Hempty. }
  destruct (decide (VStr (new_group_name f) ∈ group_column df)) as [Hin|Hnew].
  - left. unfold tab2.
    rewrite (bool_decide_eq_false_2 (new_group_name f = [])) by exact Hne.
    run_script. rewrite Hs.
    rewrite getitem_group by (destruct Hdf as [-> _]; apply group_in_COLUMNS).
    apply py_in_VStr in Hin. by rewrite Hin.
  - rewrite (tab2_new_name today f w df) by done.
    destruct (conn_ok w), (write_ok w); [by right|by left..].
Qed.

Lemma init_session_sheet td (w : World) : sheet (init_session td w).2 = sheet w.
Proof.
  unfold init_session. destruct (df_orgaco w); [done|].
  cbv [mbind script_bind update]. unfold load_data.
  destruct (cache w) as [[df es]|]; [done|].
  destruct (load_data_body_effects td w) as (df & w' & es & -> & _ & Hsheet & _).
  done.
Qed.

(** X15. A run of the script writes to the sheet only on its way to a rerun:
    either the run leaves the sheet as it was and does not end in the rerun,
    or it ends in the rerun, and then the sheet holds exactly the session
    frame and the cache of [load_data] is cleared. *)
Theorem script_run_saved_or_untouched td (i : interaction) (w : World) :
  session_shaped w →
  keeps_keys (st_data_editor i) →
  saved_or_untouched w (script_run td i w).
Proof.
  intros Hw Hed.
  assert (session_shaped (clear_page w)) as Hw0 by done.
  destruct (init_session_session td (clear_page w) Hw0)
    as (d1 & w1 & Hinit & Hs1 & Hd1 & _ & _).
  assert (sheet w1 = sheet w) as Hsheet1.
  { pose proof (init_session_sheet td (clear_page w)) as H. by rewrite Hinit in H. }
  pose proof (tab1_saved_or_untouched (today i) (selected_group_name i)
                (st_data_editor i) (save_clicked i) w1 d1 Hs1 Hd1 Hed) as H1.
  destruct (tab1_session (today i) (selected_group_name i) (st_data_editor i)
              (save_clicked i) w1 d1 Hs1 Hd1 Hed) as (d2 & Hs2 & Hd2 & _).
  unfold saved_or_untouched in *.
  unfold script_run. cbv [mbind script_bind update]. rewrite Hinit.
  destruct (tab1 _ _ _ _ w1) as [[[]|e1] w2] eqn:Hrun1; cbn [fst snd] in *.
  2: { destruct H1 as [[Hsh Hne]|([= ->] & Hsaved)]; [|by right].
       left. split; [congruence|]. intros [= ->]. by apply Hne. }
  destruct H1 as [[Hsh _]|[[=] _]].
  pose proof (tab2_saved_or_untouched (today i) (new_group i) (submitted i)
                w2 d2 Hs2 Hd2) as H2.
  unfold saved_or_untouched in H2.
  destruct (tab2 _ _ _ w2) as [[[]|e2] w3] eqn:Hrun2; cbn [fst snd] in *.
  2: { destruct H2 as [[Hsh2 Hne]|([= ->] & Hsaved)]; [|by right].
       left. split; [congruence|]. intros [= ->]. by apply Hne. }
  destruct H2 as [[Hsh2 _]|[[=] _]].
  left. unfold sidebar. run_script.
  destruct (df_orgaco w3); cbn [fst snd sheet show]; split; congruence.
Qed.

Lemma script_run_saved_or_untouched_witness :
  saved_or_untouched (session true true)
    (script_run iso_to_datetime add_rotary (session true true)).
Proof.
  apply (script_run_saved_or_untouched iso_to_datetime add_rotary (session true true)).
  - split; [by intros df es|]. intros df [= <-].
    split; [reflexivity|]. apply Forall_singleton, dom_reindex.
  - apply edit_year_keeps_keys.
Defined.

Example script_run_sample :
  let out := script_run iso_to_datetime add_rotary (session true true) in
  out.1 = Raise RerunException
  ∧ group_column (sheet out.2) = [VStr "Lions Club"; VStr "Rotary"].
Proof. vm_compute. split; reflexivity. Qed.
